(** * fetch_tivo_recordings: a shallow embedding and its verified properties

    The Ansible module [fetch_tivo_recordings.py] lists the recordings of a
    TiVo device, optionally asks The TVDB for season and episode numbers,
    and downloads the matching recordings.  This file embeds its functions
    ([requests_wrapper], [get_request_json], [get_season_episode_num],
    [get_tivo_dl_link_from_element], [get_tivo_recording_info],
    [download_tivo_recording], [main]) as executable Rocq definitions in a
    small monad that threads the file system, records the observable
    events (requests, file writes, sleeps) and carries the three ways a
    Python call can stop early: [module.fail_json], [module.exit_json] and
    an uncaught exception. *)

From Stdlib Require Import ZArith List String Ascii Bool Lia DecimalString Sorted.
Import ListNotations.
Open Scope string_scope.
Open Scope Z_scope.

(** ** Python values used by the module *)

Module Py.

(** Truth value of a [str]: the empty string is false. *)
Definition truthy_str (s : string) : bool := negb (s =? "")%string.

(** Truth value of a [str] or [None]. *)
Definition truthy_ostr (o : option string) : bool :=
  match o with
  | Some s => truthy_str s
  | None => false
  end.

(** Truth value of an [int] or [None]: [None] and [0] are false. *)
Definition truthy_oint (o : option Z) : bool :=
  match o with
  | Some n => negb (n =? 0)
  | None => false
  end.

(** [a == b] on values that are a [str] or [None]. *)
Definition ostr_eqb (a b : option string) : bool :=
  match a, b with
  | Some x, Some y => (x =? y)%string
  | None, None => true
  | _, _ => false
  end.

(** [x is None]. *)
Definition is_None {A : Type} (o : option A) : bool :=
  match o with
  | Some _ => false
  | None => true
  end.

(** [str.lower] of a text of ASCII characters, where only the letters
    [A]..[Z] change.  It is what the worlds of the examples use, whose
    texts are ASCII, and what tells whether a lowered file name ends in
    [.tivo]: no other character than [T], [I], [V] and [O] becomes one of
    the letters of that ending. *)
Definition lower_ascii (c : ascii) : ascii :=
  let n := N_of_ascii c in
  if ((65 <=? n) && (n <=? 90))%N then ascii_of_N (n + 32) else c.

Fixpoint lower (s : string) : string :=
  match s with
  | EmptyString => EmptyString
  | String c s' => String (lower_ascii c) (lower s')
  end.

(** [str.strip] of a text of ASCII characters.  The characters it
    removes are the tab, line feed, vertical tab, form feed, carriage
    return, the four separators 28..31 and the space. *)
Definition is_space (c : ascii) : bool :=
  let n := N_of_ascii c in
  (((9 <=? n) && (n <=? 13)) || ((28 <=? n) && (n <=? 32)))%N.

Fixpoint lstrip (s : string) : string :=
  match s with
  | EmptyString => EmptyString
  | String c s' => if is_space c then lstrip s' else s
  end.

Fixpoint rstrip (s : string) : string :=
  match s with
  | EmptyString => EmptyString
  | String c s' =>
      match rstrip s' with
      | EmptyString => if is_space c then EmptyString else String c EmptyString
      | r => String c r
      end
  end.

Definition strip (s : string) : string := rstrip (lstrip s).

(** [str(n)] for an [int]. *)
Definition str_of_int (n : Z) : string := NilZero.string_of_int (Z.to_int n).

(** The format specifications [{:0=2d}] and [{:02d}]: the sign first, then
    zeros up to a total width of two, then the digits. *)
Definition format_02d (n : Z) : string :=
  let digits := NilEmpty.string_of_uint (N.to_uint (Z.abs_N n)) in
  if n <? 0 then "-" ++ digits
  else if (String.length digits <? 2)%nat then "0" ++ digits
  else digits.

(** [format] of a value that is a [str] or [None]. *)
Definition format_ostr (o : option string) : string :=
  match o with
  | Some s => s
  | None => "None"
  end.

End Py.

(** ** os.path, as posixpath defines it *)

Module OsPath.

(** [p.rfind(c)]: the index of the last [c] in [p], or [-1]. *)
Fixpoint rfind_from (c : ascii) (p : string) (i : Z) (found : Z) : Z :=
  match p with
  | EmptyString => found
  | String a p' => rfind_from c p' (i + 1) (if Ascii.eqb a c then i else found)
  end.

Definition rfind (c : ascii) (p : string) : Z := rfind_from c p 0 (-1).

(** [p[i:j]] for [0 <= i <= j]. *)
Definition slice (p : string) (i j : Z) : string :=
  substring (Z.to_nat i) (Z.to_nat (j - i)) p.

Fixpoint all_dots (s : string) : bool :=
  match s with
  | EmptyString => true
  | String a s' => Ascii.eqb a "." && all_dots s'
  end.

(** [os.path.splitext]: split at the last dot of the last path component,
    unless that component consists of leading dots up to there. *)
Definition splitext (p : string) : string * string :=
  let sepIndex := rfind "/" p in
  let dotIndex := rfind "." p in
  if (dotIndex >? sepIndex) && negb (all_dots (slice p (sepIndex + 1) dotIndex))
  then (slice p 0 dotIndex, slice p dotIndex (Z.of_nat (String.length p)))
  else (p, "").

Definition startswith_sep (b : string) : bool :=
  match b with
  | String "/" _ => true
  | _ => false
  end.

Fixpoint endswith_sep (a : string) : bool :=
  match a with
  | EmptyString => false
  | String c EmptyString => Ascii.eqb c "/"
  | String _ a' => endswith_sep a'
  end.

(** [os.path.join(a, b)]. *)
Definition join (a b : string) : string :=
  if startswith_sep b then b
  else if (a =? "")%string || endswith_sep a then a ++ b
  else a ++ "/" ++ b.

End OsPath.

(** ** The outside world *)

(** A [requests.Response]: [body] is the decoded payload ([rv.json()] for
    The TVDB, the parsed XML document for the TiVo, the chunks of
    [iter_content] for a download). *)
Record response (A : Type) : Type := mk_response {
  ok : bool;
  status_code : Z;
  content : string;
  body : A
}.
Arguments mk_response {A} _ _ _ _.
Arguments ok {A} _.
Arguments status_code {A} _.
Arguments content {A} _.
Arguments body {A} _.

(** What a call of [requests.get] or [requests.post] does: it returns a
    response, or raises [ConnectionError] or [ConnectTimeout]. *)
Inductive reply (A : Type) : Type :=
| Responded (rv : response A)
| ConnectionError.
Arguments Responded {A} _.
Arguments ConnectionError {A}.

(** The TiVo listing.  [Title] and [EpisodeTitle] are [None] when the
    element is missing and [Some text] otherwise, where [text] is the
    element's [.text] (itself [None] for an empty element).  [Url] is
    [None] when one of [Links], [Content], [Url] is missing. *)
Record Details : Type := mk_Details {
  Title : option (option string);
  EpisodeTitle : option (option string)
}.

Record Item : Type := mk_Item {
  item_Details : option Details;
  Url : option (option string)
}.

(** One parsed page: [ItemCount] is [int(xml_root.findtext('ItemCount'))]
    and [Items] is [xml_root.iter('Item')] in document order. *)
Record Page : Type := mk_Page {
  ItemCount : Z;
  Items : list Item
}.

(** The JSON documents of The TVDB.  A field that may be [null] is an
    [option]. *)
Record LoginJson : Type := mk_LoginJson { token : string }.

Record SeriesInfo : Type := mk_SeriesInfo { id : Z }.

Record SeriesJson : Type := mk_SeriesJson { series_data : list SeriesInfo }.

Record Episode : Type := mk_Episode {
  episodeName : option string;
  airedSeason : option Z;
  airedEpisodeNumber : option Z
}.

Record EpisodesJson : Type := mk_EpisodesJson {
  episodes_data : list Episode;
  links_next : option Z
}.

(** What the module relies on and does not define: the network, as the
    module sees it, and the two operations on text whose result depends on
    the character tables of the interpreter, [str.lower] and [str.strip].
    A JSON body is [None] when the document is false in Python ([{}],
    [null]).  Nothing is assumed of [str_lower] and [str_strip]: what is
    proved of the module holds whatever they do to a text. *)
Record World : Type := mk_World {
  tivo_query : string -> string -> Z -> reply Page;
  tivo_download : string -> string -> reply (list string);
  tvdb_login : string -> string -> string -> reply (option LoginJson);
  tvdb_search_series : string -> string -> reply (option SeriesJson);
  tvdb_episodes : string -> Z -> Z -> reply (option EpisodesJson);
  str_lower : string -> string;
  str_strip : string -> string
}.

(** The file-system calls of the module, over an abstract state.
    [can_open fs p] tells whether [open(p, 'wb')] succeeds: it raises
    where the file cannot be created, as when the directory it should be
    in does not exist.  [write_file fs p data] is the state after a
    successful [open(p, 'wb')] and the writes of [data]. *)
Class FileSystem (FS : Type) : Type := mk_FileSystem {
  isdir : FS -> string -> bool;
  isfile : FS -> string -> bool;
  exists_ : FS -> string -> bool;
  listdir : FS -> string -> list string;
  can_open : FS -> string -> bool;
  write_file : FS -> string -> string -> FS
}.

(** What the module does that can be observed from outside. *)
Inductive event : Type :=
| EvTivoQuery (offset : Z)
| EvTvdbLogin
| EvTvdbSeries (series_name : string)
| EvTvdbEpisodes (series_id : Z) (page : Z)
| EvTivoDownload (link : string)
| EvFileWritten (file_path : string)
| EvSleep (seconds : Z).

(** The uncaught Python exceptions the module can raise. *)
Inductive exception : Type :=
| AttributeError
| IndexError
| IOError.

(** How a call ends other than by returning: [module.fail_json],
    [module.exit_json], an uncaught exception, or a loop that has not
    finished within the fuel given to it. *)
Inductive stop : Type :=
| FailJson (msg : string)
| ExitJson (msg : string) (changed : bool)
| Raised (exc : exception)
| OutOfFuel.

Inductive result (A : Type) : Type :=
| Ret (a : A)
| Stop (s : stop).
Arguments Ret {A} _.
Arguments Stop {A} _.

(** A dictionary of [recordings]: [episode] is [recording_info.get('episode')],
    which is all the module reads of that key, and the two numbers are
    [recording_info.get('season_num')] and [recording_info.get('episode_num')]. *)
Record RecordingInfo : Type := mk_RecordingInfo {
  title : string;
  episode : option string;
  link : string;
  season_num : option Z;
  episode_num : option Z
}.

(** The parameters of the module ([module.params]). *)
Record Params : Type := mk_Params {
  p_hostname : string;
  p_mak : string;
  p_title : string;
  p_episode : option string;
  p_dest_dir : string;
  p_tvdb_api_key : option string;
  p_tvdb_user_key : option string;
  p_tvdb_username : option string;
  p_tvdb_ignore_failure : bool;
  p_skip_if_in_path : option string
}.

(** How the body of a [for] loop inside a function leaves the loop. *)
Inductive flow (A : Type) : Type :=
| Next (a : A)
| Return (a : A).
Arguments Next {A} _.
Arguments Return {A} _.

(** ** The monad of the module

    A computation reads and updates the file system, appends to the trace
    of events, and either returns a value or stops. *)

Definition M (FS A : Type) : Type := FS -> result A * FS * list event.

Definition ret {FS A : Type} (a : A) : M FS A :=
  fun fs => (Ret a, fs, []).

Definition bind {FS A B : Type} (m : M FS A) (k : A -> M FS B) : M FS B :=
  fun fs =>
    match m fs with
    | (Ret a, fs', t) =>
        match k a fs' with
        | (r, fs'', t') => (r, fs'', (t ++ t')%list)
        end
    | (Stop s, fs', t) => (Stop s, fs', t)
    end.

Definition halt {FS A : Type} (s : stop) : M FS A :=
  fun fs => (Stop s, fs, []).

Definition emit {FS : Type} (e : event) : M FS unit :=
  fun fs => (Ret tt, fs, [e]).

Notation "x <- c1 ;; c2" := (bind c1 (fun x => c2))
  (at level 61, c1 at next level, right associativity).
Notation "c1 ;; c2" := (bind c1 (fun _ => c2))
  (at level 61, right associativity).

(** [module.fail_json(msg=...)] and [module.exit_json(msg=..., changed=...)]
    end the process. *)
Definition fail_json {FS A : Type} (msg : string) : M FS A :=
  halt (FailJson msg).

Definition exit_json {FS A : Type} (msg : string) (changed : bool) : M FS A :=
  halt (ExitJson msg changed).

Definition raise {FS A : Type} (exc : exception) : M FS A :=
  halt (Raised exc).

(** [sleep(seconds)]. *)
Definition sleep {FS : Type} (seconds : Z) : M FS unit :=
  emit (EvSleep seconds).

(** The three components of what a computation did. *)
Definition result_of {FS A : Type} (x : result A * FS * list event) : result A :=
  fst (fst x).
Definition fs_of {FS A : Type} (x : result A * FS * list event) : FS :=
  snd (fst x).
Definition trace_of {FS A : Type} (x : result A * FS * list event) : list event :=
  snd x.

(** The double quote, for the messages that contain one. *)
Definition dq : string := String (ascii_of_nat 34) EmptyString.

Section FetchTivoRecordings.

Context {FS : Type} {fsops : FileSystem FS}.
Variable w : World.

(** [requests_wrapper]: [request] is the event of sending the request and
    [answer] is what the network does with it.  The result is the response
    when it is [ok], and [None] when the request failed and
    [fail_on_error] is false. *)
Definition requests_wrapper {A : Type} (request : event) (answer : reply A)
    (error_msg : string) (fail_on_error : bool) : M FS (option (response A)) :=
  emit request ;;
  match answer with
  | Responded rv =>
      if ok rv then ret (Some rv)
      else if fail_on_error then fail_json error_msg
      else ret None
  | ConnectionError =>
      if fail_on_error then fail_json error_msg
      else ret None
  end.

(** [get_request_json]. *)
Definition get_request_json {A : Type} (rv : response (option A))
    (error_msg : string) (fail_on_error : bool) : M FS (option A) :=
  if ok rv then ret (body rv)
  else
    let error_msg :=
      error_msg ++ " The status code was " ++ dq
        ++ Py.str_of_int (status_code rv) ++ dq
        ++ ". The following was returned " ++ dq ++ content rv ++ dq in
    if fail_on_error then fail_json error_msg
    else ret None.

(** The [for episode in rv_json['data']] loop of [get_season_episode_num]:
    [Return] carries the numbers of the first episode whose stripped,
    lower-cased name equals the lower-cased [episode_name]. *)
Fixpoint find_episode (data : list Episode) (episode_name : string)
    : M FS (flow (option Z * option Z)) :=
  match data with
  | [] => ret (Next (None, None))
  | episode :: data' =>
      match episodeName episode with
      | None => raise AttributeError
      | Some name =>
          if (str_lower w (str_strip w name) =? str_lower w episode_name)%string
          then ret (Return (airedSeason episode, airedEpisodeNumber episode))
          else find_episode data' episode_name
      end
  end.

(** The [while True] loop of [get_season_episode_num] over the pages of
    episodes. *)
Fixpoint episode_pages (fuel : nat) (tvdb_token : string) (series_id : Z)
    (episode_name : string) (error_msg : string) (fail_on_error : bool)
    (page : Z) : M FS (option Z * option Z) :=
  match fuel with
  | O => halt OutOfFuel
  | S fuel' =>
      rv <- requests_wrapper (EvTvdbEpisodes series_id page)
              (tvdb_episodes w tvdb_token series_id page)
              error_msg fail_on_error ;;
      match rv with
      | None => raise AttributeError
      | Some rv =>
          if negb (ok rv) then ret (None, None)
          else
            rv_json <- get_request_json rv error_msg fail_on_error ;;
            match rv_json with
            | None => ret (None, None)
            | Some rv_json =>
                found <- find_episode (episodes_data rv_json) episode_name ;;
                match found with
                | Return numbers => ret numbers
                | Next _ =>
                    if Py.truthy_oint (links_next rv_json) then
                      match links_next rv_json with
                      | Some next =>
                          episode_pages fuel' tvdb_token series_id
                            episode_name error_msg fail_on_error next
                      | None => ret (None, None)
                      end
                    else if fail_on_error then
                      fail_json ("The episode " ++ dq ++ episode_name ++ dq
                                 ++ " could not be found on The TVDB")
                    else ret (None, None)
                end
            end
      end
  end.

(** [get_season_episode_num]. *)
Definition get_season_episode_num (fuel : nat)
    (api_key user_key username series_name episode_name : string)
    (fail_on_error : bool) : M FS (option Z * option Z) :=
  let error_msg := "The request failed attempting to login to The TVDB" in
  rv <- requests_wrapper EvTvdbLogin (tvdb_login w api_key user_key username)
          error_msg fail_on_error ;;
  match rv with
  | None => ret (None, None)
  | Some rv =>
      if negb (ok rv) then ret (None, None)
      else
        rv_json <- get_request_json rv error_msg fail_on_error ;;
        match rv_json with
        | None => ret (None, None)
        | Some rv_json =>
            let tvdb_token := token rv_json in
            let error_msg :=
              "The request failed while getting the series " ++ dq
                ++ series_name ++ dq ++ " in The TVDB" in
            rv <- requests_wrapper (EvTvdbSeries series_name)
                    (tvdb_search_series w tvdb_token series_name)
                    error_msg fail_on_error ;;
            match rv with
            | None => raise AttributeError
            | Some rv =>
                if negb (ok rv) then ret (None, None)
                else
                  rv_json <- get_request_json rv error_msg fail_on_error ;;
                  match rv_json with
                  | None => ret (None, None)
                  | Some rv_json =>
                      match series_data rv_json with
                      | [] => raise IndexError
                      | series_info :: _ =>
                          let series_id := id series_info in
                          let error_msg :=
                            "The request failed getting the episodes in the series "
                              ++ dq ++ series_name ++ dq ++ " from The TVDB" in
                          episode_pages fuel tvdb_token series_id episode_name
                            error_msg fail_on_error 1
                      end
                  end
            end
        end
  end.

(** [get_tivo_dl_link_from_element]: any exception while walking
    [Links/Content/Url] fails the module. *)
Definition get_tivo_dl_link_from_element (item_element : Item) : M FS string :=
  match Url item_element with
  | Some text => ret (Py.format_ostr text ++ "&Format=video/x-tivo-mpeg")
  | None => fail_json "The data received from Tivo was in an unexpected format"
  end.

(** The [for child in xml_root.iter('Item')] loop of
    [get_tivo_recording_info]: [Return] is a [return recordings] from
    inside the loop, [Next] is the loop running to its end. *)
Fixpoint scan_items (title : string) (episode : option string)
    (items : list Item) (recordings : list RecordingInfo)
    : M FS (flow (list RecordingInfo)) :=
  match items with
  | [] => ret (Next recordings)
  | child :: items' =>
      match item_Details child with
      | None => scan_items title episode items' recordings
      | Some child_details =>
          match Title child_details with
          | None => raise AttributeError
          | Some current_title =>
              if negb (Py.ostr_eqb current_title (Some title))
              then scan_items title episode items' recordings
              else
                match EpisodeTitle child_details with
                | Some episode_text =>
                    if negb (Py.truthy_ostr episode)
                       || Py.ostr_eqb episode episode_text
                    then
                      dl <- get_tivo_dl_link_from_element child ;;
                      let recordings :=
                        (recordings
                           ++ [mk_RecordingInfo title episode_text dl None None])%list in
                      if Py.truthy_ostr episode then ret (Return recordings)
                      else scan_items title episode items' recordings
                    else scan_items title episode items' recordings
                | None =>
                    if Py.is_None episode then
                      dl <- get_tivo_dl_link_from_element child ;;
                      ret (Return
                             (recordings
                                ++ [mk_RecordingInfo title None dl None None])%list)
                    else scan_items title episode items' recordings
                end
          end
      end
  end.

(** The [while True] loop of [get_tivo_recording_info]. *)
Fixpoint listing_pages (fuel : nat) (hostname mak title : string)
    (episode : option string) (offset : Z) (recordings : list RecordingInfo)
    : M FS (list RecordingInfo) :=
  match fuel with
  | O => halt OutOfFuel
  | S fuel' =>
      rv <- requests_wrapper (EvTivoQuery offset) (tivo_query w hostname mak offset)
              "The request to get the recordings from Tivo failed." true ;;
      match rv with
      | None => raise AttributeError
      | Some rv =>
          let xml_root := body rv in
          let item_count := ItemCount xml_root in
          if item_count =? 0 then ret recordings
          else
            scanned <- scan_items title episode (Items xml_root) recordings ;;
            match scanned with
            | Return recordings => ret recordings
            | Next recordings =>
                listing_pages fuel' hostname mak title episode
                  (offset + item_count) recordings
            end
      end
  end.

(** [get_tivo_recording_info]. *)
Definition get_tivo_recording_info (fuel : nat) (hostname mak title : string)
    (episode : option string) : M FS (list RecordingInfo) :=
  listing_pages fuel hostname mak title episode 0 [].

(** The file name [download_tivo_recording] computes.  The numbers are
    formatted only when both are true in Python, hence integers: the last
    case of the inner [match] is never taken. *)
Definition file_name_of (recording_info : RecordingInfo) : string :=
  if Py.truthy_oint (season_num recording_info)
     && Py.truthy_oint (episode_num recording_info)
  then
    match season_num recording_info, episode_num recording_info with
    | Some s, Some e =>
        title recording_info ++ " - S" ++ Py.format_02d s ++ "E" ++ Py.format_02d e
          ++ " - " ++ Py.format_ostr (episode recording_info) ++ ".TiVo"
    | _, _ => title recording_info ++ ".TiVo"
    end
  else if Py.truthy_ostr (episode recording_info) then
    title recording_info ++ " - " ++ Py.format_ostr (episode recording_info) ++ ".TiVo"
  else title recording_info ++ ".TiVo".

(** The [for item in listdir(skip_path)] loop of [download_tivo_recording]:
    [true] when the loop returns [False] from the function. *)
Fixpoint skip_path_has (fs : FS) (skip_path : string) (items : list string)
    (file_name_no_ext : string) : bool :=
  match items with
  | [] => false
  | item :: items' =>
      if isfile fs (OsPath.join skip_path item) then
        let item_no_ext := fst (OsPath.splitext item) in
        if (item_no_ext =? file_name_no_ext)%string then true
        else skip_path_has fs skip_path items' file_name_no_ext
      else skip_path_has fs skip_path items' file_name_no_ext
  end.

(** The [for chunk in iter_content] loop: only non-empty chunks are
    written. *)
Fixpoint written_chunks (chunks : list string) : string :=
  match chunks with
  | [] => EmptyString
  | chunk :: chunks' =>
      if Py.truthy_str chunk then chunk ++ written_chunks chunks'
      else written_chunks chunks'
  end.

(** [open(dest_file_path, 'wb')] and the writes into it: when the file
    cannot be opened the call raises and nothing is written. *)
Definition write_to (dest_file_path : string) (data : string) : M FS unit :=
  fun fs =>
    if can_open fs dest_file_path
    then (Ret tt, write_file fs dest_file_path data, [EvFileWritten dest_file_path])
    else (Stop (Raised IOError), fs, []).

(** Reading the file system. *)
Definition look {A : Type} (f : FS -> A) : M FS A :=
  fun fs => (Ret (f fs), fs, []).

(** [download_tivo_recording]: [false] when the recording was skipped,
    [true] when it was downloaded. *)
Definition download_tivo_recording (mak : string) (recording_info : RecordingInfo)
    (dest_dir : string) (skip_path : option string) : M FS bool :=
  let file_name := file_name_of recording_info in
  in_skip_path <-
    match skip_path with
    | Some sp =>
        sp_ok <- look (fun fs => Py.truthy_str sp && isdir fs sp) ;;
        if sp_ok : bool then
          let file_name_no_ext := fst (OsPath.splitext file_name) in
          look (fun fs => skip_path_has fs sp (listdir fs sp) file_name_no_ext)
        else ret false
    | None => ret false
    end ;;
  if in_skip_path : bool then ret false
  else
    let dest_file_path := OsPath.join dest_dir file_name in
    already <- look (fun fs => exists_ fs dest_file_path) ;;
    if already : bool then ret false
    else
      let error_msg :=
        if Py.truthy_ostr (episode recording_info) then
          "Downloading the episode " ++ dq ++ title recording_info ++ dq
            ++ " from the series " ++ dq
            ++ Py.format_ostr (episode recording_info) ++ dq ++ "failed."
        else "Downloading " ++ dq ++ title recording_info ++ dq ++ " failed." in
      tivo_recording_file <-
        requests_wrapper (EvTivoDownload (link recording_info))
          (tivo_download w mak (link recording_info)) error_msg true ;;
      match tivo_recording_file with
      | None => raise AttributeError
      | Some rv => write_to dest_file_path (written_chunks (body rv)) ;; ret true
      end.

(** [recording_info.update({'season_num': ..., 'episode_num': ...})]. *)
Definition update_numbers (recording_info : RecordingInfo)
    (season_num episode_num : option Z) : RecordingInfo :=
  mk_RecordingInfo (title recording_info) (episode recording_info)
    (link recording_info) season_num episode_num.

(** The enrichment step of the loop of [main]: the numbers are stored in
    the dictionary only when both are true in Python. *)
Definition enrich (fuel : nat) (params : Params) (recording_info : RecordingInfo)
    : M FS RecordingInfo :=
  let title := title recording_info in
  let episode_name := episode recording_info in
  match episode_name, p_tvdb_api_key params, p_tvdb_user_key params,
        p_tvdb_username params with
  | Some episode_name, Some api_key, Some user_key, Some username =>
      if Py.truthy_str episode_name && Py.truthy_str api_key
         && Py.truthy_str user_key && Py.truthy_str username
      then
        numbers <- get_season_episode_num fuel api_key user_key username title
                     episode_name (negb (p_tvdb_ignore_failure params)) ;;
        let '(season_num, episode_num) := numbers in
        if Py.truthy_oint season_num && Py.truthy_oint episode_num
        then ret (update_numbers recording_info season_num episode_num)
        else ret recording_info
      else ret recording_info
  | _, _, _, _ => ret recording_info
  end.

(** The [for recording_info in recordings_info] loop of [main]; [total] is
    [len(recordings_info)]. *)
Fixpoint download_all (fuel : nat) (params : Params) (total : Z)
    (recordings_info : list RecordingInfo) (download_count : Z) : M FS Z :=
  match recordings_info with
  | [] => ret download_count
  | recording_info :: rest =>
      recording_info <- enrich fuel params recording_info ;;
      downloaded <- download_tivo_recording (p_mak params) recording_info
                      (p_dest_dir params) (p_skip_if_in_path params) ;;
      if downloaded : bool then
        let download_count := download_count + 1 in
        (if download_count <? total then sleep 30 else ret tt) ;;
        download_all fuel params total rest download_count
      else download_all fuel params total rest download_count
  end.

(** [main]. *)
Definition main (fuel : nat) (params : Params) : M FS unit :=
  let dest_dir := p_dest_dir params in
  dest_ok <- look (fun fs => isdir fs dest_dir) ;;
  (if dest_ok : bool then ret tt
   else fail_json ("The directory " ++ dq ++ dest_dir ++ dq ++ " does not exist")) ;;
  recordings_info <- get_tivo_recording_info fuel (p_hostname params) (p_mak params)
                       (p_title params) (p_episode params) ;;
  (match recordings_info with
   | [] => fail_json "No recordings were found"
   | _ => ret tt
   end) ;;
  let total := Z.of_nat (List.length recordings_info) in
  download_count <- download_all fuel params total recordings_info 0 ;;
  if download_count >? 0 then
    exit_json (Py.str_of_int download_count ++ " recording(s) downloaded successfully")
      true
  else
    let msg :=
      if total >? 0 then Py.str_of_int total ++ " recording(s) skipped"
      else "No recordings were found that matched the criteria" in
    exit_json msg false.

End FetchTivoRecordings.

(** ** A file system for the examples

    Regular files are kept as pairs of a directory and a name; a file can
    be opened for writing when the directory part of its path, up to the
    last slash, is a directory. *)

Module Disk.

Record t : Type := mk {
  dirs : list string;
  files : list (string * string)
}.

Definition is_dir (d : t) (p : string) : bool :=
  existsb (fun x => (x =? p)%string) (dirs d).

Definition is_file (d : t) (p : string) : bool :=
  existsb (fun f => (OsPath.join (fst f) (snd f) =? p)%string) (files d).

Definition names_in (d : t) (p : string) : list string :=
  map snd (filter (fun f => (fst f =? p)%string) (files d)).

Definition split_path (p : string) : string * string :=
  let i := OsPath.rfind "/" p in
  (OsPath.slice p 0 i, OsPath.slice p (i + 1) (Z.of_nat (String.length p))).

Definition put (d : t) (p : string) (data : string) : t :=
  if is_file d p then d
  else mk (dirs d) (files d ++ [split_path p])%list.

#[global] Instance file_system : FileSystem t := {|
  isdir := is_dir;
  isfile := is_file;
  exists_ := fun d p => is_dir d p || is_file d p;
  listdir := names_in;
  can_open := fun d p => is_dir d (fst (split_path p));
  write_file := put
|}.

End Disk.

(** ** strip_tivo_protection.py

    The second module of the repository converts [.TiVo] files with the
    TivoDecoder, run as a child process.  The machine it runs on has the
    file-system calls of [FileSystem] and, besides, [os.path.abspath],
    [os.remove] and the child process: [popen s command] is the return code
    and the text of the standard error of [command], and the state it
    leaves. *)

Module Strip.

Class Machine (S : Type) : Type := mk_Machine {
  machine_fs :: FileSystem S;
  abspath : S -> string -> string;
  remove : S -> string -> S;
  popen : S -> list string -> (Z * string) * S
}.

(** What the module does to the machine, in order. *)
Inductive action : Type :=
| Decoded (command : list string) (returncode : Z)
| Removed (path : string).

(** The state of a run: the machine and the actions done so far. *)
Definition state (S : Type) : Type := (S * list action)%type.

(** [s.rfind(c) ... s.rsplit('.', 1)[0]]: the text before the last dot, or
    the whole text when it has no dot. *)
Definition rsplit_dot_head (s : string) : string :=
  let i := OsPath.rfind "." s in
  if i <? 0 then s else OsPath.slice s 0 i.

(** [s.endswith(suffix)]. *)
Definition endswith (s suffix : string) : bool :=
  let n := String.length s in
  let k := String.length suffix in
  if (n <? k)%nat then false
  else (substring (n - k) k s =? suffix)%string.

(** The parameters of the module. *)
Record Params : Type := mk_Params {
  p_mak : string;
  p_tivo_decoder_path : string;
  p_source : string;
  p_destination : option string;
  p_replace : bool
}.

Section Stripping.

Context {S : Type} {machine : Machine S}.

Definition see {A : Type} (f : S -> A) : M (state S) A :=
  fun st => (Ret (f (fst st)), st, []).

(** [sp.Popen(command, ...)] and [communicate()]. *)
Definition run (command : list string) : M (state S) (Z * string) :=
  fun st =>
    match popen (fst st) command with
    | (out, s') => (Ret out, (s', (snd st ++ [Decoded command (fst out)])%list), [])
    end.

(** [os.remove(path)]. *)
Definition os_remove (path : string) : M (state S) unit :=
  fun st => (Ret tt, (remove (fst st) path, (snd st ++ [Removed path])%list), []).

(** The destination [tivo_to_mpg] converts to. *)
Definition destination_path_of (source : string) (destination : option string)
    : string :=
  match destination with
  | Some d => if Py.truthy_str d then d else rsplit_dot_head source ++ ".mpg"
  | None => rsplit_dot_head source ++ ".mpg"
  end.

(** [tivo_to_mpg]: [None] when the file was skipped, the destination
    otherwise. *)
Definition tivo_to_mpg (mak source : string) (destination : option string)
    (tivo_decoder_path : string) : M (state S) (option string) :=
  let destination_path := destination_path_of source destination in
  present <- see (fun s => exists_ s destination_path) ;;
  if present : bool then ret None
  else
    let command :=
      ["java"; "-jar"; tivo_decoder_path; "-i"; source; "-o"; destination_path;
       "-m"; mak] in
    out <- run command ;;
    let '(returncode, stderr) := out in
    (if negb (returncode =? 0) then
       fail_json
         ("The TivoDecoder command failed. The following was called " ++ dq
            ++ String.concat " " command ++ dq ++ " and the error was " ++ dq
            ++ stderr ++ dq)
     else ret tt) ;;
    ret (Some destination_path).

(** The [for item in os.listdir(source)] loop of [main]. *)
Fixpoint tivo_files (s : S) (source : string) (items : list string) : list string :=
  match items with
  | [] => []
  | item :: items' =>
      let full_path := OsPath.join source item in
      if endswith (Py.lower item) ".tivo" && isfile s full_path
      then full_path :: tivo_files s source items'
      else tivo_files s source items'
  end.

(** The [for video in videos_to_strip] loop of [main]. *)
Fixpoint strip_all (mak : string) (destination : option string)
    (tivo_decoder_path : string) (replace : bool) (videos : list string)
    (videos_stripped : Z) : M (state S) Z :=
  match videos with
  | [] => ret videos_stripped
  | video :: videos' =>
      stripped <- tivo_to_mpg mak video destination tivo_decoder_path ;;
      if Py.truthy_ostr stripped then
        (if replace then os_remove video else ret tt) ;;
        strip_all mak destination tivo_decoder_path replace videos'
          (videos_stripped + 1)
      else
        strip_all mak destination tivo_decoder_path replace videos' videos_stripped
  end.

(** [main]. *)
Definition main (params : Params) : M (state S) unit :=
  let source := p_source params in
  let destination := p_destination params in
  let tivo_decoder_path := p_tivo_decoder_path params in
  let mak := p_mak params in
  let replace := p_replace params in
  jar <- see (fun s => exists_ s tivo_decoder_path) ;;
  (if jar : bool then ret tt
   else fail_json ("TivoDecoder.jar was not found at " ++ dq ++ tivo_decoder_path
                   ++ dq)) ;;
  source_exists <- see (fun s => exists_ s source) ;;
  (if source_exists : bool then ret tt
   else fail_json "The source does not exist") ;;
  source_is_dir <- see (fun s => isdir s source) ;;
  (match destination with
   | Some d =>
       if Py.truthy_str d then
         dest_exists <- see (fun s => exists_ s d) ;;
         dest_is_dir <- see (fun s => isdir s d) ;;
         if dest_exists && negb (Bool.eqb dest_is_dir source_is_dir)
         then fail_json "The source and destination need to be the same type"
         else ret tt
       else ret tt
   | None => ret tt
   end) ;;
  videos_to_strip <-
    (if source_is_dir : bool
     then see (fun s => tivo_files s source (listdir s source))
     else see (fun s => [abspath s source])) ;;
  videos_stripped <-
    strip_all mak destination tivo_decoder_path replace videos_to_strip 0 ;;
  if videos_stripped >? 0 then
    exit_json (Py.str_of_int videos_stripped ++ " recording(s) stripped successfully")
      true
  else
    let msg :=
      if Z.of_nat (List.length videos_to_strip) >? 0
      then Py.str_of_int (Z.of_nat (List.length videos_to_strip))
             ++ " recordings were skipped"
      else "No recordings were found that matched the criteria" in
    exit_json msg false.

End Stripping.

End Strip.

(** ** Notions the properties are stated with *)

(** Both numbers of a recording are present, or both are absent. *)
Definition paired (r : RecordingInfo) : Prop :=
  (season_num r = None /\ episode_num r = None)
  \/ (exists s e, season_num r = Some s /\ episode_num r = Some e).

(** A recording as discovery creates it: no number attached. *)
Definition bare (r : RecordingInfo) : Prop :=
  season_num r = None /\ episode_num r = None.

(** Both numbers of a recording are known: present and not zero. *)
Definition numbers_known (r : RecordingInfo) : Prop :=
  exists s e, season_num r = Some s /\ episode_num r = Some e /\ s <> 0 /\ e <> 0.

(** A request that did not succeed: the service answered with an error
    status, or the connection failed. *)
Definition failed {A : Type} (answer : reply A) : Prop :=
  match answer with
  | Responded rv => ok rv = false
  | ConnectionError => True
  end.

(** The skip-check directory is configured, exists, and holds a regular
    file whose name without extension is that of [file_name]. *)
Definition in_skip_check {FS : Type} {fsops : FileSystem FS} (fs : FS)
    (skip_path : option string) (file_name : string) : Prop :=
  exists sp item,
    skip_path = Some sp /\ sp <> EmptyString /\ isdir fs sp = true
    /\ In item (listdir fs sp)
    /\ isfile fs (OsPath.join sp item) = true
    /\ fst (OsPath.splitext item) = fst (OsPath.splitext file_name).

(** The number of transfers a trace shows: the files written. *)
Fixpoint transfers (t : list event) : nat :=
  match t with
  | [] => 0%nat
  | EvFileWritten _ :: t' => S (transfers t')
  | _ :: t' => transfers t'
  end.

(** What the first test of [download_tivo_recording] computes. *)
Definition skip_check {FS : Type} {fsops : FileSystem FS} (fs : FS) (skip_path : option string) (file_name : string)
    : bool :=
  match skip_path with
  | Some sp =>
      Py.truthy_str sp && isdir fs sp
      && skip_path_has fs sp (listdir fs sp) (fst (OsPath.splitext file_name))
  | None => false
  end.

(** A result other than [module.exit_json]. *)
Definition never_exits {A : Type} (r : result A) : Prop :=
  match r with
  | Stop (ExitJson _ _) => False
  | _ => True
  end.

(** A step that transfers nothing and does not end the run with
    [exit_json]. *)
Definition quiet {A : Type} (r : result A) (t : list event) : Prop :=
  transfers t = 0%nat /\ never_exits r.

(** A pause follows every file written, unless the trace ends there. *)
Fixpoint paced (t : list event) : bool :=
  match t with
  | [] => true
  | EvFileWritten _ :: t' =>
      match t' with
      | [] => true
      | EvSleep 30 :: _ => paced t'
      | _ => false
      end
  | _ :: t' => paced t'
  end.

(** [pagination q o os]: [os] are the offsets of successive listing
    requests starting at [o]; each request but the last got a page with an
    item count other than zero, and the next offset is the previous one
    plus that count. *)
Inductive pagination (q : Z -> reply Page) : Z -> list Z -> Prop :=
| pagination_last (o : Z) : pagination q o [o]
| pagination_next (o : Z) (rv : response Page) (os : list Z) :
    q o = Responded rv -> ok rv = true -> ItemCount (body rv) <> 0 ->
    pagination q (o + ItemCount (body rv)) os ->
    pagination q o (o :: os).

(** An item that carries the requested title. *)
Definition has_title (title : string) (it : Item) : Prop :=
  exists d, item_Details it = Some d /\ Title d = Some (Some title).

(** An item that is the requested episode of the requested title. *)
Definition is_episode (title ep : string) (it : Item) : Prop :=
  exists d,
    item_Details it = Some d /\ Title d = Some (Some title)
    /\ EpisodeTitle d = Some (Some ep).

(** An item that carries the requested title and no episode element. *)
Definition is_movie (title : string) (it : Item) : Prop :=
  exists d,
    item_Details it = Some d /\ Title d = Some (Some title)
    /\ EpisodeTitle d = None.

(** An item whose details, if any, have a title element. *)
Definition well_formed (it : Item) : Prop :=
  forall d, item_Details it = Some d -> Title d <> None.

(** [passed q skip o o' os]: the pages at the offsets [os], fetched one
    after the other from [o], lead to the offset [o']; each has an item
    count other than zero and only items that satisfy [skip]. *)
Inductive passed (q : Z -> reply Page) (skip : Item -> Prop)
    : Z -> Z -> list Z -> Prop :=
| passed_none (o : Z) : passed q skip o o []
| passed_page (o : Z) (rv : response Page) (o' : Z) (os : list Z) :
    q o = Responded rv -> ok rv = true -> ItemCount (body rv) <> 0 ->
    Forall skip (Items (body rv)) ->
    passed q skip (o + ItemCount (body rv)) o' os ->
    passed q skip o o' (o :: os).

(** ** Worlds for the examples *)

Definition ok_response {A : Type} (b : A) : response A :=
  mk_response true 200 EmptyString b.

Definition not_found {A : Type} (b : A) : response A :=
  mk_response false 404 "Resource not found" b.

Fixpoint lookup {A : Type} (k : Z) (l : list (Z * A)) : option A :=
  match l with
  | [] => None
  | (k', a) :: l' => if k =? k' then Some a else lookup k l'
  end.

(** A TiVo that answers the listing at the given offsets (and reports no
    item anywhere else) and serves every download, and a catalog that
    accepts every login, answers the series search with [series] and has
    the given pages of episodes.  The texts of the examples are made of
    ASCII characters, on which [str.lower] and [str.strip] are [Py.lower]
    and [Py.strip]. *)
Definition example_world (listing : list (Z * Page))
    (series : reply (option SeriesJson)) (pages : list (Z * EpisodesJson)) : World :=
  {| tivo_query := fun _ _ offset =>
       match lookup offset listing with
       | Some page => Responded (ok_response page)
       | None => Responded (ok_response (mk_Page 0 []))
       end;
     tivo_download := fun _ _ => Responded (ok_response ["mpeg"; EmptyString; "data"]);
     tvdb_login := fun _ _ _ => Responded (ok_response (Some (mk_LoginJson "secret")));
     tvdb_search_series := fun _ _ => series;
     tvdb_episodes := fun _ _ page =>
       match lookup page pages with
       | Some json => Responded (ok_response (Some json))
       | None => Responded (not_found None)
       end;
     str_lower := Py.lower;
     str_strip := Py.strip |}.

Definition episode_item (t e u : string) : Item :=
  mk_Item (Some (mk_Details (Some (Some t)) (Some (Some e)))) (Some (Some u)).

Definition movie_item (t u : string) : Item :=
  mk_Item (Some (mk_Details (Some (Some t)) None)) (Some (Some u)).

Definition folder_item : Item := mk_Item None None.

Definition found_series (n : Z) : reply (option SeriesJson) :=
  Responded (ok_response (Some (mk_SeriesJson [mk_SeriesInfo n]))).

Definition example_params (t : string) (e : option string) (keys : option string)
    (ignore_failure : bool) (skip : option string) : Params :=
  mk_Params "192.168.1.50" "0123456789" t e "/dest" keys keys keys
    ignore_failure skip.

(** A catalog whose only page lists a special in season 0. *)
Definition specials_world : World :=
  example_world
    [(0, mk_Page 1 [episode_item "Doctor Who" "The Five Doctors" "http://tivo/1"])]
    (found_series 76107)
    [(1, mk_EpisodesJson
           [mk_Episode (Some "An Unearthly Child") (Some 1) (Some 1);
            mk_Episode (Some "The Five Doctors") (Some 0) (Some 3)]
           None)].

(** A TiVo and a catalog that have the same episode, each with a space
    after its title, in different capitalisations. *)
Definition pilot_world : World :=
  example_world
    [(0, mk_Page 1 [episode_item "Lost" "Pilot " "http://tivo/9"])]
    (found_series 73739)
    [(1, mk_EpisodesJson [mk_Episode (Some "pilot ") (Some 1) (Some 1)] None)].

(** A catalog that knows The Simpsons, behind a TiVo with two pages. *)
Definition simpsons_world : World :=
  example_world
    [(0, mk_Page 2 [folder_item;
                    episode_item "The Simpsons" "Homer's Odyssey" "http://tivo/3"]);
     (2, mk_Page 2 [movie_item "Toy Story" "http://tivo/4";
                    episode_item "The Simpsons" "Bart the General" "http://tivo/5"]);
     (4, mk_Page 1 [episode_item "The Simpsons" "Moaning Lisa" "http://tivo/6"])]
    (found_series 71663)
    [(1, mk_EpisodesJson
           [mk_Episode (Some "Bart the Genius") (Some 1) (Some 2)]
           (Some 2));
     (2, mk_EpisodesJson
           [mk_Episode (Some "bart the general ") (Some 1) (Some 5)]
           None)].

Definition empty_disk : Disk.t := Disk.mk ["/dest"] [].

(** A catalog that answers the series search with 404, as The TVDB does for
    a series it does not know. *)
Definition series_missing_world : World :=
  example_world
    [(0, mk_Page 1 [episode_item "The Simpsons" "Bart the General" "http://tivo/5"])]
    (Responded (not_found None))
    [].

(** A catalog that knows the series and has no page of episodes. *)
Definition episodes_missing_world : World :=
  example_world
    [(0, mk_Page 1 [episode_item "The Simpsons" "Bart the General" "http://tivo/5"])]
    (found_series 71663)
    [].

Definition bart_the_general : RecordingInfo :=
  mk_RecordingInfo "The Simpsons" (Some "Bart the General")
    "http://tivo/5&Format=video/x-tivo-mpeg" None None.

(** A film whose title has a slash in it. *)
Definition face_off : RecordingInfo :=
  mk_RecordingInfo "Face/Off" None "http://tivo/7&Format=video/x-tivo-mpeg" None None.

Definition the_five_doctors : RecordingInfo :=
  mk_RecordingInfo "Doctor Who" (Some "The Five Doctors")
    "http://tivo/1&Format=video/x-tivo-mpeg" None None.

(** A disk on which Bart the General was downloaded before, and one on
    which it was converted and moved to another directory. *)
Definition disk_with_bart : Disk.t :=
  Disk.mk ["/dest"] [("/dest", "The Simpsons - Bart the General.TiVo")].

Definition disk_with_converted_bart : Disk.t :=
  Disk.mk ["/dest"; "/videos"] [("/videos", "The Simpsons - Bart the General.mpg")].

(** A TiVo with two episodes of one series on a single page, and a disk
    that already holds the first of them. *)
Definition two_episodes_world : World :=
  example_world
    [(0, mk_Page 2 [episode_item "The Simpsons" "Homer's Odyssey" "http://tivo/3";
                    episode_item "The Simpsons" "Bart the General" "http://tivo/5"])]
    (found_series 71663)
    [].

Definition disk_with_homer : Disk.t :=
  Disk.mk ["/dest"] [("/dest", "The Simpsons - Homer's Odyssey.TiVo")].

(** ** Notions for the further properties *)

(** A computation that neither reads nor changes the file system: what it
    returns and the events it produces are the same in every state. *)
Definition pure_m {FS A : Type} (m : M FS A) : Prop :=
  exists r t, forall fs, m fs = (r, fs, t).

(** [grows fs fs']: whatever is a directory, a regular file, an existing
    path or a directory entry in [fs] is one in [fs'] too. *)
Definition grows {FS : Type} {fsops : FileSystem FS} (fs fs' : FS) : Prop :=
  (forall p, isdir fs p = true -> isdir fs' p = true)
  /\ (forall p, isfile fs p = true -> isfile fs' p = true)
  /\ (forall p, exists_ fs p = true -> exists_ fs' p = true)
  /\ (forall d item, In item (listdir fs d) -> In item (listdir fs' d)).

(** A file system on which writing a file makes its path exist and removes
    nothing. *)
Definition keeps_files (FS : Type) {fsops : FileSystem FS} : Prop :=
  forall (fs : FS) p data,
    exists_ (write_file fs p data) p = true /\ grows fs (write_file fs p data).

(** A recording that [download_tivo_recording] skips in the state [fs]. *)
Definition handled {FS : Type} {fsops : FileSystem FS} (fs : FS) (dest_dir : string)
    (skip_path : option string) (r : RecordingInfo) : Prop :=
  skip_check fs skip_path (file_name_of r) = true
  \/ exists_ fs (OsPath.join dest_dir (file_name_of r)) = true.

(** The events of a run that transfers nothing: requests for the listing
    and requests to The TVDB. *)
Definition is_lookup (e : event) : bool :=
  match e with
  | EvTivoQuery _ | EvTvdbLogin | EvTvdbSeries _ | EvTvdbEpisodes _ _ => true
  | EvTivoDownload _ | EvFileWritten _ | EvSleep _ => false
  end.

(** The events that go to The TVDB. *)
Definition is_tvdb (e : event) : bool :=
  match e with
  | EvTvdbLogin | EvTvdbSeries _ | EvTvdbEpisodes _ _ => true
  | _ => false
  end.

(** [emits P m]: every event of every run of [m] satisfies [P]. *)
Definition emits {FS A : Type} (P : event -> bool) (m : M FS A) : Prop :=
  forall fs r fs' t, m fs = (r, fs', t) -> forallb P t = true.

(** The suffix [get_tivo_dl_link_from_element] appends to the URL. *)
Definition link_of (u : option string) : string :=
  Py.format_ostr u ++ "&Format=video/x-tivo-mpeg".

(** The recordings of the episodes of [title] among [items], in the order
    of the items: one for each item that has the title, an episode element
    and a link. *)
Fixpoint episodes_of (title : string) (items : list Item) : list RecordingInfo :=
  match items with
  | [] => []
  | it :: items' =>
      match item_Details it, Url it with
      | Some d, Some u =>
          match Title d, EpisodeTitle d with
          | Some t, Some et =>
              if Py.ostr_eqb t (Some title)
              then mk_RecordingInfo title et (link_of u) None None
                   :: episodes_of title items'
              else episodes_of title items'
          | _, _ => episodes_of title items'
          end
      | _, _ => episodes_of title items'
      end
  end.

(** [pages_until_empty q o pages os]: the requests at the offsets [os],
    starting at [o], got the [pages], each with an item count other than
    zero, and then a page with no item, at the last offset of [os]. *)
Inductive pages_until_empty (q : Z -> reply Page)
    : Z -> list Page -> list Z -> Prop :=
| pages_end (o : Z) (rv : response Page) :
    q o = Responded rv -> ok rv = true -> ItemCount (body rv) = 0 ->
    pages_until_empty q o [] [o]
| pages_more (o : Z) (rv : response Page) (pages : list Page) (os : list Z) :
    q o = Responded rv -> ok rv = true -> ItemCount (body rv) <> 0 ->
    pages_until_empty q (o + ItemCount (body rv)) pages os ->
    pages_until_empty q o (body rv :: pages) (o :: os).

(** An item that can be scanned when no episode is requested and the title
    is that of a series: its details have a title element, it is not an
    item of the title without episode element, and it has a link if it has
    the title. *)
Definition episodic (title : string) (it : Item) : Prop :=
  well_formed it /\ ~ is_movie title it /\ (has_title title it -> Url it <> None).

(** A recording as discovery makes it for the requested title [t0]: it has
    that title, no number, and a link with the suffix of the MPEG format. *)
Definition found (t0 : string) (r : RecordingInfo) : Prop :=
  title r = t0 /\ bare r /\ exists u, link r = link_of u.




(** The number of runs of the decoder among the actions. *)
Fixpoint decodes (l : list Strip.action) : nat :=
  match l with
  | [] => 0%nat
  | Strip.Decoded _ _ :: l' => S (decodes l')
  | Strip.Removed _ :: l' => decodes l'
  end.

(** The order of the actions of a run of [strip_tivo_protection]: a run of
    the decoder that failed is the last action; with [replace], a run that
    succeeded is followed at once by the removal of its input (the fifth
    word of the command), and nothing else is removed; without it, nothing
    is removed. *)
Fixpoint well_ordered (replace : bool) (l : list Strip.action) : bool :=
  match l with
  | [] => true
  | Strip.Decoded command rc :: l' =>
      if rc =? 0 then
        if replace then
          match l' with
          | Strip.Removed p :: l'' =>
              (nth 4 command EmptyString =? p)%string && well_ordered replace l''
          | _ => false
          end
        else well_ordered replace l'
      else match l' with [] => true | _ => false end
  | Strip.Removed _ :: _ => false
  end.

(** A file system that is the list of the paths of its regular files, next
    to a fixed list of directories: an entry of a directory is what follows
    the directory and a slash in such a path. *)
Module Paths.

Record t : Type := mk {
  dirs : list string;
  files : list string
}.

Definition mem (p : string) (l : list string) : bool :=
  existsb (fun x => (x =? p)%string) l.

Fixpoint entry_of (dir p : string) : option string :=
  match dir, p with
  | EmptyString, String "/" name => Some name
  | String a dir', String b p' => if Ascii.eqb a b then entry_of dir' p' else None
  | _, _ => None
  end.

Fixpoint entries (dir : string) (l : list string) : list string :=
  match l with
  | [] => []
  | p :: l' =>
      match entry_of dir p with
      | Some name => name :: entries dir l'
      | None => entries dir l'
      end
  end.

#[global] Instance file_system : FileSystem t := {|
  isdir := fun d p => mem p (dirs d);
  isfile := fun d p => mem p (files d);
  exists_ := fun d p => mem p (dirs d) || mem p (files d);
  listdir := fun d p => entries p (files d);
  can_open := fun d p => mem (fst (Disk.split_path p)) (dirs d);
  write_file := fun d p _ => mk (dirs d) (files d ++ [p])
|}.

End Paths.

Definition empty_paths : Paths.t := Paths.mk ["/dest"] [].

(** [c in s]. *)
Fixpoint has_char (c : ascii) (s : string) : bool :=
  match s with
  | EmptyString => false
  | String a s' => Ascii.eqb a c || has_char c s'
  end.

(** A machine for the examples: the files are those of [Paths]; the
    decoder writes its output when its input is a file and fails
    otherwise; paths are absolute already. *)
Module Box.

Definition decode (d : Paths.t) (command : list string) : (Z * string) * Paths.t :=
  let input := nth 4 command EmptyString in
  let output := nth 6 command EmptyString in
  if Paths.mem input (Paths.files d)
  then ((0, EmptyString), Paths.mk (Paths.dirs d) (Paths.files d ++ [output]))
  else ((1, "input not found"), d).

Definition delete (d : Paths.t) (p : string) : Paths.t :=
  Paths.mk (Paths.dirs d)
    (filter (fun x => negb (x =? p)%string) (Paths.files d)).

#[global] Instance machine : Strip.Machine Paths.t := {|
  Strip.machine_fs := Paths.file_system;
  Strip.abspath := fun _ p => p;
  Strip.remove := delete;
  Strip.popen := decode
|}.

End Box.

Definition videos_box : Paths.t :=
  Paths.mk ["/videos"]
    ["/opt/tivo/TivoDecoder.jar"; "/videos/Toy Story.TiVo"; "/videos/notes.txt";
     "/videos/The Simpsons - S01E05 - Bart the General.tivo"].

Definition strip_videos (replace : bool) (destination : option string) : Strip.Params :=
  Strip.mk_Params "0123456789" "/opt/tivo/TivoDecoder.jar" "/videos" destination
    replace.

(** The TiVo of [simpsons_world] when it stops answering downloads. *)
Definition unplugged_world : World :=
  {| tivo_query := tivo_query simpsons_world;
     tivo_download := fun _ _ => ConnectionError;
     tvdb_login := tvdb_login simpsons_world;
     tvdb_search_series := tvdb_search_series simpsons_world;
     tvdb_episodes := tvdb_episodes simpsons_world;
     str_lower := str_lower simpsons_world;
     str_strip := str_strip simpsons_world |}.

(** The machine of [Box] with a decoder that rejects the media access
    key. *)
Definition wrong_key_box : Strip.Machine Paths.t :=
  {| Strip.machine_fs := Paths.file_system;
     Strip.abspath := fun _ p => p;
     Strip.remove := Box.delete;
     Strip.popen := fun d _ => ((1, "Invalid MAK"), d) |}.

(** * Properties *)

(** ** Python values *)

Lemma truthy_str_true (s : string) : Py.truthy_str s = true <-> s <> EmptyString.
Proof.
  unfold Py.truthy_str. destruct (String.eqb_spec s EmptyString); simpl; split;
    intros; try congruence; try discriminate.
Qed.

Lemma truthy_str_false (s : string) : Py.truthy_str s = false <-> s = EmptyString.
Proof.
  unfold Py.truthy_str. destruct (String.eqb_spec s EmptyString); simpl; split;
    intros; try congruence; try discriminate.
Qed.

Lemma truthy_oint_true (o : option Z) :
  Py.truthy_oint o = true <-> exists n, o = Some n /\ n <> 0.
Proof.
  destruct o as [n|]; simpl.
  - destruct (Z.eqb_spec n 0); simpl; split; intros H.
    + discriminate.
    + destruct H as [m [Hm Hz]]. inversion Hm; subst. contradiction.
    + exists n. split; [reflexivity | assumption].
    + reflexivity.
  - split; [discriminate | intros [n [H _]]; discriminate].
Qed.

Lemma numbers_known_truthy (r : RecordingInfo) :
  numbers_known r <->
  Py.truthy_oint (season_num r) && Py.truthy_oint (episode_num r) = true.
Proof.
  rewrite andb_true_iff, !truthy_oint_true. unfold numbers_known. split.
  - intros [s [e [Hs [He [Hsz Hez]]]]]. split; eauto.
  - intros [[s [Hs Hsz]] [e [He Hez]]]. exists s, e. auto.
Qed.

(** ** File names *)

Lemma file_name_of_numbers (r : RecordingInfo) (s e : Z) (ep : string) :
  season_num r = Some s -> episode_num r = Some e -> s <> 0 -> e <> 0 ->
  episode r = Some ep ->
  file_name_of r =
    title r ++ " - S" ++ Py.format_02d s ++ "E" ++ Py.format_02d e
      ++ " - " ++ ep ++ ".TiVo".
Proof.
  intros Hs He Hsz Hez Hep. unfold file_name_of.
  assert (Hk : numbers_known r) by (exists s, e; auto).
  apply numbers_known_truthy in Hk. rewrite Hk, Hs, He, Hep. reflexivity.
Qed.

Lemma file_name_of_episode (r : RecordingInfo) (ep : string) :
  ~ numbers_known r -> episode r = Some ep -> ep <> EmptyString ->
  file_name_of r = title r ++ " - " ++ ep ++ ".TiVo".
Proof.
  intros Hk Hep Hne. unfold file_name_of.
  rewrite numbers_known_truthy in Hk. apply not_true_is_false in Hk.
  rewrite Hk, Hep. simpl.
  apply truthy_str_true in Hne. rewrite Hne. reflexivity.
Qed.

Lemma file_name_of_title (r : RecordingInfo) :
  ~ numbers_known r ->
  episode r = None \/ episode r = Some EmptyString ->
  file_name_of r = title r ++ ".TiVo".
Proof.
  intros Hk Hep. unfold file_name_of.
  rewrite numbers_known_truthy in Hk. apply not_true_is_false in Hk.
  rewrite Hk. destruct Hep as [Hep | Hep]; rewrite Hep; reflexivity.
Qed.

(** C3.  The file name computed for a recording is
    [title - SssEee - episode.TiVo] when both numbers are known,
    [title - episode.TiVo] when only an episode title is known, and
    [title.TiVo] otherwise; for The Simpsons, Bart the General, season 1,
    episode 1 it is [The Simpsons - S01E01 - Bart the General.TiVo]. *)
Theorem file_name_of_format (r : RecordingInfo) :
  (forall s e ep,
      season_num r = Some s -> episode_num r = Some e -> s <> 0 -> e <> 0 ->
      episode r = Some ep ->
      file_name_of r =
        title r ++ " - S" ++ Py.format_02d s ++ "E" ++ Py.format_02d e
          ++ " - " ++ ep ++ ".TiVo")
  /\ (forall ep,
         ~ numbers_known r -> episode r = Some ep -> ep <> EmptyString ->
         file_name_of r = title r ++ " - " ++ ep ++ ".TiVo")
  /\ (~ numbers_known r ->
      episode r = None \/ episode r = Some EmptyString ->
      file_name_of r = title r ++ ".TiVo")
  /\ (forall dl,
         file_name_of
           (mk_RecordingInfo "The Simpsons" (Some "Bart the General") dl
              (Some 1) (Some 1))
         = "The Simpsons - S01E01 - Bart the General.TiVo").
Proof.
  split; [| split; [| split]].
  - apply file_name_of_numbers.
  - apply file_name_of_episode.
  - apply file_name_of_title.
  - reflexivity.
Qed.

(** The numbers below one hundred are printed with exactly two digits. *)
Lemma format_02d_two_digits (n : Z) :
  0 <= n < 100 ->
  Py.format_02d n =
    String (ascii_of_N (48 + Z.to_N (n / 10)))
      (String (ascii_of_N (48 + Z.to_N (n mod 10))) EmptyString).
Proof.
  intros Hn.
  assert (Hall :
    forallb (fun k =>
      (Py.format_02d (Z.of_nat k) =?
         String (ascii_of_N (48 + Z.to_N (Z.of_nat k / 10)))
           (String (ascii_of_N (48 + Z.to_N (Z.of_nat k mod 10))) EmptyString))%string)
      (seq 0 100) = true) by (vm_compute; reflexivity).
  rewrite forallb_forall in Hall.
  specialize (Hall (Z.to_nat n)).
  rewrite Z2Nat.id in Hall by lia.
  apply String.eqb_eq, Hall, in_seq. lia.
Qed.

Lemma file_name_of_format_witness :
  file_name_of (mk_RecordingInfo "Futurama" (Some "Jurassic Bark") "http://tivo/7"
                  (Some 4) (Some 7))
  = "Futurama - S04E07 - Jurassic Bark.TiVo"
  /\ file_name_of (mk_RecordingInfo "Futurama" (Some "Jurassic Bark") "http://tivo/7"
                     None None)
     = "Futurama - Jurassic Bark.TiVo"
  /\ file_name_of (mk_RecordingInfo "Toy Story" None "http://tivo/9" None None)
     = "Toy Story.TiVo".
Proof.
  split; [| split].
  - apply (proj1 (file_name_of_format
                    (mk_RecordingInfo "Futurama" (Some "Jurassic Bark") "http://tivo/7"
                       (Some 4) (Some 7))) 4 7 "Jurassic Bark");
      (reflexivity || lia).
  - apply (proj1 (proj2 (file_name_of_format
                    (mk_RecordingInfo "Futurama" (Some "Jurassic Bark") "http://tivo/7"
                       None None))) "Jurassic Bark").
    + intros [s [e [Hs _]]]. discriminate Hs.
    + reflexivity.
    + discriminate.
  - apply (proj1 (proj2 (proj2 (file_name_of_format
                    (mk_RecordingInfo "Toy Story" None "http://tivo/9" None None))))).
    + intros [s [e [Hs _]]]. discriminate Hs.
    + left. reflexivity.
Defined.

(** ** Running a computation *)

Arguments bind {FS A B} m k fs : simpl never.

Lemma bind_Ret {FS A B : Type} (m : M FS A) (k : A -> M FS B) fs a fs1 t1 :
  m fs = (Ret a, fs1, t1) ->
  bind m k fs =
    (result_of (k a fs1), fs_of (k a fs1), (t1 ++ trace_of (k a fs1))%list).
Proof.
  intros H. unfold bind, result_of, fs_of, trace_of. rewrite H.
  destruct (k a fs1) as [[r fs2] t2]. reflexivity.
Qed.

Lemma bind_Stop {FS A B : Type} (m : M FS A) (k : A -> M FS B) fs s fs1 t1 :
  m fs = (Stop s, fs1, t1) -> bind m k fs = (Stop s, fs1, t1).
Proof. intros H. unfold bind. rewrite H. reflexivity. Qed.

Lemma bind_inv {FS A B : Type} (m : M FS A) (k : A -> M FS B) fs r fs' t :
  bind m k fs = (r, fs', t) ->
  (exists s, m fs = (Stop s, fs', t) /\ r = Stop s)
  \/ (exists a fs1 t1 t2,
         m fs = (Ret a, fs1, t1) /\ k a fs1 = (r, fs', t2) /\ t = (t1 ++ t2)%list).
Proof.
  unfold bind. destruct (m fs) as [[ra fs1] t1]. destruct ra as [a | s].
  - destruct (k a fs1) as [[rb fs2] t2] eqn:Ek. intros H. inversion H; subst.
    right. exists a, fs1, t1, t2. auto.
  - intros H. inversion H; subst. left. exists s. auto.
Qed.

(** Splits a hypothesis [H : bind m k fs = _] along the result of [m fs]:
    what [m] did is left in [E], what the continuation did in [H]. *)
Tactic Notation "step_bind" hyp(H) "as" ident(a) ident(fs1) ident(t1) ident(t2)
    ident(E) :=
  apply bind_inv in H;
  let s := fresh "s" in
  let Hr := fresh "Hr" in
  let Ht := fresh "Ht" in
  destruct H as [[s [E Hr]] | [a [fs1 [t1 [t2 [E [H Ht]]]]]]];
  [ try discriminate Hr | try subst ].

Lemma ret_inv {FS A : Type} (a : A) (fs : FS) r fs' t :
  ret a fs = (r, fs', t) -> r = Ret a /\ fs' = fs /\ t = [].
Proof. unfold ret. intros H. inversion H. auto. Qed.

Lemma halt_inv {FS A : Type} (s : stop) (fs : FS) (r : result A) fs' t :
  halt s fs = (r, fs', t) -> r = Stop s /\ fs' = fs /\ t = [].
Proof. unfold halt. intros H. inversion H. auto. Qed.

(** ** Season and episode numbers *)

Section Numbers.

Context {FS : Type} {fsops : FileSystem FS}.
Variable w : World.

Lemma scan_items_bare (title : string) (episode : option string) (items : list Item) :
  forall recs (fs : FS) out fs' t,
    Forall bare recs ->
    scan_items title episode items recs fs = (Ret out, fs', t) ->
    match out with Next l | Return l => Forall bare l end.
Proof.
  induction items as [| child items IH]; intros recs fs out fs' t Hb H; simpl in H.
  - inversion H; subst. exact Hb.
  - destruct (item_Details child) as [d|]; [| exact (IH _ _ _ _ _ Hb H)].
    destruct (Title d) as [ct|]; [| discriminate H].
    destruct (negb (Py.ostr_eqb ct (Some title))); [exact (IH _ _ _ _ _ Hb H) |].
    assert (Hb' : forall e dl,
               Forall bare (recs ++ [mk_RecordingInfo title e dl None None])%list).
    { intros e dl. apply Forall_app. split; [exact Hb |].
      constructor; [split; reflexivity | constructor]. }
    destruct (EpisodeTitle d) as [et|].
    + destruct (negb (Py.truthy_ostr episode) || Py.ostr_eqb episode et);
        [| exact (IH _ _ _ _ _ Hb H)].
      step_bind H as dl fs1 t1 t2 E.
      destruct (Py.truthy_ostr episode).
      * apply ret_inv in H. destruct H as [H _]. inversion H; subst. apply Hb'.
      * exact (IH _ _ _ _ _ (Hb' _ _) H).
    + destruct (Py.is_None episode); [| exact (IH _ _ _ _ _ Hb H)].
      step_bind H as dl fs1 t1 t2 E.
      apply ret_inv in H. destruct H as [H _]. inversion H; subst. apply Hb'.
Qed.

Lemma listing_pages_bare (fuel : nat) (hostname mak title : string)
    (episode : option string) :
  forall offset recs (fs : FS) out fs' t,
    Forall bare recs ->
    listing_pages w fuel hostname mak title episode offset recs fs = (Ret out, fs', t) ->
    Forall bare out.
Proof.
  induction fuel as [| fuel IH]; intros offset recs fs out fs' t Hb H; simpl in H.
  - discriminate H.
  - step_bind H as rv fs1 t1 t2 E.
    destruct rv as [rv|]; [| discriminate H].
    destruct (ItemCount (body rv) =? 0).
    + apply ret_inv in H. destruct H as [H _]. inversion H; subst. exact Hb.
    + step_bind H as scanned fs2 t3 t4 E2.
      pose proof (scan_items_bare _ _ _ _ _ _ _ _ Hb E2) as Hs.
      destruct scanned as [l | l].
      * exact (IH _ _ _ _ _ _ Hs H).
      * apply ret_inv in H. destruct H as [H _]. inversion H; subst. exact Hs.
Qed.

Lemma enrich_cases (fuel : nat) (params : Params) (r : RecordingInfo) (fs : FS)
    r' fs' t :
  enrich w fuel params r fs = (Ret r', fs', t) ->
  r' = r
  \/ (exists s e, s <> 0 /\ e <> 0 /\ r' = update_numbers r (Some s) (Some e)).
Proof.
  unfold enrich. intros H.
  destruct (episode r) as [ep|]; [| inversion H; auto].
  destruct (p_tvdb_api_key params) as [k1|]; [| inversion H; auto].
  destruct (p_tvdb_user_key params) as [k2|]; [| inversion H; auto].
  destruct (p_tvdb_username params) as [k3|]; [| inversion H; auto].
  destruct (Py.truthy_str ep && Py.truthy_str k1 && Py.truthy_str k2
            && Py.truthy_str k3); [| inversion H; auto].
  step_bind H as numbers fs1 t1 t2 E.
  destruct numbers as [s e].
  destruct (Py.truthy_oint s) eqn:Hs; simpl in H; [| inversion H; auto].
  destruct (Py.truthy_oint e) eqn:He; simpl in H; [| inversion H; auto].
  apply truthy_oint_true in Hs, He.
  destruct Hs as [sn [-> Hsn]], He as [en [-> Hen]].
  inversion H; subst. right. exists sn, en. auto.
Qed.

(** C9.  Discovery creates every recording without numbers, and the
    enrichment step keeps the numbers of a recording both present or both
    absent, changing nothing else of it; so the recording handed to
    [download_tivo_recording] never carries one number without the other. *)
Theorem numbers_both_or_neither (fuel : nat) :
  (forall hostname mak title episode (fs : FS) recs fs' t,
      get_tivo_recording_info w fuel hostname mak title episode fs = (Ret recs, fs', t) ->
      Forall bare recs /\ Forall paired recs)
  /\ (forall params r (fs : FS) r' fs' t,
         paired r ->
         enrich w fuel params r fs = (Ret r', fs', t) ->
         paired r' /\ title r' = title r /\ episode r' = episode r
         /\ link r' = link r).
Proof.
  split.
  - intros hostname mak title episode fs recs fs' t H.
    assert (Hb : Forall bare recs).
    { eapply listing_pages_bare; [apply Forall_nil | exact H]. }
    split; [exact Hb |].
    eapply Forall_impl; [| exact Hb]. intros r Hr. left. exact Hr.
  - intros params r fs r' fs' t Hp H.
    apply enrich_cases in H. destruct H as [-> | [s [e [_ [_ ->]]]]].
    + auto.
    + repeat split; try reflexivity. right. exists s, e. split; reflexivity.
Qed.

(** C10.  When the catalog resolves an episode to season 0 or to episode 0,
    the enrichment step leaves the recording without numbers and its file
    name is [title - episode.TiVo]. *)
Theorem enrich_zero_is_unresolved (fuel : nat) (params : Params) (r : RecordingInfo)
    (ep api_key user_key username : string) (fs : FS) s e fs' t :
  bare r ->
  episode r = Some ep -> ep <> EmptyString ->
  p_tvdb_api_key params = Some api_key -> api_key <> EmptyString ->
  p_tvdb_user_key params = Some user_key -> user_key <> EmptyString ->
  p_tvdb_username params = Some username -> username <> EmptyString ->
  get_season_episode_num w fuel api_key user_key username (title r) ep
    (negb (p_tvdb_ignore_failure params)) fs = (Ret (s, e), fs', t) ->
  s = Some 0 \/ e = Some 0 ->
  enrich w fuel params r fs = (Ret r, fs', t)
  /\ season_num r = None /\ episode_num r = None
  /\ file_name_of r = title r ++ " - " ++ ep ++ ".TiVo".
Proof.
  intros [Hs He] Hep Hne Hk1 Hn1 Hk2 Hn2 Hk3 Hn3 Hget Hzero.
  split; [| split; [exact Hs | split; [exact He |]]].
  - unfold enrich. rewrite Hep, Hk1, Hk2, Hk3.
    apply truthy_str_true in Hne, Hn1, Hn2, Hn3.
    rewrite Hne, Hn1, Hn2, Hn3. simpl.
    rewrite (bind_Ret _ _ _ _ _ _ Hget).
    assert (Hf : Py.truthy_oint s && Py.truthy_oint e = false).
    { destruct Hzero as [-> | ->]; simpl; [reflexivity | apply andb_false_r]. }
    rewrite Hf. unfold ret, result_of, fs_of, trace_of. simpl.
    rewrite app_nil_r. reflexivity.
  - apply file_name_of_episode; auto.
    intros [sn [en [Hsn _]]]. congruence.
Qed.

End Numbers.

Lemma numbers_both_or_neither_witness :
  (Forall bare [bart_the_general] /\ Forall paired [bart_the_general])
  /\ (paired (update_numbers bart_the_general (Some 1) (Some 5))
      /\ title (update_numbers bart_the_general (Some 1) (Some 5)) = "The Simpsons"
      /\ episode (update_numbers bart_the_general (Some 1) (Some 5))
         = Some "Bart the General"
      /\ link (update_numbers bart_the_general (Some 1) (Some 5))
         = "http://tivo/5&Format=video/x-tivo-mpeg").
Proof.
  split.
  - apply (proj1 (numbers_both_or_neither simpsons_world 10)
             "192.168.1.50" "0123456789" "The Simpsons" (Some "Bart the General")
             empty_disk [bart_the_general] empty_disk
             [EvTivoQuery 0; EvTivoQuery 2]).
    vm_compute. reflexivity.
  - apply (proj2 (numbers_both_or_neither simpsons_world 10)
             (example_params "The Simpsons" (Some "Bart the General") (Some "key")
                false None)
             bart_the_general empty_disk
             (update_numbers bart_the_general (Some 1) (Some 5)) empty_disk
             [EvTvdbLogin; EvTvdbSeries "The Simpsons"; EvTvdbEpisodes 71663 1;
              EvTvdbEpisodes 71663 2]).
    + left. split; reflexivity.
    + vm_compute. reflexivity.
Defined.

Lemma enrich_zero_is_unresolved_witness :
  enrich specials_world 5
    (example_params "Doctor Who" None (Some "key") false None)
    the_five_doctors empty_disk
  = (Ret the_five_doctors, empty_disk,
     [EvTvdbLogin; EvTvdbSeries "Doctor Who"; EvTvdbEpisodes 76107 1])
  /\ season_num the_five_doctors = None
  /\ episode_num the_five_doctors = None
  /\ file_name_of the_five_doctors = "Doctor Who - The Five Doctors.TiVo".
Proof.
  apply (enrich_zero_is_unresolved specials_world 5
           (example_params "Doctor Who" None (Some "key") false None)
           the_five_doctors "The Five Doctors" "key" "key" "key" empty_disk
           (Some 0) (Some 3)).
  - split; reflexivity.
  - reflexivity.
  - discriminate.
  - reflexivity.
  - discriminate.
  - reflexivity.
  - discriminate.
  - reflexivity.
  - discriminate.
  - vm_compute. reflexivity.
  - left. reflexivity.
Defined.

(** ** Comparing titles *)

Lemma ostr_eqb_eq (a b : option string) : Py.ostr_eqb a b = true <-> a = b.
Proof.
  destruct a as [x|], b as [y|]; simpl; split; intros H;
    try discriminate; try reflexivity.
  - apply String.eqb_eq in H. congruence.
  - inversion H. apply String.eqb_refl.
Qed.

Section Titles.

Context {FS : Type} {fsops : FileSystem FS}.
Variable w : World.

(** Against the catalog, the first episode of a list is the one returned
    exactly when its name, stripped and put in lower case, equals the
    requested name put in lower case; the requested name is not
    stripped. *)
Lemma find_episode_match (fs : FS) (name requested : string) (s e : option Z)
    (rest : list Episode) :
  find_episode w (mk_Episode (Some name) s e :: rest) requested fs
  = if (str_lower w (str_strip w name) =? str_lower w requested)%string
    then (Ret (Return (s, e)), fs, [])
    else find_episode w rest requested fs.
Proof.
  simpl. destruct (str_lower w (str_strip w name) =? str_lower w requested)%string;
    reflexivity.
Qed.

(** On the device an item is recorded only when its title and its episode
    title equal the requested ones character for character. *)
Lemma device_title_comparison (fs : FS) (title ep : string) (t e u : option string)
    (recs : list RecordingInfo) :
  ep <> EmptyString ->
  let item := mk_Item (Some (mk_Details (Some t) (Some e))) (Some u) in
  (t = Some title -> e = Some ep ->
   scan_items title (Some ep) [item] recs fs
   = (Ret (Return
             (recs ++ [mk_RecordingInfo title e
                         (Py.format_ostr u ++ "&Format=video/x-tivo-mpeg")
                         None None])%list),
      fs, []))
  /\ (t <> Some title \/ e <> Some ep ->
      scan_items title (Some ep) [item] recs fs = (Ret (Next recs), fs, [])).
Proof.
  intros Hne item.
  apply truthy_str_true in Hne. split.
  + intros -> ->. simpl. rewrite !String.eqb_refl. simpl. rewrite Hne.
    unfold bind, ret. simpl. reflexivity.
  + intros Hd. simpl.
    destruct (Py.ostr_eqb t (Some title)) eqn:Et; simpl; [| reflexivity].
    rewrite Hne. simpl.
    destruct e as [y|]; [| reflexivity].
    destruct (String.eqb_spec ep y) as [-> |]; [| reflexivity].
    apply ostr_eqb_eq in Et. destruct Hd as [Hd | Hd]; congruence.
Qed.

End Titles.

(** C5.  The TiVo has the episode [Pilot] of a series with a space after
    its title and the catalog has it as [pilot] with the same space: the
    two titles differ only in letter case, and the comparison, which
    strips the catalog's title and not the other one, does not match
    them.  The run fails to find the episode instead of downloading it
    with its numbers. *)
Theorem episode_title_case_not_matched :
  Py.lower "pilot " = Py.lower "Pilot "
  /\ main pilot_world 10 (example_params "Lost" None (Some "key") false None)
       empty_disk
     = (Stop (FailJson ("The episode " ++ dq ++ "Pilot " ++ dq
                          ++ " could not be found on The TVDB")),
        empty_disk,
        [EvTivoQuery 0; EvTivoQuery 1; EvTvdbLogin; EvTvdbSeries "Lost";
         EvTvdbEpisodes 73739 1]).
Proof. split; vm_compute; reflexivity. Qed.

(** ** Resolving numbers when failures are tolerated *)

Section Tolerant.

Context {FS : Type} {fsops : FileSystem FS}.
Variable w : World.

Lemma requests_wrapper_tolerant {A : Type} (request : event) (answer : reply A)
    (msg : string) (fs : FS) :
  failed answer ->
  requests_wrapper request answer msg false fs = (Ret None, fs, [request]).
Proof.
  unfold requests_wrapper, failed, bind, emit, ret.
  destruct answer as [rv |]; [intros ->; reflexivity | reflexivity].
Qed.

Lemma requests_wrapper_ok {A : Type} (request : event) (rv : response A)
    (msg : string) (foe : bool) (fs : FS) :
  ok rv = true ->
  requests_wrapper request (Responded rv) msg foe fs = (Ret (Some rv), fs, [request]).
Proof.
  unfold requests_wrapper, bind, emit, ret. intros ->. reflexivity.
Qed.

(** A failed login is tolerated: the resolution returns [(None, None)]. *)
Lemma tolerant_login_failure (fuel : nat) (api_key user_key username : string)
    (series_name episode_name : string) (fs : FS) :
  failed (tvdb_login w api_key user_key username) ->
  get_season_episode_num w fuel api_key user_key username series_name episode_name
    false fs
  = (Ret (None, None), fs, [EvTvdbLogin]).
Proof.
  intros Hf. unfold get_season_episode_num.
  erewrite bind_Ret by (apply requests_wrapper_tolerant; exact Hf).
  reflexivity.
Qed.

(** A failed series search is not: [requests_wrapper] returns [None] and the
    test [rv.ok] on it raises [AttributeError]. *)
Lemma tolerant_series_failure (fuel : nat) (api_key user_key username : string)
    (series_name episode_name : string) (fs : FS) rv json :
  tvdb_login w api_key user_key username = Responded rv ->
  ok rv = true -> body rv = Some json ->
  failed (tvdb_search_series w (token json) series_name) ->
  get_season_episode_num w fuel api_key user_key username series_name episode_name
    false fs
  = (Stop (Raised AttributeError), fs, [EvTvdbLogin; EvTvdbSeries series_name]).
Proof.
  intros Hl Hok Hb Hf.
  unfold get_season_episode_num, requests_wrapper, get_request_json, bind, emit, ret,
    raise, halt.
  rewrite Hl. simpl. rewrite !Hok. simpl. rewrite Hb. simpl.
  destruct (tvdb_search_series w (token json) series_name) as [rv2 |];
    simpl in Hf |- *; [rewrite Hf |]; reflexivity.
Qed.

(** Neither is a failed request for a page of episodes. *)
Lemma tolerant_episodes_failure (fuel : nat) (tvdb_token : string) (series_id : Z)
    (episode_name msg : string) (page : Z) (fs : FS) :
  failed (tvdb_episodes w tvdb_token series_id page) ->
  episode_pages w (S fuel) tvdb_token series_id episode_name msg false page fs
  = (Stop (Raised AttributeError), fs, [EvTvdbEpisodes series_id page]).
Proof.
  intros Hf. simpl.
  erewrite bind_Ret by (apply requests_wrapper_tolerant; exact Hf).
  reflexivity.
Qed.

(** An episode that is on no page is tolerated: on a last page without the
    episode the resolution returns [(None, None)]. *)
Lemma tolerant_not_found (fuel : nat) (tvdb_token : string) (series_id : Z)
    (episode_name msg : string) (page : Z) (fs : FS) rv json :
  tvdb_episodes w tvdb_token series_id page = Responded rv ->
  ok rv = true -> body rv = Some json ->
  find_episode w (episodes_data json) episode_name fs = (Ret (Next (None, None)), fs, []) ->
  Py.truthy_oint (links_next json) = false ->
  episode_pages w (S fuel) tvdb_token series_id episode_name msg false page fs
  = (Ret (None, None), fs, [EvTvdbEpisodes series_id page]).
Proof.
  intros Hp Hok Hb Hfind Hnext. simpl.
  unfold requests_wrapper, get_request_json, bind, emit, ret.
  rewrite Hp. simpl. rewrite !Hok. simpl. rewrite Hb. simpl.
  rewrite Hfind, Hnext. reflexivity.
Qed.

End Tolerant.

(** C1.  With [fail_on_error] false, a series search that The TVDB answers
    with 404 does not make the resolution return [(None, None)]: it raises
    [AttributeError]. *)
Theorem tolerant_series_failure_raises :
  get_season_episode_num series_missing_world 5 "key" "user" "jhancock"
    "The Simpsons" "Bart the General" false empty_disk
  = (Stop (Raised AttributeError), empty_disk,
     [EvTvdbLogin; EvTvdbSeries "The Simpsons"]).
Proof. vm_compute. reflexivity. Qed.

(** The same defect on a page of episodes that The TVDB answers with 404. *)
Lemma tolerant_episodes_failure_raises :
  get_season_episode_num episodes_missing_world 5 "key" "user" "jhancock"
    "The Simpsons" "Bart the General" false empty_disk
  = (Stop (Raised AttributeError), empty_disk,
     [EvTvdbLogin; EvTvdbSeries "The Simpsons"; EvTvdbEpisodes 71663 1]).
Proof. vm_compute. reflexivity. Qed.

(** The whole run then ends with the exception instead of a download. *)
Lemma tolerant_series_failure_ends_main :
  main series_missing_world 5
    (example_params "The Simpsons" None (Some "key") true None) empty_disk
  = (Stop (Raised AttributeError), empty_disk,
     [EvTivoQuery 0; EvTivoQuery 1; EvTvdbLogin; EvTvdbSeries "The Simpsons"]).
Proof. vm_compute. reflexivity. Qed.

(** ** The skip decision *)

Section Skip.

Context {FS : Type} {fsops : FileSystem FS}.
Variable w : World.

Lemma skip_path_has_true (fs : FS) (sp : string) (items : list string) (n : string) :
  skip_path_has fs sp items n = true <->
  exists item,
    In item items /\ isfile fs (OsPath.join sp item) = true
    /\ fst (OsPath.splitext item) = n.
Proof.
  induction items as [| item items IH]; simpl.
  - split; [discriminate | intros [item [[] _]]].
  - destruct (isfile fs (OsPath.join sp item)) eqn:Ef.
    + destruct (String.eqb_spec (fst (OsPath.splitext item)) n) as [Heq | Hne].
      * split; [intros _ | reflexivity]. exists item. auto.
      * rewrite IH. split.
        -- intros [i [Hi Hr]]. exists i. auto.
        -- intros [i [[<- | Hi] [Hf Hn]]]; [contradiction | exists i; auto].
    + rewrite IH. split.
      * intros [i [Hi Hr]]. exists i. auto.
      * intros [i [[<- | Hi] [Hf Hn]]]; [congruence | exists i; auto].
Qed.

Lemma skip_check_true (fs : FS) (skip_path : option string) (file_name : string) :
  skip_check fs skip_path file_name = true <-> in_skip_check fs skip_path file_name.
Proof.
  unfold skip_check, in_skip_check. destruct skip_path as [sp |].
  - rewrite !andb_true_iff, truthy_str_true, skip_path_has_true. split.
    + intros [[Hsp Hd] [item [Hi [Hf Hn]]]]. exists sp, item. auto 10.
    + intros [sp' [item [Hs [Hsp [Hd [Hi [Hf Hn]]]]]]]. inversion Hs; subst.
      split; [auto |]. exists item. auto.
  - split; [discriminate | intros [sp [item [Hs _]]]; discriminate].
Qed.

Lemma skip_stage (fs : FS) (skip_path : option string) (file_name : string) :
  match skip_path with
  | Some sp =>
      sp_ok <- look (fun fs => Py.truthy_str sp && isdir fs sp) ;;
      if sp_ok : bool then
        look (fun fs =>
                skip_path_has fs sp (listdir fs sp) (fst (OsPath.splitext file_name)))
      else ret false
  | None => ret false
  end fs
  = (Ret (skip_check fs skip_path file_name), fs, []).
Proof.
  unfold skip_check, bind, look, ret. destruct skip_path as [sp |]; [| reflexivity].
  destruct (Py.truthy_str sp && isdir fs sp); reflexivity.
Qed.

(** The body of [download_tivo_recording], one test after the other. *)
Lemma download_tivo_recording_eq (mak : string) (r : RecordingInfo)
    (dest_dir : string) (skip_path : option string) (fs : FS) :
  let dest_file_path := OsPath.join dest_dir (file_name_of r) in
  let error_msg :=
    if Py.truthy_ostr (episode r) then
      "Downloading the episode " ++ dq ++ title r ++ dq
        ++ " from the series " ++ dq ++ Py.format_ostr (episode r) ++ dq ++ "failed."
    else "Downloading " ++ dq ++ title r ++ dq ++ " failed." in
  download_tivo_recording w mak r dest_dir skip_path fs
  = if skip_check fs skip_path (file_name_of r) then (Ret false, fs, [])
    else if exists_ fs dest_file_path then (Ret false, fs, [])
    else
      match tivo_download w mak (link r) with
      | Responded rv =>
          if ok rv then
            if can_open fs dest_file_path
            then (Ret true, write_file fs dest_file_path (written_chunks (body rv)),
                  [EvTivoDownload (link r); EvFileWritten dest_file_path])
            else (Stop (Raised IOError), fs, [EvTivoDownload (link r)])
          else (Stop (FailJson error_msg), fs, [EvTivoDownload (link r)])
      | ConnectionError => (Stop (FailJson error_msg), fs, [EvTivoDownload (link r)])
      end.
Proof.
  intros dest_file_path error_msg. unfold download_tivo_recording.
  fold dest_file_path. fold error_msg.
  rewrite (bind_Ret _ _ _ _ _ _ (skip_stage fs skip_path (file_name_of r))).
  cbv beta. unfold result_of, fs_of, trace_of.
  destruct (skip_check fs skip_path (file_name_of r)); [reflexivity |].
  cbv beta iota zeta
    delta [bind ret look requests_wrapper emit write_to fail_json halt raise fst snd].
  destruct (exists_ fs dest_file_path); [reflexivity |].
  destruct (tivo_download w mak (link r)) as [rv |]; [| reflexivity].
  destruct (ok rv); [| reflexivity].
  destruct (can_open fs dest_file_path); reflexivity.
Qed.

(** C4.  [download_tivo_recording] first looks in the skip-check directory,
    then at the destination path, and only then transfers: a hit in the
    skip-check directory skips the recording; otherwise an existing
    destination skips it; otherwise the download request is sent.  When
    the TiVo answers it, the file is written if it can be opened, and the
    call raises [IOError] with nothing written if it cannot; when the TiVo
    does not answer it, the run fails. *)
Theorem skip_decision_order (mak : string) (r : RecordingInfo) (dest_dir : string)
    (skip_path : option string) (fs : FS) :
  let file_name := file_name_of r in
  let dest_file_path := OsPath.join dest_dir file_name in
  (in_skip_check fs skip_path file_name ->
   download_tivo_recording w mak r dest_dir skip_path fs = (Ret false, fs, []))
  /\ (~ in_skip_check fs skip_path file_name ->
      exists_ fs dest_file_path = true ->
      download_tivo_recording w mak r dest_dir skip_path fs = (Ret false, fs, []))
  /\ (~ in_skip_check fs skip_path file_name ->
      exists_ fs dest_file_path = false ->
      (forall rv,
          tivo_download w mak (link r) = Responded rv -> ok rv = true ->
          download_tivo_recording w mak r dest_dir skip_path fs
          = if can_open fs dest_file_path
            then (Ret true, write_file fs dest_file_path (written_chunks (body rv)),
                  [EvTivoDownload (link r); EvFileWritten dest_file_path])
            else (Stop (Raised IOError), fs, [EvTivoDownload (link r)]))
      /\ (failed (tivo_download w mak (link r)) ->
          exists msg,
            download_tivo_recording w mak r dest_dir skip_path fs
            = (Stop (FailJson msg), fs, [EvTivoDownload (link r)]))).
Proof.
  intros file_name dest_file_path. unfold download_tivo_recording.
  fold file_name. fold dest_file_path.
  rewrite (bind_Ret _ _ _ _ _ _ (skip_stage fs skip_path file_name)).
  cbv beta. unfold result_of, fs_of, trace_of.
  split; [| split].
  - intros Hin. apply skip_check_true in Hin. rewrite Hin. reflexivity.
  - intros Hout Hex. rewrite <- skip_check_true in Hout.
    apply not_true_is_false in Hout. rewrite Hout.
    unfold bind, look, ret. rewrite Hex. reflexivity.
  - intros Hout Hex. rewrite <- skip_check_true in Hout.
    apply not_true_is_false in Hout. rewrite Hout.
    unfold bind, look, ret, requests_wrapper, emit, write_to, fail_json, halt.
    rewrite Hex. split.
    + intros rv Hrv Hok. rewrite Hrv, Hok.
      cbv beta iota zeta delta [bind ret fst snd].
      destruct (can_open fs dest_file_path); reflexivity.
    + intros Hf. destruct (tivo_download w mak (link r)) as [rv |]; simpl in Hf.
      * rewrite Hf. eexists. reflexivity.
      * eexists. reflexivity.
Qed.

End Skip.

Lemma skip_decision_order_witness :
  download_tivo_recording simpsons_world "0123456789" bart_the_general "/dest"
    (Some "/videos") disk_with_converted_bart
  = (Ret false, disk_with_converted_bart, [])
  /\ download_tivo_recording simpsons_world "0123456789" bart_the_general "/dest"
       (Some "/videos") disk_with_bart
     = (Ret false, disk_with_bart, [])
  /\ download_tivo_recording simpsons_world "0123456789" bart_the_general "/dest"
       (Some "/videos") empty_disk
     = (Ret true,
        Disk.mk ["/dest"] [("/dest", "The Simpsons - Bart the General.TiVo")],
        [EvTivoDownload "http://tivo/5&Format=video/x-tivo-mpeg";
         EvFileWritten "/dest/The Simpsons - Bart the General.TiVo"])
  /\ download_tivo_recording simpsons_world "0123456789" face_off "/dest"
       (Some "/videos") empty_disk
     = (Stop (Raised IOError), empty_disk,
        [EvTivoDownload "http://tivo/7&Format=video/x-tivo-mpeg"]).
Proof.
  split; [| split; [| split]].
  - apply (proj1 (skip_decision_order simpsons_world "0123456789" bart_the_general
                    "/dest" (Some "/videos") disk_with_converted_bart)).
    exists "/videos", "The Simpsons - Bart the General.mpg".
    repeat split; try reflexivity; try discriminate. left. reflexivity.
  - apply (proj1 (proj2 (skip_decision_order simpsons_world "0123456789"
                           bart_the_general "/dest" (Some "/videos") disk_with_bart))).
    + intros [sp [item [Hs [_ [Hd _]]]]]. inversion Hs; subst. discriminate Hd.
    + reflexivity.
  - apply (proj1 (proj2 (proj2 (skip_decision_order simpsons_world "0123456789"
                                  bart_the_general "/dest" (Some "/videos")
                                  empty_disk))
                    ltac:(intros [sp [item [Hs [_ [Hd _]]]]]; inversion Hs; subst;
                          discriminate Hd)
                    ltac:(reflexivity))
             (ok_response ["mpeg"; EmptyString; "data"])); reflexivity.
  - apply (proj1 (proj2 (proj2 (skip_decision_order simpsons_world "0123456789"
                                  face_off "/dest" (Some "/videos") empty_disk))
                    ltac:(intros [sp [item [Hs [_ [Hd _]]]]]; inversion Hs; subst;
                          discriminate Hd)
                    ltac:(reflexivity))
             (ok_response ["mpeg"; EmptyString; "data"])); reflexivity.
Defined.

(** ** Counting transfers *)

Lemma transfers_app (t1 t2 : list event) :
  transfers (t1 ++ t2) = (transfers t1 + transfers t2)%nat.
Proof.
  induction t1 as [| e t1 IH]; simpl; [reflexivity |].
  destruct e; simpl; rewrite IH; reflexivity.
Qed.

Section Transfers.

Context {FS : Type} {fsops : FileSystem FS}.
Variable w : World.

Ltac quiet_now := subst; repeat split; simpl; auto.

Lemma requests_wrapper_trace {A : Type} (request : event) (answer : reply A)
    (msg : string) (foe : bool) (fs : FS) r fs' t :
  requests_wrapper request answer msg foe fs = (r, fs', t) ->
  fs' = fs /\ t = [request] /\ never_exits r.
Proof.
  unfold requests_wrapper, bind, emit, ret, fail_json, halt.
  destruct answer as [rv |]; [destruct (ok rv) |]; destruct foe;
    intros H; inversion H; quiet_now.
Qed.

Lemma get_request_json_trace {A : Type} (rv : response (option A)) (msg : string)
    (foe : bool) (fs : FS) r fs' t :
  get_request_json rv msg foe fs = (r, fs', t) ->
  fs' = fs /\ t = [] /\ never_exits r.
Proof.
  unfold get_request_json, ret, fail_json, halt.
  destruct (ok rv); [| destruct foe]; intros H; inversion H; quiet_now.
Qed.

Lemma find_episode_trace (data : list Episode) (episode_name : string) (fs : FS)
    r fs' t :
  find_episode w data episode_name fs = (r, fs', t) ->
  fs' = fs /\ t = [] /\ never_exits r.
Proof.
  induction data as [| ep data IH]; simpl.
  - intros H. inversion H. quiet_now.
  - destruct (episodeName ep) as [name |]; [| intros H; inversion H; quiet_now].
    destruct (str_lower w (str_strip w name) =? str_lower w episode_name)%string;
      [intros H; inversion H; quiet_now | exact IH].
Qed.

Lemma episode_pages_quiet (fuel : nat) (tvdb_token : string) (series_id : Z)
    (episode_name msg : string) (foe : bool) :
  forall page (fs : FS) r fs' t,
    episode_pages w fuel tvdb_token series_id episode_name msg foe page fs = (r, fs', t) ->
    fs' = fs /\ quiet r t.
Proof.
  induction fuel as [| fuel IH]; intros page fs r fs' t H; simpl in H.
  - inversion H. quiet_now.
  - step_bind H as rv fs1 t1 t2 E; apply requests_wrapper_trace in E;
      destruct E as [-> [-> Hx]]; [quiet_now |].
    destruct rv as [rv |]; [| inversion H; quiet_now].
    destruct (negb (ok rv)); [inversion H; quiet_now |].
    step_bind H as json fs2 t3 t4 E2; apply get_request_json_trace in E2;
      destruct E2 as [-> [-> Hx2]]; [quiet_now |].
    destruct json as [json |]; [| inversion H; quiet_now].
    step_bind H as found fs3 t5 t6 E3; apply find_episode_trace in E3;
      destruct E3 as [-> [-> Hx3]]; [quiet_now |].
    destruct found as [x | numbers]; [| inversion H; quiet_now].
    destruct (Py.truthy_oint (links_next json)).
    + destruct (links_next json) as [next |]; [| inversion H; quiet_now].
      apply IH in H. destruct H as [-> [Ht Hr]]. quiet_now.
    + destruct foe; inversion H; quiet_now.
Qed.

Lemma get_season_episode_num_quiet (fuel : nat)
    (api_key user_key username series_name episode_name : string) (foe : bool)
    (fs : FS) r fs' t :
  get_season_episode_num w fuel api_key user_key username series_name episode_name
    foe fs = (r, fs', t) ->
  fs' = fs /\ quiet r t.
Proof.
  unfold get_season_episode_num. intros H.
  step_bind H as rv fs1 t1 t2 E; apply requests_wrapper_trace in E;
    destruct E as [-> [-> Hx]]; [quiet_now |].
  destruct rv as [rv |]; [| inversion H; quiet_now].
  destruct (negb (ok rv)); [inversion H; quiet_now |].
  step_bind H as json fs2 t3 t4 E2; apply get_request_json_trace in E2;
    destruct E2 as [-> [-> Hx2]]; [quiet_now |].
  destruct json as [json |]; [| inversion H; quiet_now].
  step_bind H as rv2 fs3 t5 t6 E3; apply requests_wrapper_trace in E3;
    destruct E3 as [-> [-> Hx3]]; [quiet_now |].
  destruct rv2 as [rv2 |]; [| inversion H; quiet_now].
  destruct (negb (ok rv2)); [inversion H; quiet_now |].
  step_bind H as json2 fs4 t7 t8 E4; apply get_request_json_trace in E4;
    destruct E4 as [-> [-> Hx4]]; [quiet_now |].
  destruct json2 as [json2 |]; [| inversion H; quiet_now].
  destruct (series_data json2) as [| info rest]; [inversion H; quiet_now |].
  apply episode_pages_quiet in H. destruct H as [-> [Ht Hr]]. quiet_now.
Qed.

Lemma enrich_quiet (fuel : nat) (params : Params) (r : RecordingInfo) (fs : FS)
    res fs' t :
  enrich w fuel params r fs = (res, fs', t) -> fs' = fs /\ quiet res t.
Proof.
  unfold enrich. intros H.
  destruct (episode r) as [ep |]; [| inversion H; quiet_now].
  destruct (p_tvdb_api_key params) as [k1 |]; [| inversion H; quiet_now].
  destruct (p_tvdb_user_key params) as [k2 |]; [| inversion H; quiet_now].
  destruct (p_tvdb_username params) as [k3 |]; [| inversion H; quiet_now].
  destruct (Py.truthy_str ep && Py.truthy_str k1 && Py.truthy_str k2
            && Py.truthy_str k3); [| inversion H; quiet_now].
  step_bind H as numbers fs1 t1 t2 E;
    apply get_season_episode_num_quiet in E; destruct E as [-> [Ht1 Hx]];
    [quiet_now |].
  destruct numbers as [s e].
  destruct (Py.truthy_oint s && Py.truthy_oint e); inversion H; subst;
    rewrite app_nil_r; quiet_now.
Qed.

Lemma scan_items_trace (title : string) (episode : option string)
    (items : list Item) :
  forall recs (fs : FS) r fs' t,
    scan_items title episode items recs fs = (r, fs', t) ->
    fs' = fs /\ t = [] /\ never_exits r.
Proof.
  induction items as [| child items IH]; intros recs fs r fs' t H; simpl in H.
  - inversion H. quiet_now.
  - destruct (item_Details child) as [d |]; [| exact (IH _ _ _ _ _ H)].
    destruct (Title d) as [ct |]; [| inversion H; quiet_now].
    destruct (negb (Py.ostr_eqb ct (Some title))); [exact (IH _ _ _ _ _ H) |].
    assert (Hlink : forall x (f1 f2 : FS) tr,
               get_tivo_dl_link_from_element child f1 = (x, f2, tr) ->
               f2 = f1 /\ tr = [] /\ never_exits x).
    { unfold get_tivo_dl_link_from_element, ret, fail_json, halt.
      intros x f1 f2 tr. destruct (Url child); intros Hx; inversion Hx; quiet_now. }
    destruct (EpisodeTitle d) as [et |].
    + destruct (negb (Py.truthy_ostr episode) || Py.ostr_eqb episode et);
        [| exact (IH _ _ _ _ _ H)].
      step_bind H as dl fs1 t1 t2 E; apply Hlink in E; destruct E as [-> [-> Hx]];
        [quiet_now |].
      destruct (Py.truthy_ostr episode); [inversion H; quiet_now |].
      exact (IH _ _ _ _ _ H).
    + destruct (Py.is_None episode); [| exact (IH _ _ _ _ _ H)].
      step_bind H as dl fs1 t1 t2 E; apply Hlink in E; destruct E as [-> [-> Hx]];
        [quiet_now |].
      inversion H; quiet_now.
Qed.

(** The scan of a page is a [for] loop: it never runs out of fuel. *)
Lemma scan_items_finishes (title : string) (episode : option string)
    (items : list Item) :
  forall recs (fs : FS) r fs' t,
    scan_items title episode items recs fs = (r, fs', t) -> r <> Stop OutOfFuel.
Proof.
  induction items as [| child items IH]; intros recs fs r fs' t H; simpl in H.
  - inversion H. discriminate.
  - destruct (item_Details child) as [d |]; [| exact (IH _ _ _ _ _ H)].
    destruct (Title d) as [ct |]; [| inversion H; discriminate].
    destruct (negb (Py.ostr_eqb ct (Some title))); [exact (IH _ _ _ _ _ H) |].
    assert (Hlink : forall x (f1 f2 : FS) tr,
               get_tivo_dl_link_from_element child f1 = (x, f2, tr) ->
               x <> Stop OutOfFuel).
    { unfold get_tivo_dl_link_from_element, ret, fail_json, halt.
      intros x f1 f2 tr. destruct (Url child); intros Hx; inversion Hx; discriminate. }
    destruct (EpisodeTitle d) as [et |].
    + destruct (negb (Py.truthy_ostr episode) || Py.ostr_eqb episode et);
        [| exact (IH _ _ _ _ _ H)].
      step_bind H as dl fs1 t1 t2 E.
      { apply Hlink in E. subst r. intros Hs. inversion Hs; subst. apply E.
        reflexivity. }
      destruct (Py.truthy_ostr episode); [inversion H; discriminate |].
      exact (IH _ _ _ _ _ H).
    + destruct (Py.is_None episode); [| exact (IH _ _ _ _ _ H)].
      step_bind H as dl fs1 t1 t2 E.
      { apply Hlink in E. subst r. intros Hs. inversion Hs; subst. apply E.
        reflexivity. }
      inversion H; discriminate.
Qed.

Lemma listing_pages_quiet (fuel : nat) (hostname mak title : string)
    (episode : option string) :
  forall offset recs (fs : FS) r fs' t,
    listing_pages w fuel hostname mak title episode offset recs fs = (r, fs', t) ->
    fs' = fs /\ quiet r t.
Proof.
  induction fuel as [| fuel IH]; intros offset recs fs r fs' t H; simpl in H.
  - inversion H. quiet_now.
  - step_bind H as rv fs1 t1 t2 E; apply requests_wrapper_trace in E;
      destruct E as [-> [-> Hx]]; [quiet_now |].
    destruct rv as [rv |]; [| inversion H; quiet_now].
    destruct (ItemCount (body rv) =? 0); [inversion H; quiet_now |].
    step_bind H as scanned fs2 t3 t4 E2; apply scan_items_trace in E2;
      destruct E2 as [-> [-> Hx2]]; [quiet_now |].
    destruct scanned as [l | l]; [| inversion H; quiet_now].
    apply IH in H. destruct H as [-> [Ht Hr]]. quiet_now.
Qed.

(** A call of [download_tivo_recording] writes one file when it returns
    [True] and none otherwise. *)
Lemma download_tivo_recording_transfers (mak : string) (r : RecordingInfo)
    (dest_dir : string) (skip_path : option string) (fs : FS) res fs' t :
  download_tivo_recording w mak r dest_dir skip_path fs = (res, fs', t) ->
  never_exits res
  /\ ((res = Ret true /\ transfers t = 1%nat)
      \/ (res <> Ret true /\ transfers t = 0%nat)).
Proof.
  rewrite download_tivo_recording_eq. cbv zeta. intros H.
  destruct (skip_check fs skip_path (file_name_of r)).
  - inversion H. split; [exact I | right]. split; [discriminate | reflexivity].
  - destruct (exists_ fs (OsPath.join dest_dir (file_name_of r))).
    + inversion H. split; [exact I | right]. split; [discriminate | reflexivity].
    + destruct (tivo_download w mak (link r)) as [rv |];
        [destruct (ok rv);
         [destruct (can_open fs (OsPath.join dest_dir (file_name_of r))) |] |];
        inversion H; subst; simpl; (split; [exact I |]);
        [left; auto | right; split; [discriminate | reflexivity] ..].
Qed.

(** The counter of [main] counts the files written. *)
Lemma download_all_count (fuel : nat) (params : Params) (total : Z)
    (recs : list RecordingInfo) :
  forall count (fs : FS) res fs' t,
    download_all w fuel params total recs count fs = (res, fs', t) ->
    never_exits res
    /\ (forall n, res = Ret n -> n = count + Z.of_nat (transfers t)).
Proof.
  induction recs as [| r recs IH]; intros count fs res fs' t H; simpl in H.
  - inversion H; subst. split; [exact I |]. intros n Hn. inversion Hn. simpl. lia.
  - step_bind H as r' fs1 t1 t2 E; apply enrich_quiet in E;
      destruct E as [-> [Ht1 Hx1]]; [subst; split; [exact Hx1 | discriminate] |].
    step_bind H as downloaded fs2 t3 t4 E2;
      apply download_tivo_recording_transfers in E2; destruct E2 as [Hx2 E2];
      [subst; split; [exact Hx2 | discriminate] |].
    rewrite !transfers_app, Ht1.
    destruct downloaded.
    + destruct E2 as [[_ Ht3] | [Hne _]]; [| congruence].
      step_bind H as u fs3 t5 t6 E3.
      { unfold sleep, emit, ret in E3.
        destruct (count + 1 <? total); discriminate E3. }
      assert (Ht5 : transfers t5 = 0%nat).
      { unfold sleep, emit, ret in E3.
        destruct (count + 1 <? total); inversion E3; reflexivity. }
      apply IH in H. destruct H as [Hx H]. split; [exact Hx |].
      intros n Hn. rewrite (H n Hn), transfers_app, Ht3, Ht5. lia.
    + destruct E2 as [[Heq _] | [_ Ht3]]; [discriminate Heq |].
      apply IH in H. destruct H as [Hx H]. split; [exact Hx |].
      intros n Hn. rewrite (H n Hn), Ht3. lia.
Qed.

(** C8.  When a run ends with [exit_json], [changed] is true exactly when
    at least one file was transferred; a run that transferred none reports
    [changed=False]. *)
Theorem changed_iff_transferred (fuel : nat) (params : Params) (fs : FS)
    msg changed fs' t :
  main w fuel params fs = (Stop (ExitJson msg changed), fs', t) ->
  (changed = true <-> (0 < transfers t)%nat)
  /\ (transfers t = 0%nat -> changed = false).
Proof.
  unfold main. intros H.
  step_bind H as dest_ok fs1 t1 t2 E; [unfold look in E; discriminate E |].
  unfold look in E. inversion E; subst. clear E.
  step_bind H as u fs2 t3 t4 E.
  { inversion Hr; subst. unfold ret, fail_json, halt in E.
    destruct (isdir fs1 (p_dest_dir params)); inversion E. }
  assert (Ht3 : fs2 = fs1 /\ t3 = []).
  { destruct (isdir fs1 (p_dest_dir params)); inversion E; auto. }
  destruct Ht3 as [-> ->]. clear E.
  step_bind H as recs fs3 t5 t6 E;
    apply listing_pages_quiet in E; destruct E as [-> [Ht5 Hx5]];
    [inversion Hr; subst; contradiction |].
  step_bind H as u2 fs4 t7 t8 E.
  { inversion Hr; subst. unfold ret, fail_json, halt in E.
    destruct recs; inversion E. }
  assert (Ht7 : fs4 = fs1 /\ t7 = []).
  { destruct recs; inversion E; auto. }
  destruct Ht7 as [-> ->]. clear E.
  step_bind H as n fs5 t9 t10 E;
    apply download_all_count in E; destruct E as [Hx9 Hn];
    [inversion Hr; subst; contradiction |].
  specialize (Hn n eq_refl).
  assert (Hc : changed = (n >? 0) /\ t10 = []).
  { destruct (n >? 0); unfold exit_json, halt in H; inversion H; auto. }
  destruct Hc as [-> ->]. simpl.
  rewrite app_nil_r, transfers_app, Ht5. simpl.
  assert (Hpos : (n >? 0) = true <-> (0 < transfers t9)%nat).
  { rewrite Z.gtb_ltb, Z.ltb_lt. lia. }
  split; [exact Hpos |].
  intros Hz. destruct (n >? 0); [| reflexivity].
  destruct Hpos as [Hpos _]. specialize (Hpos eq_refl). lia.
Qed.

End Transfers.

Lemma changed_iff_transferred_witness :
  (false = true <-> (0 < transfers [EvTivoQuery 0; EvTivoQuery 2])%nat)
  /\ (transfers [EvTivoQuery 0; EvTivoQuery 2] = 0%nat -> false = false).
Proof.
  apply (changed_iff_transferred simpsons_world 10
           (example_params "The Simpsons" (Some "Bart the General") None false None)
           disk_with_bart "1 recording(s) skipped" false disk_with_bart
           [EvTivoQuery 0; EvTivoQuery 2]).
  vm_compute. reflexivity.
Defined.

(** A run that downloads reports [changed=True]. *)
Lemma changed_after_download :
  main simpsons_world 10
    (example_params "Toy Story" None None false None) empty_disk
  = (Stop (ExitJson "1 recording(s) downloaded successfully" true),
     Disk.mk ["/dest"] [("/dest", "Toy Story.TiVo")],
     [EvTivoQuery 0; EvTivoQuery 2;
      EvTivoDownload "http://tivo/4&Format=video/x-tivo-mpeg";
      EvFileWritten "/dest/Toy Story.TiVo"]).
Proof. vm_compute. reflexivity. Qed.

(** ** Pauses between transfers *)

Lemma paced_app_quiet (t1 t2 : list event) :
  transfers t1 = 0%nat -> paced (t1 ++ t2) = paced t2.
Proof.
  induction t1 as [| e t1 IH]; simpl; [reflexivity |].
  destruct e; simpl; try exact IH. discriminate.
Qed.

Lemma paced_quiet (t : list event) : transfers t = 0%nat -> paced t = true.
Proof.
  intros H. rewrite <- (app_nil_r t). rewrite paced_app_quiet by exact H. reflexivity.
Qed.

Section Pauses.

Context {FS : Type} {fsops : FileSystem FS}.
Variable w : World.

(** What [download_tivo_recording] leaves in the trace. *)
Lemma download_tivo_recording_trace (mak : string) (r : RecordingInfo)
    (dest_dir : string) (skip_path : option string) (fs : FS) res fs' t :
  download_tivo_recording w mak r dest_dir skip_path fs = (res, fs', t) ->
  (res = Ret true /\ exists p, t = [EvTivoDownload (link r); EvFileWritten p])
  \/ (res <> Ret true /\ transfers t = 0%nat).
Proof.
  rewrite download_tivo_recording_eq. cbv zeta. intros H.
  destruct (skip_check fs skip_path (file_name_of r)).
  - inversion H. right. split; [discriminate | reflexivity].
  - destruct (exists_ fs (OsPath.join dest_dir (file_name_of r))).
    + inversion H. right. split; [discriminate | reflexivity].
    + destruct (tivo_download w mak (link r)) as [rv |];
        [destruct (ok rv);
         [destruct (can_open fs (OsPath.join dest_dir (file_name_of r))) |] |];
        inversion H; subst; simpl;
        [left; split; [reflexivity | eexists; reflexivity]
        | right; split; [discriminate | reflexivity] ..].
Qed.

(** While recordings remain, the counter is below [total], so the loop of
    [main] sleeps after every transfer that is not the last iteration. *)
Lemma download_all_paced (fuel : nat) (params : Params) (total : Z)
    (recs : list RecordingInfo) :
  forall count (fs : FS) res fs' t,
    count + Z.of_nat (List.length recs) <= total ->
    download_all w fuel params total recs count fs = (res, fs', t) ->
    paced t = true.
Proof.
  induction recs as [| r recs IH]; intros count fs res fs' t Hinv H; simpl in H.
  - inversion H. reflexivity.
  - simpl List.length in Hinv.
    step_bind H as r' fs1 t1 t2 E; apply enrich_quiet in E;
      destruct E as [-> [Ht1 Hx1]]; [apply paced_quiet; exact Ht1 |].
    rewrite paced_app_quiet by exact Ht1.
    step_bind H as downloaded fs2 t3 t4 E2;
      apply download_tivo_recording_trace in E2.
    { destruct E2 as [[Heq _] | [_ Ht]]; [discriminate Heq | apply paced_quiet, Ht]. }
    destruct downloaded.
    + destruct E2 as [[_ [p ->]] | [Hne _]]; [| congruence].
      step_bind H as u fs3 t5 t6 E3.
      { unfold sleep, emit, ret in E3.
        destruct (count + 1 <? total); discriminate E3. }
      destruct (Z.ltb_spec (count + 1) total) as [Hlt | Hge].
      * unfold sleep, emit in E3. inversion E3; subst. simpl.
        eapply IH; [| exact H]. lia.
      * unfold ret in E3. inversion E3; subst. simpl.
        destruct recs as [| r2 recs]; [| simpl List.length in Hinv; lia].
        simpl in H. inversion H. reflexivity.
    + destruct E2 as [[Heq _] | [_ Ht3]]; [discriminate Heq |].
      rewrite paced_app_quiet by exact Ht3.
      eapply IH; [| exact H]. lia.
Qed.

(** In every run, a pause of 30 follows each transfer before anything else
    happens, unless the run ends with that transfer. *)
Lemma main_paced (fuel : nat) (params : Params) (fs : FS) :
  paced (trace_of (main w fuel params fs)) = true.
Proof.
  destruct (main w fuel params fs) as [[res fs'] t] eqn:H. unfold trace_of. simpl.
  unfold main in H.
  step_bind H as dest_ok fs1 t1 t2 E; unfold look in E; inversion E; subst;
    clear E.
  simpl.
  step_bind H as u fs2 t3 t4 E.
  { unfold ret, fail_json, halt in E.
    destruct (isdir fs1 (p_dest_dir params)); inversion E; reflexivity. }
  assert (Ht3 : t3 = []).
  { unfold ret, fail_json, halt in E.
    destruct (isdir fs1 (p_dest_dir params)); inversion E; auto. }
  subst t3. clear E. simpl.
  step_bind H as recs fs3 t5 t6 E;
    apply listing_pages_quiet in E; destruct E as [-> [Ht5 Hx5]];
    [apply paced_quiet; exact Ht5 |].
  rewrite paced_app_quiet by exact Ht5.
  step_bind H as u2 fs4 t7 t8 E.
  { unfold ret, fail_json, halt in E. destruct recs; inversion E; reflexivity. }
  assert (Ht7 : t7 = []).
  { unfold ret, fail_json, halt in E. destruct recs; inversion E; auto. }
  subst t7. clear E. simpl.
  step_bind H as n fs5 t9 t10 E.
  { eapply download_all_paced; [| exact E]. lia. }
  assert (Ht10 : t10 = []).
  { unfold exit_json, halt in H. destruct (n >? 0); inversion H; reflexivity. }
  subst t10. rewrite app_nil_r.
  eapply download_all_paced; [| exact E]. lia.
Qed.

End Pauses.

(** C2.  Two recordings match, the first is already on disk and the second
    is transferred: the counter is 1, below the number of matches, and the
    run sleeps 30 seconds after its final transfer. *)
Theorem pause_after_final_transfer :
  main two_episodes_world 10
    (example_params "The Simpsons" None None false None) disk_with_homer
  = (Stop (ExitJson "1 recording(s) downloaded successfully" true),
     Disk.mk ["/dest"]
       [("/dest", "The Simpsons - Homer's Odyssey.TiVo");
        ("/dest", "The Simpsons - Bart the General.TiVo")],
     [EvTivoQuery 0; EvTivoQuery 2;
      EvTivoDownload "http://tivo/5&Format=video/x-tivo-mpeg";
      EvFileWritten "/dest/The Simpsons - Bart the General.TiVo";
      EvSleep 30]).
Proof. vm_compute. reflexivity. Qed.

(** With nothing on disk both are transferred, and the run pauses between
    the two and not after the second. *)
Lemma pause_between_transfers :
  trace_of
    (main two_episodes_world 10
       (example_params "The Simpsons" None None false None) empty_disk)
  = [EvTivoQuery 0; EvTivoQuery 2;
     EvTivoDownload "http://tivo/3&Format=video/x-tivo-mpeg";
     EvFileWritten "/dest/The Simpsons - Homer's Odyssey.TiVo";
     EvSleep 30;
     EvTivoDownload "http://tivo/5&Format=video/x-tivo-mpeg";
     EvFileWritten "/dest/The Simpsons - Bart the General.TiVo"].
Proof. vm_compute. reflexivity. Qed.

(** ** Pagination of the listing *)

Section Listing.

Context {FS : Type} {fsops : FileSystem FS}.
Variable w : World.
Variables hostname mak title : string.
Variable episode : option string.

Let q : Z -> reply Page := tivo_query w hostname mak.

(** One turn of the [while True] loop on a page the TiVo served. *)
Lemma listing_pages_step (fuel : nat) (offset : Z) (recs : list RecordingInfo)
    (fs : FS) (rv : response Page) :
  q offset = Responded rv -> ok rv = true ->
  listing_pages w (S fuel) hostname mak title episode offset recs fs =
    if ItemCount (body rv) =? 0 then (Ret recs, fs, [EvTivoQuery offset])
    else
      match scan_items title episode (Items (body rv)) recs fs with
      | (Ret (Return l), fs1, t1) => (Ret l, fs1, EvTivoQuery offset :: t1)
      | (Ret (Next l), fs1, t1) =>
          match listing_pages w fuel hostname mak title episode
                  (offset + ItemCount (body rv)) l fs1 with
          | (r, fs2, t2) => (r, fs2, EvTivoQuery offset :: (t1 ++ t2)%list)
          end
      | (Stop s, fs1, t1) => (Stop s, fs1, EvTivoQuery offset :: t1)
      end.
Proof.
  intros Hq Hok. simpl. unfold q in Hq. rewrite Hq.
  unfold requests_wrapper, bind, emit, ret. simpl. rewrite Hok. simpl.
  destruct (ItemCount (body rv) =? 0); [reflexivity |].
  destruct (scan_items title episode (Items (body rv)) recs fs) as [[r fs1] t1].
  destruct r as [[l | l] | s]; simpl; try reflexivity.
  - destruct (listing_pages w fuel hostname mak title episode
                (offset + ItemCount (body rv)) l fs1) as [[r2 fs2] t2].
    reflexivity.
  - rewrite app_nil_r. reflexivity.
Qed.

(** A request the TiVo did not serve ends the run with [fail_json]. *)
Lemma listing_pages_failed (fuel : nat) (offset : Z) (recs : list RecordingInfo)
    (fs : FS) :
  failed (q offset) ->
  listing_pages w (S fuel) hostname mak title episode offset recs fs =
    (Stop (FailJson "The request to get the recordings from Tivo failed."), fs,
     [EvTivoQuery offset]).
Proof.
  intros Hf. simpl. unfold q in Hf.
  unfold requests_wrapper, bind, emit, ret, fail_json, halt.
  destruct (tivo_query w hostname mak offset) as [rv |]; simpl in Hf |- *;
    [rewrite Hf |]; reflexivity.
Qed.

Lemma pagination_head (o : Z) (os : list Z) :
  pagination q o os -> exists os', os = o :: os'.
Proof. intros H. inversion H; eauto. Qed.

Section Bounded.

Variable bound : Z.
Hypothesis counts_not_negative :
  forall o rv, q o = Responded rv -> ok rv = true -> 0 <= ItemCount (body rv).
Hypothesis listing_ends :
  forall o, bound <= o ->
            exists rv, q o = Responded rv /\ ok rv = true /\ ItemCount (body rv) = 0.

(** What the loop does from any offset, given fuel for the pages that are
    left below [bound]. *)
Lemma listing_pages_pagination (fuel : nat) :
  forall offset recs (fs : FS),
    (Z.to_nat (bound - offset) < fuel)%nat ->
    exists os,
      trace_of (listing_pages w fuel hostname mak title episode offset recs fs)
      = map EvTivoQuery os
      /\ result_of (listing_pages w fuel hostname mak title episode offset recs fs)
         <> Stop OutOfFuel
      /\ pagination q offset os
      /\ Forall (fun o => offset <= o) os
      /\ StronglySorted Z.lt os
      /\ (forall o rv,
             In o os -> q o = Responded rv -> ok rv = true ->
             ItemCount (body rv) = 0 ->
             last os 0 = o
             /\ exists out,
                 result_of (listing_pages w fuel hostname mak title episode
                              offset recs fs) = Ret out).
Proof.
  induction fuel as [| fuel IH]; intros offset recs fs Hfuel; [lia |].
  assert (Hone : forall (r : result (list RecordingInfo)) (f : FS),
             (forall rv, q offset = Responded rv -> ok rv = true ->
                         ItemCount (body rv) = 0 -> exists out, r = Ret out) ->
             r <> Stop OutOfFuel ->
             exists os,
               trace_of (r, f, [EvTivoQuery offset]) = map EvTivoQuery os
               /\ result_of (r, f, [EvTivoQuery offset]) <> Stop OutOfFuel
               /\ pagination q offset os
               /\ Forall (fun o => offset <= o) os
               /\ StronglySorted Z.lt os
               /\ (forall o rv,
                      In o os -> q o = Responded rv -> ok rv = true ->
                      ItemCount (body rv) = 0 ->
                      last os 0 = o
                      /\ exists out, result_of (r, f, [EvTivoQuery offset]) = Ret out)).
  { intros r f Hzero Hne. exists [offset]. unfold trace_of, result_of. simpl.
    repeat split; auto.
    - constructor.
    - constructor; [lia | constructor].
    - constructor; constructor.
    - destruct H as [<- | []]. reflexivity.
    - destruct H as [<- | []]. eauto. }
  destruct (q offset) as [rv |] eqn:Hq.
  - destruct (ok rv) eqn:Hok.
    + rewrite (listing_pages_step fuel offset recs fs rv Hq Hok).
      destruct (Z.eqb_spec (ItemCount (body rv)) 0) as [Hz | Hnz].
      * apply Hone; [eauto | discriminate].
      * pose proof (counts_not_negative offset rv Hq Hok) as Hpos.
        destruct (scan_items title episode (Items (body rv)) recs fs)
          as [[r fs1] t1] eqn:Hscan.
        pose proof (scan_items_finishes _ _ _ _ _ _ _ _ Hscan) as Hfin.
        apply scan_items_trace in Hscan. destruct Hscan as [-> [-> _]].
        assert (Hsame : forall rv', Responded rv = Responded rv' -> ok rv' = true ->
                                    ItemCount (body rv') = 0 ->
                                    exists out : list RecordingInfo, False).
        { intros rv' Heq _ Hz. inversion Heq; subst. contradiction. }
        destruct r as [[l | l] | s].
        -- assert (Hin : offset < bound).
           { destruct (Z.lt_ge_cases offset bound) as [Hlt | Hge]; [exact Hlt |].
             destruct (listing_ends offset Hge) as [rv' [Hq' [_ Hz]]].
             rewrite Hq in Hq'. inversion Hq'; subst. contradiction. }
           destruct (IH (offset + ItemCount (body rv)) l fs ltac:(lia))
             as [os [Ht [Hr [Hp [Hge [Hs Hlast]]]]]].
           destruct (listing_pages w fuel hostname mak title episode
                       (offset + ItemCount (body rv)) l fs) as [[r2 fs2] t2].
           unfold trace_of, result_of in *. simpl in *. subst t2.
           exists (offset :: os). repeat split.
           ++ exact Hr.
           ++ eapply pagination_next; eauto.
           ++ constructor; [lia |].
              eapply Forall_impl; [| exact Hge]. simpl. intros; lia.
           ++ constructor; [exact Hs |].
              eapply Forall_impl; [| exact Hge]. simpl. intros; lia.
           ++ destruct H as [<- | Hin'].
              ** rewrite Hq in H0. inversion H0; subst. contradiction.
              ** destruct (Hlast o rv0 Hin' H0 H1 H2) as [Hl _].
                 destruct (pagination_head _ _ Hp) as [os' ->].
                 exact Hl.
           ++ destruct H as [<- | Hin'].
              ** rewrite Hq in H0. inversion H0; subst. contradiction.
              ** destruct (Hlast o rv0 Hin' H0 H1 H2) as [_ Hout]. exact Hout.
        -- apply Hone; [| discriminate].
           intros rv' Heq Hok' Hz. destruct (Hsame rv' Heq Hok' Hz) as [_ []].
        -- apply Hone; [| intros Hs; apply Hfin; inversion Hs; reflexivity].
           intros rv' Heq Hok' Hz. destruct (Hsame rv' Heq Hok' Hz) as [_ []].
    + rewrite listing_pages_failed by (rewrite Hq; exact Hok).
      apply Hone; [| discriminate].
      intros rv' Heq Hok' _. inversion Heq; subst. congruence.
  - rewrite listing_pages_failed by (rewrite Hq; exact I).
    apply Hone; [| discriminate].
    intros rv' Heq. discriminate Heq.
Qed.

End Bounded.

(** C6.  On a listing whose pages report no negative count and report
    zero items from some offset on, the loop of [get_tivo_recording_info]
    ends within the fuel given; the offsets it requests start at 0, grow
    by the item count of the page just fetched and so increase strictly;
    and the request that gets a page with zero items is the last one, after
    which the recordings found so far are returned. *)
Theorem listing_pagination (fuel : nat) (bound : Z) (fs : FS) :
  (forall o rv,
      tivo_query w hostname mak o = Responded rv -> ok rv = true ->
      0 <= ItemCount (body rv)) ->
  (forall o,
      bound <= o ->
      exists rv,
        tivo_query w hostname mak o = Responded rv /\ ok rv = true
        /\ ItemCount (body rv) = 0) ->
  (Z.to_nat bound < fuel)%nat ->
  exists os,
    trace_of (get_tivo_recording_info w fuel hostname mak title episode fs)
    = map EvTivoQuery os
    /\ result_of (get_tivo_recording_info w fuel hostname mak title episode fs)
       <> Stop OutOfFuel
    /\ pagination (tivo_query w hostname mak) 0 os
    /\ StronglySorted Z.lt os
    /\ (forall o rv,
           In o os -> tivo_query w hostname mak o = Responded rv -> ok rv = true ->
           ItemCount (body rv) = 0 ->
           last os 0 = o
           /\ exists out,
               result_of (get_tivo_recording_info w fuel hostname mak title episode fs)
               = Ret out).
Proof.
  intros Hpos Hend Hfuel. unfold get_tivo_recording_info.
  destruct (listing_pages_pagination bound Hpos Hend fuel 0 [] fs)
    as [os [Ht [Hr [Hp [_ [Hs Hlast]]]]]].
  - rewrite Z.sub_0_r. exact Hfuel.
  - exists os. auto.
Qed.

End Listing.

Lemma listing_pagination_witness :
  exists os,
    trace_of (get_tivo_recording_info simpsons_world 10 "192.168.1.50" "0123456789"
                "The Simpsons" None empty_disk)
    = map EvTivoQuery os
    /\ result_of (get_tivo_recording_info simpsons_world 10 "192.168.1.50"
                    "0123456789" "The Simpsons" None empty_disk)
       <> Stop OutOfFuel
    /\ pagination (tivo_query simpsons_world "192.168.1.50" "0123456789") 0 os
    /\ StronglySorted Z.lt os
    /\ (forall o rv,
           In o os ->
           tivo_query simpsons_world "192.168.1.50" "0123456789" o = Responded rv ->
           ok rv = true -> ItemCount (body rv) = 0 ->
           last os 0 = o
           /\ exists out,
               result_of (get_tivo_recording_info simpsons_world 10 "192.168.1.50"
                            "0123456789" "The Simpsons" None empty_disk)
               = Ret out).
Proof.
  apply (listing_pagination simpsons_world "192.168.1.50" "0123456789"
           "The Simpsons" None 10 5 empty_disk).
  - intros o rv H _. simpl in H.
    destruct (o =? 0); [inversion H; simpl; lia |].
    destruct (o =? 2); [inversion H; simpl; lia |].
    destruct (o =? 4); inversion H; simpl; lia.
  - intros o Ho. simpl.
    destruct (Z.eqb_spec o 0); [lia |].
    destruct (Z.eqb_spec o 2); [lia |].
    destruct (Z.eqb_spec o 4); [lia |].
    eexists. repeat split.
  - simpl. lia.
Defined.

(** The offsets of that run. *)
Lemma listing_offsets_example :
  trace_of (get_tivo_recording_info simpsons_world 10 "192.168.1.50" "0123456789"
              "The Simpsons" None empty_disk)
  = [EvTivoQuery 0; EvTivoQuery 2; EvTivoQuery 4; EvTivoQuery 5].
Proof. vm_compute. reflexivity. Qed.

(** ** Returning at the first match *)

Section EarlyExit.

Context {FS : Type} {fsops : FileSystem FS}.
Variable w : World.
Variables hostname mak title : string.

Lemma scan_items_skip_episode (ep : string) (pre rest : list Item)
    (recs : list RecordingInfo) (fs : FS) :
  ep <> EmptyString ->
  Forall (fun it => well_formed it /\ ~ is_episode title ep it) pre ->
  scan_items title (Some ep) (pre ++ rest) recs fs
  = scan_items title (Some ep) rest recs fs.
Proof.
  intros Hne Hpre. apply truthy_str_true in Hne.
  induction Hpre as [| it pre [Hwf Hno] _ IH]; [reflexivity |].
  simpl. destruct (item_Details it) as [d |] eqn:Hd; [| exact IH].
  destruct (Title d) as [ct |] eqn:Ht; [| destruct (Hwf d Hd Ht)].
  destruct (Py.ostr_eqb ct (Some title)) eqn:Hct; simpl; [| exact IH].
  apply ostr_eqb_eq in Hct. subst ct.
  destruct (EpisodeTitle d) as [et |] eqn:He; [| exact IH].
  rewrite Hne. simpl.
  destruct et as [y |]; [| exact IH].
  destruct (String.eqb_spec ep y) as [<- | Hney]; [| exact IH].
  exfalso. apply Hno. exists d. auto.
Qed.

Lemma scan_items_skip_title (episode : option string) (pre rest : list Item)
    (recs : list RecordingInfo) (fs : FS) :
  Forall (fun it => well_formed it /\ ~ has_title title it) pre ->
  scan_items title episode (pre ++ rest) recs fs
  = scan_items title episode rest recs fs.
Proof.
  intros Hpre.
  induction Hpre as [| it pre [Hwf Hno] _ IH]; [reflexivity |].
  simpl. destruct (item_Details it) as [d |] eqn:Hd; [| exact IH].
  destruct (Title d) as [ct |] eqn:Ht; [| destruct (Hwf d Hd Ht)].
  destruct (Py.ostr_eqb ct (Some title)) eqn:Hct; simpl; [| exact IH].
  apply ostr_eqb_eq in Hct. subst ct.
  exfalso. apply Hno. exists d. auto.
Qed.

(** Pages whose items are all passed over only move the offset. *)
Lemma listing_pages_passed (episode : option string) (skip : Item -> Prop)
    (o1 o : Z) (os : list Z) :
  (forall items recs (fs : FS),
      Forall skip items ->
      scan_items title episode items recs fs = (Ret (Next recs), fs, [])) ->
  passed (tivo_query w hostname mak) skip o1 o os ->
  forall fuel recs (fs : FS),
    listing_pages w (List.length os + fuel) hostname mak title episode o1 recs fs =
      match listing_pages w fuel hostname mak title episode o recs fs with
      | (r, fs', t) => (r, fs', (map EvTivoQuery os ++ t)%list)
      end.
Proof.
  intros Hskip Hpassed. induction Hpassed as [o | o1 rv o os Hq Hok Hnz Hall _ IH];
    intros fuel recs fs.
  - simpl. destruct (listing_pages w fuel hostname mak title episode o recs fs)
      as [[r fs'] t]. reflexivity.
  - simpl List.length. simpl Nat.add.
    rewrite (listing_pages_step w hostname mak title episode _ o1 recs fs rv Hq Hok).
    apply Z.eqb_neq in Hnz. rewrite Hnz.
    rewrite (Hskip _ recs fs Hall). rewrite IH.
    destruct (listing_pages w fuel hostname mak title episode o recs fs)
      as [[r fs'] t]. reflexivity.
Qed.

(** C7.  When an episode is requested and the first item that is this
    episode of this title has a link, [get_tivo_recording_info] returns
    that one recording after the request for the page holding it; when no
    episode is requested and the first item with the title has no episode
    element, it does the same.  No later page is requested, whatever
    follows the item. *)
Theorem first_match_returns (fuel : nat) (fs : FS) (o : Z) (os : list Z)
    (rv : response Page) (pre post : list Item) (m : Item) (u : option string) :
  tivo_query w hostname mak o = Responded rv -> ok rv = true ->
  ItemCount (body rv) <> 0 ->
  Items (body rv) = (pre ++ m :: post)%list ->
  Url m = Some u ->
  (List.length os < fuel)%nat ->
  (forall ep,
      ep <> EmptyString ->
      passed (tivo_query w hostname mak)
        (fun it => well_formed it /\ ~ is_episode title ep it) 0 o os ->
      Forall (fun it => well_formed it /\ ~ is_episode title ep it) pre ->
      is_episode title ep m ->
      get_tivo_recording_info w fuel hostname mak title (Some ep) fs
      = (Ret [mk_RecordingInfo title (Some ep)
                (Py.format_ostr u ++ "&Format=video/x-tivo-mpeg") None None],
         fs, map EvTivoQuery (os ++ [o])))
  /\ (passed (tivo_query w hostname mak)
        (fun it => well_formed it /\ ~ has_title title it) 0 o os ->
      Forall (fun it => well_formed it /\ ~ has_title title it) pre ->
      is_movie title m ->
      get_tivo_recording_info w fuel hostname mak title None fs
      = (Ret [mk_RecordingInfo title None
                (Py.format_ostr u ++ "&Format=video/x-tivo-mpeg") None None],
         fs, map EvTivoQuery (os ++ [o]))).
Proof.
  intros Hq Hok Hnz Hitems Hurl Hfuel.
  assert (Hf : exists k, fuel = (List.length os + S k)%nat).
  { exists (fuel - List.length os - 1)%nat. lia. }
  destruct Hf as [k ->]. apply Z.eqb_neq in Hnz.
  unfold get_tivo_recording_info. split.
  - intros ep Hne Hpassed Hpre [d [Hd [Ht He]]].
    rewrite (listing_pages_passed (Some ep)
               (fun it => well_formed it /\ ~ is_episode title ep it) 0 o os);
      [| | exact Hpassed].
    + rewrite (listing_pages_step w hostname mak title (Some ep) k o [] fs rv Hq Hok).
      rewrite Hnz, Hitems, (scan_items_skip_episode ep pre _ [] fs Hne Hpre).
      simpl. rewrite Hd, Ht, He. simpl. rewrite !String.eqb_refl. simpl.
      apply truthy_str_true in Hne. rewrite Hne. simpl.
      unfold get_tivo_dl_link_from_element. rewrite Hurl.
      unfold bind, ret. simpl. rewrite map_app. reflexivity.
    + intros items recs fs0 Hall.
      rewrite <- (app_nil_r items).
      rewrite (scan_items_skip_episode ep items [] recs fs0 Hne Hall). reflexivity.
  - intros Hpassed Hpre [d [Hd [Ht He]]].
    rewrite (listing_pages_passed None
               (fun it => well_formed it /\ ~ has_title title it) 0 o os);
      [| | exact Hpassed].
    + rewrite (listing_pages_step w hostname mak title None k o [] fs rv Hq Hok).
      rewrite Hnz, Hitems, (scan_items_skip_title None pre _ [] fs Hpre).
      simpl. rewrite Hd, Ht, He. simpl. rewrite !String.eqb_refl. simpl.
      unfold get_tivo_dl_link_from_element. rewrite Hurl.
      unfold bind, ret. simpl. rewrite map_app. reflexivity.
    + intros items recs fs0 Hall.
      rewrite <- (app_nil_r items).
      rewrite (scan_items_skip_title None items [] recs fs0 Hall). reflexivity.
Qed.

End EarlyExit.

Lemma first_match_returns_witness :
  get_tivo_recording_info simpsons_world 10 "192.168.1.50" "0123456789"
    "The Simpsons" (Some "Bart the General") empty_disk
  = (Ret [bart_the_general], empty_disk, [EvTivoQuery 0; EvTivoQuery 2])
  /\ get_tivo_recording_info simpsons_world 10 "192.168.1.50" "0123456789"
       "Toy Story" None empty_disk
     = (Ret [mk_RecordingInfo "Toy Story" None
               "http://tivo/4&Format=video/x-tivo-mpeg" None None],
        empty_disk, [EvTivoQuery 0; EvTivoQuery 2]).
Proof.
  assert (Hwf : forall t e u, well_formed (episode_item t e u)).
  { intros t e u d Hd. inversion Hd; subst. simpl. discriminate. }
  assert (Hwm : forall t u, well_formed (movie_item t u)).
  { intros t u d Hd. inversion Hd; subst. simpl. discriminate. }
  assert (Hwd : well_formed folder_item).
  { intros d Hd. discriminate Hd. }
  split.
  - apply (proj1 (first_match_returns simpsons_world "192.168.1.50" "0123456789"
                    "The Simpsons" 10 empty_disk 2 [0]
                    (ok_response
                       (mk_Page 2
                          [movie_item "Toy Story" "http://tivo/4";
                           episode_item "The Simpsons" "Bart the General"
                             "http://tivo/5"]))
                    [movie_item "Toy Story" "http://tivo/4"] []
                    (episode_item "The Simpsons" "Bart the General" "http://tivo/5")
                    (Some "http://tivo/5")
                    eq_refl eq_refl ltac:(discriminate) eq_refl eq_refl
                    ltac:(simpl; lia))
             "Bart the General").
    + discriminate.
    + apply (passed_page _ _ 0
               (ok_response
                  (mk_Page 2
                     [folder_item;
                      episode_item "The Simpsons" "Homer's Odyssey" "http://tivo/3"]))
               2 []); try reflexivity.
      * discriminate.
      * repeat constructor; auto.
        -- intros [d [Hd _]]. discriminate Hd.
        -- intros [d [Hd [_ He]]]. inversion Hd; subst. discriminate He.
      * apply passed_none.
    + repeat constructor; auto.
      intros [d [Hd [Ht _]]]. inversion Hd; subst. discriminate Ht.
    + eexists. repeat split.
  - apply (proj2 (first_match_returns simpsons_world "192.168.1.50" "0123456789"
                    "Toy Story" 10 empty_disk 2 [0]
                    (ok_response
                       (mk_Page 2
                          [movie_item "Toy Story" "http://tivo/4";
                           episode_item "The Simpsons" "Bart the General"
                             "http://tivo/5"]))
                    [] [episode_item "The Simpsons" "Bart the General" "http://tivo/5"]
                    (movie_item "Toy Story" "http://tivo/4")
                    (Some "http://tivo/4")
                    eq_refl eq_refl ltac:(discriminate) eq_refl eq_refl
                    ltac:(simpl; lia))).
    + apply (passed_page _ _ 0
               (ok_response
                  (mk_Page 2
                     [folder_item;
                      episode_item "The Simpsons" "Homer's Odyssey" "http://tivo/3"]))
               2 []); try reflexivity.
      * discriminate.
      * repeat constructor; auto.
        -- intros [d [Hd _]]. discriminate Hd.
        -- intros [d [Hd Ht]]. inversion Hd; subst. discriminate Ht.
      * apply passed_none.
    + constructor.
    + eexists. repeat split.
Defined.

(** * Further properties *)

(** ** Computations that do not touch the file system *)

Lemma pure_ret {FS A : Type} (a : A) : pure_m (@ret FS A a).
Proof. exists (Ret a), []. reflexivity. Qed.

Lemma pure_halt {FS A : Type} (s : stop) : pure_m (@halt FS A s).
Proof. exists (Stop s), []. reflexivity. Qed.

Lemma pure_emit {FS : Type} (e : event) : pure_m (@emit FS e).
Proof. exists (Ret tt), [e]. reflexivity. Qed.

Lemma pure_bind {FS A B : Type} (m : M FS A) (k : A -> M FS B) :
  pure_m m -> (forall a, pure_m (k a)) -> pure_m (bind m k).
Proof.
  intros [r [t Hm]] Hk. destruct r as [a | s].
  - destruct (Hk a) as [r' [t' Hka]]. exists r', (t ++ t')%list. intros fs.
    unfold bind. rewrite Hm, Hka. reflexivity.
  - exists (Stop s), t. intros fs. unfold bind. rewrite Hm. reflexivity.
Qed.

Lemma pure_if {FS A : Type} (b : bool) (m1 m2 : M FS A) :
  pure_m m1 -> pure_m m2 -> pure_m (if b then m1 else m2).
Proof. destruct b; auto. Qed.

Section Purity.

Context {FS : Type} {fsops : FileSystem FS}.
Variable w : World.

Lemma pure_requests_wrapper {A : Type} (request : event) (answer : reply A)
    (msg : string) (foe : bool) :
  pure_m (@requests_wrapper FS A request answer msg foe).
Proof.
  unfold requests_wrapper. apply pure_bind; [apply pure_emit | intros _].
  destruct answer as [rv |]; repeat apply pure_if;
    try apply pure_ret; apply pure_halt.
Qed.

Lemma pure_get_request_json {A : Type} (rv : response (option A)) (msg : string)
    (foe : bool) :
  pure_m (@get_request_json FS A rv msg foe).
Proof.
  unfold get_request_json. repeat apply pure_if;
    try apply pure_ret; apply pure_halt.
Qed.

Lemma pure_find_episode (data : list Episode) (episode_name : string) :
  pure_m (@find_episode FS w data episode_name).
Proof.
  induction data as [| ep data IH]; simpl; [apply pure_ret |].
  destruct (episodeName ep); [| apply pure_halt].
  apply pure_if; [apply pure_ret | exact IH].
Qed.

Lemma pure_episode_pages (fuel : nat) (tvdb_token : string) (series_id : Z)
    (episode_name msg : string) (foe : bool) :
  forall page,
    pure_m (@episode_pages FS w fuel tvdb_token series_id episode_name msg foe page).
Proof.
  induction fuel as [| fuel IH]; intros page; simpl; [apply pure_halt |].
  apply pure_bind; [apply pure_requests_wrapper | intros rv].
  destruct rv as [rv |]; [| apply pure_halt].
  apply pure_if; [apply pure_ret |].
  apply pure_bind; [apply pure_get_request_json | intros json].
  destruct json as [json |]; [| apply pure_ret].
  apply pure_bind; [apply pure_find_episode | intros found].
  destruct found; [| apply pure_ret].
  apply pure_if.
  - destruct (links_next json); [apply IH | apply pure_ret].
  - apply pure_if; [apply pure_halt | apply pure_ret].
Qed.

Lemma pure_get_season_episode_num (fuel : nat)
    (api_key user_key username series_name episode_name : string) (foe : bool) :
  pure_m (@get_season_episode_num FS w fuel api_key user_key username series_name
            episode_name foe).
Proof.
  unfold get_season_episode_num.
  apply pure_bind; [apply pure_requests_wrapper | intros rv].
  destruct rv as [rv |]; [| apply pure_ret].
  apply pure_if; [apply pure_ret |].
  apply pure_bind; [apply pure_get_request_json | intros json].
  destruct json as [json |]; [| apply pure_ret].
  apply pure_bind; [apply pure_requests_wrapper | intros rv2].
  destruct rv2 as [rv2 |]; [| apply pure_halt].
  apply pure_if; [apply pure_ret |].
  apply pure_bind; [apply pure_get_request_json | intros json2].
  destruct json2 as [json2 |]; [| apply pure_ret].
  destruct (series_data json2); [apply pure_halt | apply pure_episode_pages].
Qed.

Lemma pure_enrich (fuel : nat) (params : Params) (r : RecordingInfo) :
  pure_m (@enrich FS w fuel params r).
Proof.
  unfold enrich.
  destruct (episode r); [| apply pure_ret].
  destruct (p_tvdb_api_key params); [| apply pure_ret].
  destruct (p_tvdb_user_key params); [| apply pure_ret].
  destruct (p_tvdb_username params); [| apply pure_ret].
  apply pure_if; [| apply pure_ret].
  apply pure_bind; [apply pure_get_season_episode_num | intros [sn en]].
  apply pure_if; apply pure_ret.
Qed.

Lemma pure_scan_items (title : string) (episode : option string)
    (items : list Item) :
  forall recs, pure_m (@scan_items FS title episode items recs).
Proof.
  induction items as [| child items IH]; intros recs; simpl; [apply pure_ret |].
  assert (Hlink : pure_m (@get_tivo_dl_link_from_element FS child)).
  { unfold get_tivo_dl_link_from_element.
    destruct (Url child); [apply pure_ret | apply pure_halt]. }
  destruct (item_Details child) as [d |]; [| apply IH].
  destruct (Title d); [| apply pure_halt].
  apply pure_if; [apply IH |].
  destruct (EpisodeTitle d).
  - apply pure_if; [| apply IH].
    apply pure_bind; [exact Hlink | intros dl].
    apply pure_if; [apply pure_ret | apply IH].
  - apply pure_if; [| apply IH].
    apply pure_bind; [exact Hlink | intros dl]. apply pure_ret.
Qed.

Lemma pure_listing_pages (fuel : nat) (hostname mak title : string)
    (episode : option string) :
  forall offset recs,
    pure_m (@listing_pages FS w fuel hostname mak title episode offset recs).
Proof.
  induction fuel as [| fuel IH]; intros offset recs; simpl; [apply pure_halt |].
  apply pure_bind; [apply pure_requests_wrapper | intros rv].
  destruct rv as [rv |]; [| apply pure_halt].
  apply pure_if; [apply pure_ret |].
  apply pure_bind; [apply pure_scan_items | intros scanned].
  destruct scanned; [apply IH | apply pure_ret].
Qed.

End Purity.

(** ** The events of a computation *)

Lemma emits_ret {FS A : Type} (P : event -> bool) (a : A) : emits P (@ret FS A a).
Proof. intros fs r fs' t H. inversion H. reflexivity. Qed.

Lemma emits_halt {FS A : Type} (P : event -> bool) (s : stop) :
  emits P (@halt FS A s).
Proof. intros fs r fs' t H. inversion H. reflexivity. Qed.

Lemma emits_emit {FS : Type} (P : event -> bool) (e : event) :
  P e = true -> emits P (@emit FS e).
Proof. intros He fs r fs' t H. inversion H. simpl. rewrite He. reflexivity. Qed.

Lemma emits_bind {FS A B : Type} (P : event -> bool) (m : M FS A) (k : A -> M FS B) :
  emits P m -> (forall a, emits P (k a)) -> emits P (bind m k).
Proof.
  intros Hm Hk fs r fs' t H. apply bind_inv in H.
  destruct H as [[s [E _]] | [a [fs1 [t1 [t2 [E [H ->]]]]]]].
  - exact (Hm _ _ _ _ E).
  - rewrite forallb_app, (Hm _ _ _ _ E), (Hk a _ _ _ _ H). reflexivity.
Qed.

Lemma emits_if {FS A : Type} (P : event -> bool) (b : bool) (m1 m2 : M FS A) :
  emits P m1 -> emits P m2 -> emits P (if b then m1 else m2).
Proof. destruct b; auto. Qed.

Section Events.

Context {FS : Type} {fsops : FileSystem FS}.
Variable w : World.
Variable P : event -> bool.

Lemma emits_requests_wrapper {A : Type} (request : event) (answer : reply A)
    (msg : string) (foe : bool) :
  P request = true -> emits P (@requests_wrapper FS A request answer msg foe).
Proof.
  intros Hp. unfold requests_wrapper.
  apply emits_bind; [apply emits_emit; exact Hp | intros _].
  destruct answer as [rv |]; repeat apply emits_if;
    try apply emits_ret; apply emits_halt.
Qed.

Lemma emits_get_request_json {A : Type} (rv : response (option A)) (msg : string)
    (foe : bool) :
  emits P (@get_request_json FS A rv msg foe).
Proof.
  unfold get_request_json. repeat apply emits_if;
    try apply emits_ret; apply emits_halt.
Qed.

Lemma emits_find_episode (data : list Episode) (episode_name : string) :
  emits P (@find_episode FS w data episode_name).
Proof.
  induction data as [| ep data IH]; simpl; [apply emits_ret |].
  destruct (episodeName ep); [| apply emits_halt].
  apply emits_if; [apply emits_ret | exact IH].
Qed.

Section Tvdb.

Hypothesis P_login : P EvTvdbLogin = true.
Hypothesis P_series : forall name, P (EvTvdbSeries name) = true.
Hypothesis P_episodes : forall series_id page, P (EvTvdbEpisodes series_id page) = true.

Lemma emits_episode_pages (fuel : nat) (tvdb_token : string) (series_id : Z)
    (episode_name msg : string) (foe : bool) :
  forall page,
    emits P (@episode_pages FS w fuel tvdb_token series_id episode_name msg foe page).
Proof.
  induction fuel as [| fuel IH]; intros page; simpl; [apply emits_halt |].
  apply emits_bind; [apply emits_requests_wrapper, P_episodes | intros rv].
  destruct rv as [rv |]; [| apply emits_halt].
  apply emits_if; [apply emits_ret |].
  apply emits_bind; [apply emits_get_request_json | intros json].
  destruct json as [json |]; [| apply emits_ret].
  apply emits_bind; [apply emits_find_episode | intros found].
  destruct found; [| apply emits_ret].
  apply emits_if.
  - destruct (links_next json); [apply IH | apply emits_ret].
  - apply emits_if; [apply emits_halt | apply emits_ret].
Qed.

Lemma emits_get_season_episode_num (fuel : nat)
    (api_key user_key username series_name episode_name : string) (foe : bool) :
  emits P (@get_season_episode_num FS w fuel api_key user_key username series_name
             episode_name foe).
Proof.
  unfold get_season_episode_num.
  apply emits_bind; [apply emits_requests_wrapper, P_login | intros rv].
  destruct rv as [rv |]; [| apply emits_ret].
  apply emits_if; [apply emits_ret |].
  apply emits_bind; [apply emits_get_request_json | intros json].
  destruct json as [json |]; [| apply emits_ret].
  apply emits_bind; [apply emits_requests_wrapper, P_series | intros rv2].
  destruct rv2 as [rv2 |]; [| apply emits_halt].
  apply emits_if; [apply emits_ret |].
  apply emits_bind; [apply emits_get_request_json | intros json2].
  destruct json2 as [json2 |]; [| apply emits_ret].
  destruct (series_data json2); [apply emits_halt | apply emits_episode_pages].
Qed.

Lemma emits_enrich (fuel : nat) (params : Params) (r : RecordingInfo) :
  emits P (@enrich FS w fuel params r).
Proof.
  unfold enrich.
  destruct (episode r); [| apply emits_ret].
  destruct (p_tvdb_api_key params); [| apply emits_ret].
  destruct (p_tvdb_user_key params); [| apply emits_ret].
  destruct (p_tvdb_username params); [| apply emits_ret].
  apply emits_if; [| apply emits_ret].
  apply emits_bind; [apply emits_get_season_episode_num | intros [sn en]].
  apply emits_if; apply emits_ret.
Qed.

End Tvdb.

Lemma emits_scan_items (title : string) (episode : option string)
    (items : list Item) :
  forall recs, emits P (@scan_items FS title episode items recs).
Proof.
  induction items as [| child items IH]; intros recs; simpl; [apply emits_ret |].
  assert (Hlink : emits P (@get_tivo_dl_link_from_element FS child)).
  { unfold get_tivo_dl_link_from_element.
    destruct (Url child); [apply emits_ret | apply emits_halt]. }
  destruct (item_Details child) as [d |]; [| apply IH].
  destruct (Title d); [| apply emits_halt].
  apply emits_if; [apply IH |].
  destruct (EpisodeTitle d).
  - apply emits_if; [| apply IH].
    apply emits_bind; [exact Hlink | intros dl].
    apply emits_if; [apply emits_ret | apply IH].
  - apply emits_if; [| apply IH].
    apply emits_bind; [exact Hlink | intros dl]. apply emits_ret.
Qed.

Lemma emits_listing_pages (fuel : nat) (hostname mak title : string)
    (episode : option string) :
  (forall offset, P (EvTivoQuery offset) = true) ->
  forall offset recs,
    emits P (@listing_pages FS w fuel hostname mak title episode offset recs).
Proof.
  intros Hq.
  induction fuel as [| fuel IH]; intros offset recs; simpl; [apply emits_halt |].
  apply emits_bind; [apply emits_requests_wrapper, Hq | intros rv].
  destruct rv as [rv |]; [| apply emits_halt].
  apply emits_if; [apply emits_ret |].
  apply emits_bind; [apply emits_scan_items | intros scanned].
  destruct scanned; [apply IH | apply emits_ret].
Qed.

End Events.

(** ** Running the module twice *)

Section Rerun.

Context {FS : Type} {fsops : FileSystem FS}.
Variable w : World.

Lemma grows_refl (fs : FS) : grows fs fs.
Proof. repeat split; auto. Qed.

Lemma grows_trans (fs1 fs2 fs3 : FS) : grows fs1 fs2 -> grows fs2 fs3 -> grows fs1 fs3.
Proof.
  intros [Ha [Hb [Hc Hd]]] [Ha' [Hb' [Hc' Hd']]]. repeat split; auto.
Qed.

Lemma handled_grows (fs fs' : FS) (dest_dir : string) (skip_path : option string)
    (r : RecordingInfo) :
  grows fs fs' -> handled fs dest_dir skip_path r -> handled fs' dest_dir skip_path r.
Proof.
  intros [Hdir [Hfile [Hex Hls]]] [Hs | He]; [left | right; auto].
  apply skip_check_true in Hs. apply skip_check_true.
  destruct Hs as [sp [item [Hsp [Hne [Hd [Hi [Hf Hn]]]]]]].
  exists sp, item. auto 10.
Qed.

Lemma download_handled (mak : string) (r : RecordingInfo) (dest_dir : string)
    (skip_path : option string) (fs : FS) :
  handled fs dest_dir skip_path r ->
  download_tivo_recording w mak r dest_dir skip_path fs = (Ret false, fs, []).
Proof.
  intros Hh. unfold download_tivo_recording.
  rewrite (bind_Ret _ _ _ _ _ _ (skip_stage fs skip_path (file_name_of r))).
  cbv beta. unfold result_of, fs_of, trace_of.
  destruct (skip_check fs skip_path (file_name_of r)) eqn:Hs; [reflexivity |].
  destruct Hh as [Hh | Hh]; [congruence |].
  unfold bind, look, ret. rewrite Hh. reflexivity.
Qed.

(** After [download_tivo_recording] has returned, the recording is one it
    skips. *)
Lemma download_leaves_handled (mak : string) (r : RecordingInfo) (dest_dir : string)
    (skip_path : option string) (fs : FS) b fs' t :
  keeps_files FS ->
  download_tivo_recording w mak r dest_dir skip_path fs = (Ret b, fs', t) ->
  grows fs fs' /\ handled fs' dest_dir skip_path r.
Proof.
  intros Hkeep H. rewrite download_tivo_recording_eq in H. cbv zeta in H.
  destruct (skip_check fs skip_path (file_name_of r)) eqn:Hs.
  - inversion H; subst. split; [apply grows_refl | left; exact Hs].
  - destruct (exists_ fs (OsPath.join dest_dir (file_name_of r))) eqn:He.
    + inversion H; subst. split; [apply grows_refl | right; exact He].
    + destruct (tivo_download w mak (link r)) as [rv |];
        [destruct (ok rv);
         [destruct (can_open fs (OsPath.join dest_dir (file_name_of r))) |] |];
        inversion H; subst.
      destruct (Hkeep fs (OsPath.join dest_dir (file_name_of r))
                  (written_chunks (body rv))) as [Hex Hg].
      split; [exact Hg | right; exact Hex].
Qed.

Lemma download_all_leaves_handled (fuel : nat) (params : Params) (total : Z)
    (recs : list RecordingInfo) :
  keeps_files FS ->
  forall count (fs : FS) n fs' t,
    download_all w fuel params total recs count fs = (Ret n, fs', t) ->
    grows fs fs'
    /\ Forall (fun r =>
                 exists r' te,
                   (forall f : FS, enrich w fuel params r f = (Ret r', f, te))
                   /\ handled fs' (p_dest_dir params) (p_skip_if_in_path params) r')
         recs.
Proof.
  intros Hkeep. induction recs as [| r recs IH]; intros count fs n fs' t H; simpl in H.
  - inversion H; subst. split; [apply grows_refl | constructor].
  - destruct (pure_enrich (FS:=FS) w fuel params r) as [res [te Hpure]].
    step_bind H as r' fs1 t1 t2 E; rewrite Hpure in E; inversion E; subst.
    step_bind H as downloaded fs2 t3 t4 E2.
    apply (download_leaves_handled _ _ _ _ _ _ _ _ Hkeep) in E2.
    destruct E2 as [Hg1 Hh1].
    assert (Hrest : exists count' t', download_all w fuel params total recs count' fs2
                                      = (Ret n, fs', t')).
    { destruct downloaded; [| eauto].
      step_bind H as u fs3 t5 t6 E3.
      assert (fs3 = fs2).
      { unfold sleep, emit, ret in E3.
        destruct (count + 1 <? total); inversion E3; reflexivity. }
      subst fs3. eauto. }
    destruct Hrest as [count' [t' Hrest]].
    apply IH in Hrest. destruct Hrest as [Hg2 Hall].
    split; [eapply grows_trans; eauto |].
    constructor; [| exact Hall].
    exists r', t1. split; [exact Hpure |].
    eapply handled_grows; eauto.
Qed.

Lemma download_all_skips_handled (fuel : nat) (params : Params) (total : Z)
    (recs : list RecordingInfo) (fs : FS) :
  Forall (fun r =>
            exists r' te,
              (forall f : FS, enrich w fuel params r f = (Ret r', f, te))
              /\ handled fs (p_dest_dir params) (p_skip_if_in_path params) r')
    recs ->
  forall count,
    exists t,
      download_all w fuel params total recs count fs = (Ret count, fs, t)
      /\ forallb is_tvdb t = true.
Proof.
  intros Hall. induction Hall as [| r recs [r' [te [Hen Hh]]] _ IH]; intros count.
  - exists []. split; reflexivity.
  - destruct (IH count) as [t [Hrun Ht]].
    exists (te ++ t)%list. split.
    + simpl. rewrite (bind_Ret _ _ _ _ _ _ (Hen fs)). cbv beta.
      rewrite (bind_Ret _ _ _ _ _ _ (download_handled _ _ _ _ _ Hh)). cbv beta.
      rewrite Hrun. reflexivity.
    + rewrite forallb_app, Ht, andb_true_r.
      apply (emits_enrich w is_tvdb eq_refl (fun _ => eq_refl) (fun _ _ => eq_refl)
               fuel params r fs _ _ _ (Hen fs)).
Qed.

(** On a file system where writing a file makes it exist and removes
    nothing, a run that ended with [exit_json] can be repeated: the second
    run, from the state the first one left, ends with [exit_json] and
    [changed=False]; it leaves the state as it is; it only looks up the
    listing and the catalog, so it downloads nothing, writes nothing and
    does not sleep. *)
Theorem second_run_is_idle (fuel : nat) (params : Params) (fs : FS)
    msg changed fs' t :
  keeps_files FS ->
  main w fuel params fs = (Stop (ExitJson msg changed), fs', t) ->
  exists msg' t',
    main w fuel params fs' = (Stop (ExitJson msg' false), fs', t')
    /\ forallb is_lookup t' = true.
Proof.
  intros Hkeep H. unfold main in H.
  step_bind H as dest_ok fs1 t1 t2 E; [unfold look in E; discriminate E |].
  unfold look in E. inversion E; subst. clear E.
  destruct (isdir fs1 (p_dest_dir params)) eqn:Hdir.
  2:{ step_bind H as u fs2 t3 t4 E; unfold fail_json, halt in E;
        [inversion Hr; subst; inversion E | discriminate E]. }
  step_bind H as u fs2 t3 t4 E; unfold ret in E; [discriminate E |].
  inversion E; subst. clear E.
  destruct (pure_listing_pages (FS:=FS) w fuel (p_hostname params) (p_mak params)
              (p_title params) (p_episode params) 0 [])
    as [rl [tl Hlist]].
  unfold get_tivo_recording_info in H.
  step_bind H as recs fs3 t5 t6 E.
  { apply listing_pages_quiet in E. destruct E as [_ [_ Hx]].
    inversion Hr; subst. contradiction. }
  rewrite Hlist in E. inversion E; subst. clear E.
  destruct recs as [| r0 recs].
  { step_bind H as u2 fs4 t7 t8 E; unfold fail_json, halt in E;
      [inversion Hr; subst; inversion E | discriminate E]. }
  step_bind H as u2 fs4 t7 t8 E; unfold ret in E; [discriminate E |].
  inversion E; subst. clear E.
  step_bind H as n fs5 t9 t10 E.
  { apply download_all_count in E. destruct E as [Hx _].
    inversion Hr; subst. contradiction. }
  assert (Hfs : fs5 = fs').
  { unfold exit_json, halt in H. destruct (n >? 0); inversion H; reflexivity. }
  subst fs5. clear H.
  apply (download_all_leaves_handled _ _ _ _ Hkeep) in E.
  destruct E as [Hg Hall].
  destruct (download_all_skips_handled fuel params
              (Z.of_nat (List.length (r0 :: recs))) (r0 :: recs) fs' Hall 0)
    as [t' [Hrun Ht']].
  eexists. exists (t5 ++ t')%list. split.
  - unfold main.
    erewrite bind_Ret by reflexivity. cbv beta.
    unfold look, result_of, fs_of, trace_of. simpl fst. simpl snd.
    destruct Hg as [Hgd _]. rewrite (Hgd _ Hdir).
    erewrite bind_Ret by reflexivity. cbv beta.
    unfold get_tivo_recording_info.
    rewrite (bind_Ret _ _ _ _ _ _ (Hlist fs')). cbv beta.
    erewrite bind_Ret by reflexivity. cbv beta.
    rewrite (bind_Ret _ _ _ _ _ _ Hrun). cbv beta.
    unfold result_of, fs_of, trace_of, exit_json, halt, ret. simpl.
    rewrite app_nil_r. reflexivity.
  - rewrite forallb_app.
    rewrite (emits_listing_pages w is_lookup fuel _ _ _ _ (fun _ => eq_refl) 0 []
               fs' _ _ _ (Hlist fs')).
    simpl. apply forallb_forall. intros e He.
    rewrite forallb_forall in Ht'. specialize (Ht' e He).
    destruct e; simpl in *; congruence.
Qed.

End Rerun.

Lemma paths_mem_app (p : string) (l1 l2 : list string) :
  Paths.mem p (l1 ++ l2) = Paths.mem p l1 || Paths.mem p l2.
Proof. unfold Paths.mem. apply existsb_app. Qed.

Lemma paths_entries_app (dir : string) (l1 l2 : list string) :
  Paths.entries dir (l1 ++ l2) = (Paths.entries dir l1 ++ Paths.entries dir l2)%list.
Proof.
  induction l1 as [| p l1 IH]; simpl; [reflexivity |].
  destruct (Paths.entry_of dir p); simpl; rewrite IH; reflexivity.
Qed.

Lemma paths_keep_files : keeps_files Paths.t.
Proof.
  intros fs p data. simpl. split.
  - rewrite paths_mem_app. simpl. rewrite String.eqb_refl.
    rewrite orb_true_r. simpl. apply orb_true_r.
  - repeat split; simpl.
    + auto.
    + intros q Hq. rewrite paths_mem_app, Hq. reflexivity.
    + intros q Hq. rewrite paths_mem_app.
      apply orb_true_iff in Hq. destruct Hq as [Hq | Hq]; rewrite Hq; simpl;
        [reflexivity | apply orb_true_r].
    + intros d item Hi. rewrite paths_entries_app. apply in_or_app. left. exact Hi.
Qed.

Lemma second_run_is_idle_witness :
  exists msg' t',
    main simpsons_world 10
      (example_params "The Simpsons" (Some "Bart the General") (Some "key") false None)
      (Paths.mk ["/dest"] ["/dest/The Simpsons - S01E05 - Bart the General.TiVo"])
    = (Stop (ExitJson msg' false),
       Paths.mk ["/dest"] ["/dest/The Simpsons - S01E05 - Bart the General.TiVo"], t')
    /\ forallb is_lookup t' = true.
Proof.
  apply (second_run_is_idle simpsons_world 10
           (example_params "The Simpsons" (Some "Bart the General") (Some "key")
              false None)
           empty_paths "1 recording(s) downloaded successfully" true
           (Paths.mk ["/dest"] ["/dest/The Simpsons - S01E05 - Bart the General.TiVo"])
           [EvTivoQuery 0; EvTivoQuery 2; EvTvdbLogin; EvTvdbSeries "The Simpsons";
            EvTvdbEpisodes 71663 1; EvTvdbEpisodes 71663 2;
            EvTivoDownload "http://tivo/5&Format=video/x-tivo-mpeg";
            EvFileWritten "/dest/The Simpsons - S01E05 - Bart the General.TiVo"]
           paths_keep_files).
  vm_compute. reflexivity.
Defined.

(** ** What a run sends, and to whom *)

Section Senders.

Context {FS : Type} {fsops : FileSystem FS}.
Variable w : World.
Variable P : event -> bool.

Hypothesis P_query : forall offset, P (EvTivoQuery offset) = true.
Hypothesis P_download : forall dl, P (EvTivoDownload dl) = true.
Hypothesis P_written : forall p, P (EvFileWritten p) = true.
Hypothesis P_sleep : forall n, P (EvSleep n) = true.

Lemma emits_look {A : Type} (f : FS -> A) : emits P (look f).
Proof. intros fs r fs' t H. inversion H. reflexivity. Qed.

Lemma emits_download_tivo_recording (mak : string) (r : RecordingInfo)
    (dest_dir : string) (skip_path : option string) :
  emits P (download_tivo_recording w mak r dest_dir skip_path).
Proof.
  unfold download_tivo_recording.
  apply emits_bind.
  - destruct skip_path as [sp |]; [| apply emits_ret].
    apply emits_bind; [apply emits_look | intros b].
    apply emits_if; [apply emits_look | apply emits_ret].
  - intros b. apply emits_if; [apply emits_ret |].
    apply emits_bind; [apply emits_look | intros ex].
    apply emits_if; [apply emits_ret |].
    apply emits_bind; [apply emits_requests_wrapper, P_download | intros rv].
    destruct rv as [rv |]; [| apply emits_halt].
    apply emits_bind; [| intros _; apply emits_ret].
    intros fs res fs' t H. unfold write_to in H.
    destruct (can_open fs (OsPath.join dest_dir (file_name_of r)));
      inversion H; simpl; [rewrite P_written |]; reflexivity.
Qed.

Lemma emits_download_all (fuel : nat) (params : Params) (total : Z)
    (recs : list RecordingInfo) :
  (forall r, emits P (@enrich FS w fuel params r)) ->
  forall count, emits P (download_all w fuel params total recs count).
Proof.
  intros Hen. induction recs as [| r recs IH]; intros count; simpl;
    [apply emits_ret |].
  apply emits_bind; [apply Hen | intros r'].
  apply emits_bind; [apply emits_download_tivo_recording | intros downloaded].
  destruct downloaded; [| apply IH].
  apply emits_bind; [| intros _; apply IH].
  apply emits_if; [apply emits_emit, P_sleep | apply emits_ret].
Qed.

Lemma emits_main (fuel : nat) (params : Params) :
  (forall r, emits P (@enrich FS w fuel params r)) ->
  emits P (main w fuel params).
Proof.
  intros Hen. unfold main.
  apply emits_bind; [apply emits_look | intros dest_ok].
  apply emits_bind; [apply emits_if; [apply emits_ret | apply emits_halt] | intros _].
  apply emits_bind;
    [apply emits_listing_pages; exact P_query | intros recs].
  apply emits_bind; [destruct recs; [apply emits_halt | apply emits_ret] | intros _].
  apply emits_bind; [apply emits_download_all; exact Hen | intros n].
  apply emits_if; apply emits_halt.
Qed.

End Senders.

Section Credentials.

Context {FS : Type} {fsops : FileSystem FS}.
Variable w : World.

(** Without an episode title, or without one of the three credentials,
    the enrichment step returns the recording as it is. *)
Lemma enrich_not_attempted (fuel : nat) (params : Params) (r : RecordingInfo) (fs : FS) :
  Py.truthy_ostr (episode r) && Py.truthy_ostr (p_tvdb_api_key params)
  && Py.truthy_ostr (p_tvdb_user_key params)
  && Py.truthy_ostr (p_tvdb_username params) = false ->
  enrich w fuel params r fs = (Ret r, fs, []).
Proof.
  unfold enrich. intros H.
  destruct (episode r) as [ep |]; [| reflexivity].
  destruct (p_tvdb_api_key params) as [k1 |];
    [| reflexivity].
  destruct (p_tvdb_user_key params) as [k2 |]; [| reflexivity].
  destruct (p_tvdb_username params) as [k3 |]; [| reflexivity].
  simpl in H. rewrite H. reflexivity.
Qed.

(** When one of the three TVDB credentials is missing or empty, a run
    never sends a request to The TVDB, whatever the TiVo lists. *)
Theorem no_credentials_no_tvdb (fuel : nat) (params : Params) (fs : FS) :
  Py.truthy_ostr (p_tvdb_api_key params)
  && Py.truthy_ostr (p_tvdb_user_key params)
  && Py.truthy_ostr (p_tvdb_username params) = false ->
  forallb (fun e => negb (is_tvdb e)) (trace_of (main w fuel params fs)) = true.
Proof.
  intros Hc.
  destruct (main w fuel params fs) as [[res fs'] t] eqn:Hrun. unfold trace_of. simpl.
  eapply (emits_main w (fun e => negb (is_tvdb e))); try reflexivity; [| exact Hrun].
  intros r f res' f' t' He.
  rewrite enrich_not_attempted in He.
  - inversion He. reflexivity.
  - destruct (Py.truthy_ostr (episode r)); [| reflexivity]. simpl.
    rewrite <- !andb_assoc in *. exact Hc.
Qed.

End Credentials.

Lemma no_credentials_no_tvdb_witness :
  forallb (fun e => negb (is_tvdb e))
    (trace_of
       (main simpsons_world 10
          (mk_Params "192.168.1.50" "0123456789" "The Simpsons" None "/dest"
             (Some "key") None (Some "jhancock") false None)
          empty_disk))
  = true.
Proof.
  apply (no_credentials_no_tvdb simpsons_world 10
           (mk_Params "192.168.1.50" "0123456789" "The Simpsons" None "/dest"
              (Some "key") None (Some "jhancock") false None)
           empty_disk).
  reflexivity.
Defined.

(** ** What discovery returns *)

Section Discovery.

Context {FS : Type} {fsops : FileSystem FS}.
Variable w : World.
Variables hostname mak title : string.

Lemma scan_items_found (wanted : option string) (items : list Item) :
  forall recs (fs : FS) out fs' t,
    Forall (found title) recs ->
    (Py.truthy_ostr wanted = true -> recs = []) ->
    scan_items title wanted items recs fs = (Ret out, fs', t) ->
    match out with
    | Next l => Forall (found title) l /\ (Py.truthy_ostr wanted = true -> l = [])
    | Return l =>
        Forall (found title) l
        /\ (Py.truthy_ostr wanted = true ->
            exists r, l = [r] /\ episode r = wanted)
    end.
Proof.
  induction items as [| child items IH]; intros recs fs out fs' t Hf He H; simpl in H.
  - inversion H; subst. auto.
  - destruct (item_Details child) as [d |]; [| exact (IH _ _ _ _ _ Hf He H)].
    destruct (Title d) as [ct |]; [| discriminate H].
    destruct (negb (Py.ostr_eqb ct (Some title))); [exact (IH _ _ _ _ _ Hf He H) |].
    assert (Hnew : forall e dl (f1 f2 : FS) tr,
               get_tivo_dl_link_from_element child f1 = (Ret dl, f2, tr) ->
               Forall (found title) (recs ++ [mk_RecordingInfo title e dl None None])).
    { intros e dl f1 f2 tr Hl. apply Forall_app. split; [exact Hf |].
      constructor; [| constructor].
      unfold get_tivo_dl_link_from_element, ret, fail_json, halt in Hl.
      destruct (Url child) as [u |]; inversion Hl; subst.
      repeat split. exists u. reflexivity. }
    destruct (EpisodeTitle d) as [et |].
    + destruct (negb (Py.truthy_ostr wanted) || Py.ostr_eqb wanted et) eqn:Hm;
        [| exact (IH _ _ _ _ _ Hf He H)].
      step_bind H as dl fs1 t1 t2 E.
      destruct (Py.truthy_ostr wanted) eqn:Ht.
      * apply ret_inv in H. destruct H as [H _]. inversion H; subst.
        split; [eapply Hnew; exact E |].
        intros _. rewrite (He eq_refl). simpl. eexists. split; [reflexivity |].
        simpl in Hm. apply ostr_eqb_eq in Hm. simpl. symmetry. exact Hm.
      * apply (IH _ _ _ _ _ (Hnew _ _ _ _ _ E)) in H; [exact H | discriminate].
    + destruct (Py.is_None wanted) eqn:Hn; [| exact (IH _ _ _ _ _ Hf He H)].
      step_bind H as dl fs1 t1 t2 E.
      apply ret_inv in H. destruct H as [H _]. inversion H; subst.
      split; [eapply Hnew; exact E |].
      destruct wanted; [discriminate Hn | discriminate].
Qed.

Lemma listing_pages_found (fuel : nat) (wanted : option string) :
  forall offset recs (fs : FS) out fs' t,
    Forall (found title) recs ->
    (Py.truthy_ostr wanted = true -> recs = []) ->
    listing_pages w fuel hostname mak title wanted offset recs fs = (Ret out, fs', t) ->
    Forall (found title) out
    /\ (Py.truthy_ostr wanted = true ->
        out = [] \/ exists r, out = [r] /\ episode r = wanted).
Proof.
  induction fuel as [| fuel IH]; intros offset recs fs out fs' t Hf He H; simpl in H.
  - discriminate H.
  - step_bind H as rv fs1 t1 t2 E.
    destruct rv as [rv |]; [| discriminate H].
    destruct (ItemCount (body rv) =? 0).
    + apply ret_inv in H. destruct H as [H _]. inversion H; subst.
      split; [exact Hf | intros Ht; left; auto].
    + step_bind H as scanned fs2 t3 t4 E2.
      pose proof (scan_items_found _ _ _ _ _ _ _ Hf He E2) as Hs.
      destruct scanned as [l | l]; destruct Hs as [Hl Hone].
      * exact (IH _ _ _ _ _ _ Hl Hone H).
      * apply ret_inv in H. destruct H as [H _]. inversion H; subst.
        split; [exact Hl | intros Ht; right; auto].
Qed.

(** Whatever the TiVo lists, every recording [get_tivo_recording_info]
    returns has the requested title, no season or episode number, and a
    link that ends with the MPEG format suffix; and when an episode is
    requested it returns no recording or one, with that episode title. *)
Theorem discovery_is_sound (fuel : nat) (wanted : option string) (fs : FS)
    recs fs' t :
  get_tivo_recording_info w fuel hostname mak title wanted fs = (Ret recs, fs', t) ->
  Forall (found title) recs
  /\ (Py.truthy_ostr wanted = true ->
      recs = [] \/ exists r, recs = [r] /\ episode r = wanted).
Proof.
  intros H. eapply listing_pages_found; [constructor | reflexivity | exact H].
Qed.

Lemma scan_items_episodes (items : list Item) :
  forall recs (fs : FS),
    Forall (episodic title) items ->
    scan_items title None items recs fs
    = (Ret (Next (recs ++ episodes_of title items)%list), fs, []).
Proof.
  induction items as [| it items IH]; intros recs fs Hall; simpl.
  - rewrite app_nil_r. reflexivity.
  - inversion Hall as [| x l [Hwf [Hnm Hurl]] Hrest]; subst.
    destruct (item_Details it) as [d |] eqn:Hd; [| apply IH; exact Hrest].
    destruct (Title d) as [ct |] eqn:Ht; [| destruct (Hwf d Hd Ht)].
    destruct (Py.ostr_eqb ct (Some title)) eqn:Hct; simpl.
    + apply ostr_eqb_eq in Hct. subst ct.
      destruct (EpisodeTitle d) as [et |] eqn:He.
      * destruct (Url it) as [u |] eqn:Hu.
        -- unfold get_tivo_dl_link_from_element. rewrite Hu.
           erewrite bind_Ret by reflexivity. cbv beta.
           unfold result_of, fs_of, trace_of. simpl fst. simpl snd.
           rewrite IH by exact Hrest. simpl.
           rewrite <- app_assoc. reflexivity.
        -- exfalso. apply Hurl; [| reflexivity]. exists d. auto.
      * exfalso. apply Hnm. exists d. auto.
    + destruct (Url it); [| apply IH; exact Hrest].
      destruct (EpisodeTitle d); apply IH; exact Hrest.
Qed.

Lemma listing_pages_episodes (o : Z) (pages : list Page) (os : list Z) :
  pages_until_empty (tivo_query w hostname mak) o pages os ->
  Forall (fun page => Forall (episodic title) (Items page)) pages ->
  forall fuel recs (fs : FS),
    (List.length os <= fuel)%nat ->
    listing_pages w fuel hostname mak title None o recs fs
    = (Ret (recs ++ flat_map (fun page => episodes_of title (Items page)) pages)%list,
       fs, map EvTivoQuery os).
Proof.
  intros Hp. induction Hp as [o rv Hq Hok Hz | o rv pages os Hq Hok Hnz _ IH];
    intros Hall fuel recs fs Hfuel.
  - destruct fuel as [| fuel]; [simpl in Hfuel; lia |].
    rewrite (listing_pages_step w hostname mak title None fuel o recs fs rv Hq Hok).
    rewrite Hz. simpl. rewrite app_nil_r. reflexivity.
  - destruct fuel as [| fuel]; [simpl in Hfuel; lia |].
    inversion Hall as [| x l Hpage Hrest]; subst.
    rewrite (listing_pages_step w hostname mak title None fuel o recs fs rv Hq Hok).
    apply Z.eqb_neq in Hnz. rewrite Hnz.
    rewrite (scan_items_episodes _ recs fs Hpage).
    rewrite (IH Hrest fuel _ fs) by (simpl in Hfuel; lia).
    simpl. rewrite <- app_assoc. reflexivity.
Qed.

(** When no episode is requested and the title is that of a series,
    [get_tivo_recording_info] goes through every page up to the one without
    items and returns every episode of the title, in the order of the
    listing. *)
Theorem discovery_finds_every_episode (fuel : nat) (pages : list Page) (os : list Z)
    (fs : FS) :
  pages_until_empty (tivo_query w hostname mak) 0 pages os ->
  Forall (fun page => Forall (episodic title) (Items page)) pages ->
  (List.length os <= fuel)%nat ->
  get_tivo_recording_info w fuel hostname mak title None fs
  = (Ret (flat_map (fun page => episodes_of title (Items page)) pages), fs,
     map EvTivoQuery os).
Proof.
  intros Hp Hall Hfuel. unfold get_tivo_recording_info.
  rewrite (listing_pages_episodes 0 pages os Hp Hall fuel [] fs Hfuel). reflexivity.
Qed.

End Discovery.

Lemma discovery_is_sound_witness :
  Forall (found "The Simpsons") [bart_the_general]
  /\ (Py.truthy_ostr (Some "Bart the General") = true ->
      [bart_the_general] = []
      \/ exists r, [bart_the_general] = [r] /\ episode r = Some "Bart the General").
Proof.
  apply (discovery_is_sound simpsons_world "192.168.1.50" "0123456789"
           "The Simpsons" 10 (Some "Bart the General") empty_disk
           [bart_the_general] empty_disk [EvTivoQuery 0; EvTivoQuery 2]).
  vm_compute. reflexivity.
Defined.

Lemma discovery_finds_every_episode_witness :
  get_tivo_recording_info simpsons_world 10 "192.168.1.50" "0123456789"
    "The Simpsons" None empty_disk
  = (Ret [mk_RecordingInfo "The Simpsons" (Some "Homer's Odyssey")
            "http://tivo/3&Format=video/x-tivo-mpeg" None None;
          bart_the_general;
          mk_RecordingInfo "The Simpsons" (Some "Moaning Lisa")
            "http://tivo/6&Format=video/x-tivo-mpeg" None None],
     empty_disk, [EvTivoQuery 0; EvTivoQuery 2; EvTivoQuery 4; EvTivoQuery 5]).
Proof.
  assert (He : forall t e u, episodic "The Simpsons" (episode_item t e u)).
  { intros t e u. repeat split.
    - intros d Hd. inversion Hd; subst. simpl. discriminate.
    - intros [d [Hd [_ Hn]]]. inversion Hd; subst. discriminate Hn.
    - intros _. discriminate. }
  assert (Hm : episodic "The Simpsons" (movie_item "Toy Story" "http://tivo/4")).
  { repeat split.
    - intros d Hd. inversion Hd; subst. simpl. discriminate.
    - intros [d [Hd [Ht _]]]. inversion Hd; subst. discriminate Ht.
    - intros _. discriminate. }
  assert (Hf : episodic "The Simpsons" folder_item).
  { repeat split.
    - intros d Hd. discriminate Hd.
    - intros [d [Hd _]]. discriminate Hd.
    - intros [d [Hd _]]. discriminate Hd. }
  apply (discovery_finds_every_episode simpsons_world "192.168.1.50" "0123456789"
           "The Simpsons" 10
           [mk_Page 2 [folder_item;
                       episode_item "The Simpsons" "Homer's Odyssey" "http://tivo/3"];
            mk_Page 2 [movie_item "Toy Story" "http://tivo/4";
                       episode_item "The Simpsons" "Bart the General" "http://tivo/5"];
            mk_Page 1 [episode_item "The Simpsons" "Moaning Lisa" "http://tivo/6"]]
           [0; 2; 4; 5] empty_disk).
  - apply (pages_more _ 0 (ok_response (mk_Page 2 _))); try reflexivity;
      [discriminate |].
    apply (pages_more _ 2 (ok_response (mk_Page 2 _))); try reflexivity;
      [discriminate |].
    apply (pages_more _ 4 (ok_response (mk_Page 1 _))); try reflexivity;
      [discriminate |].
    apply (pages_end _ 5 (ok_response (mk_Page 0 []))); reflexivity.
  - repeat (apply Forall_cons || apply Forall_nil); auto.
  - simpl. lia.
Defined.

(** ** Searching the catalog *)

Section Catalog.

Context {FS : Type} {fsops : FileSystem FS}.
Variable w : World.








End Catalog.





(** ** How a run ends *)

Section Endings.

Context {FS : Type} {fsops : FileSystem FS}.
Variable w : World.

(** The message of [exit_json] counts what happened: after at least one
    transfer it gives the number of files written, and otherwise the
    number of recordings found, all of them skipped. *)
Theorem exit_message_counts (fuel : nat) (params : Params) (fs : FS)
    msg changed fs' t :
  main w fuel params fs = (Stop (ExitJson msg changed), fs', t) ->
  exists recs tl,
    get_tivo_recording_info w fuel (p_hostname params) (p_mak params)
      (p_title params) (p_episode params) fs = (Ret recs, fs, tl)
    /\ recs <> []
    /\ msg =
       if changed
       then Py.str_of_int (Z.of_nat (transfers t))
              ++ " recording(s) downloaded successfully"
       else Py.str_of_int (Z.of_nat (List.length recs)) ++ " recording(s) skipped".
Proof.
  unfold main. intros H.
  step_bind H as dest_ok fs1 t1 t2 E; [unfold look in E; discriminate E |].
  unfold look in E. inversion E; subst. clear E.
  step_bind H as u fs2 t3 t4 E.
  { inversion Hr; subst. unfold ret, fail_json, halt in E.
    destruct (isdir fs1 (p_dest_dir params)); inversion E. }
  assert (Ht3 : fs2 = fs1 /\ t3 = []).
  { unfold ret, fail_json, halt in E.
    destruct (isdir fs1 (p_dest_dir params)); inversion E; auto. }
  destruct Ht3 as [-> ->]. clear E.
  step_bind H as recs fs3 t5 t6 E.
  { apply listing_pages_quiet in E. destruct E as [_ [_ Hx]].
    inversion Hr; subst. contradiction. }
  pose proof (listing_pages_quiet _ _ _ _ _ _ _ _ _ _ _ _ E) as [-> [Ht5 _]].
  exists recs, t5. split; [exact E |].
  step_bind H as u2 fs4 t7 t8 E2.
  { inversion Hr; subst. unfold ret, fail_json, halt in E2.
    destruct recs; inversion E2. }
  assert (Ht7 : fs4 = fs1 /\ t7 = [] /\ recs <> []).
  { unfold ret, fail_json, halt in E2.
    destruct recs; inversion E2; repeat split; auto; discriminate. }
  destruct Ht7 as [-> [-> Hne]]. clear E2. split; [exact Hne |].
  step_bind H as n fs5 t9 t10 E3;
    apply download_all_count in E3; destruct E3 as [Hx9 Hn];
    [inversion Hr; subst; contradiction |].
  specialize (Hn n eq_refl).
  simpl. rewrite transfers_app, Ht5. simpl. rewrite transfers_app.
  unfold exit_json, halt in H.
  destruct (Z.gtb_spec n 0) as [Hpos | Hle]; inversion H; subst; simpl.
  - rewrite Nat.add_0_r. reflexivity.
  - destruct (Z.gtb_spec (Z.of_nat (List.length recs)) 0) as [Hl | Hl];
      [reflexivity |].
    destruct recs; [contradiction | simpl List.length in Hl; lia].
Qed.

(** When the destination directory does not exist, the run fails before
    anything is requested from the TiVo. *)
Theorem missing_dest_dir_is_fatal (fuel : nat) (params : Params) (fs : FS) :
  isdir fs (p_dest_dir params) = false ->
  main w fuel params fs
  = (Stop (FailJson ("The directory " ++ dq ++ p_dest_dir params ++ dq
                     ++ " does not exist")),
     fs, []).
Proof.
  intros Hd. unfold main, bind, look. rewrite Hd. reflexivity.
Qed.

Lemma listing_pages_no_title (hostname mak title : string) (episode : option string)
    (o : Z) (pages : list Page) (os : list Z) :
  pages_until_empty (tivo_query w hostname mak) o pages os ->
  Forall (fun page =>
            Forall (fun it => well_formed it /\ ~ has_title title it) (Items page))
    pages ->
  forall fuel recs (fs : FS),
    (List.length os <= fuel)%nat ->
    listing_pages w fuel hostname mak title episode o recs fs
    = (Ret recs, fs, map EvTivoQuery os).
Proof.
  intros Hp. induction Hp as [o rv Hq Hok Hz | o rv pages os Hq Hok Hnz _ IH];
    intros Hall fuel recs fs Hfuel.
  - destruct fuel as [| fuel]; [simpl in Hfuel; lia |].
    rewrite (listing_pages_step w hostname mak title episode fuel o recs fs rv Hq Hok).
    rewrite Hz. reflexivity.
  - destruct fuel as [| fuel]; [simpl in Hfuel; lia |].
    inversion Hall as [| x l Hpage Hrest]; subst.
    rewrite (listing_pages_step w hostname mak title episode fuel o recs fs rv Hq Hok).
    apply Z.eqb_neq in Hnz. rewrite Hnz.
    rewrite <- (app_nil_r (Items (body rv))).
    rewrite (scan_items_skip_title title episode _ [] recs fs Hpage). simpl.
    rewrite (IH Hrest fuel recs fs) by (simpl in Hfuel; lia). reflexivity.
Qed.

(** When no item of the listing carries the requested title, the run goes
    through the pages up to the one without items and then fails with
    [No recordings were found]; it requests nothing else. *)
Theorem no_match_is_fatal (fuel : nat) (params : Params) (fs : FS)
    (pages : list Page) (os : list Z) :
  isdir fs (p_dest_dir params) = true ->
  pages_until_empty (tivo_query w (p_hostname params) (p_mak params)) 0 pages os ->
  Forall (fun page =>
            Forall (fun it => well_formed it /\ ~ has_title (p_title params) it)
              (Items page))
    pages ->
  (List.length os <= fuel)%nat ->
  main w fuel params fs
  = (Stop (FailJson "No recordings were found"), fs, map EvTivoQuery os).
Proof.
  intros Hd Hp Hall Hfuel. unfold main.
  erewrite bind_Ret by reflexivity. cbv beta.
  unfold look, result_of, fs_of, trace_of. simpl fst. simpl snd. rewrite Hd.
  erewrite bind_Ret by reflexivity. cbv beta.
  unfold get_tivo_recording_info.
  rewrite (bind_Ret _ _ _ _ _ _
             (listing_pages_no_title _ _ _ _ 0 pages os Hp Hall fuel [] fs Hfuel)).
  cbv beta. unfold bind, fail_json, halt, ret, result_of, fs_of, trace_of. simpl.
  rewrite app_nil_r. reflexivity.
Qed.

End Endings.

Lemma exit_message_counts_witness :
  exists recs tl,
    get_tivo_recording_info two_episodes_world 10 "192.168.1.50" "0123456789"
      "The Simpsons" None disk_with_homer = (Ret recs, disk_with_homer, tl)
    /\ recs <> []
    /\ "1 recording(s) downloaded successfully" =
       Py.str_of_int
         (Z.of_nat
            (transfers
               [EvTivoQuery 0; EvTivoQuery 2;
                EvTivoDownload "http://tivo/5&Format=video/x-tivo-mpeg";
                EvFileWritten "/dest/The Simpsons - Bart the General.TiVo";
                EvSleep 30]))
         ++ " recording(s) downloaded successfully".
Proof.
  apply (exit_message_counts two_episodes_world 10
           (example_params "The Simpsons" None None false None) disk_with_homer
           "1 recording(s) downloaded successfully" true
           (Disk.mk ["/dest"]
              [("/dest", "The Simpsons - Homer's Odyssey.TiVo");
               ("/dest", "The Simpsons - Bart the General.TiVo")])).
  vm_compute. reflexivity.
Defined.

Lemma no_match_is_fatal_witness :
  main simpsons_world 10 (example_params "Seinfeld" None (Some "key") false None)
    empty_disk
  = (Stop (FailJson "No recordings were found"), empty_disk,
     [EvTivoQuery 0; EvTivoQuery 2; EvTivoQuery 4; EvTivoQuery 5]).
Proof.
  assert (He : forall t e u,
             t <> "Seinfeld" ->
             well_formed (episode_item t e u)
             /\ ~ has_title "Seinfeld" (episode_item t e u)).
  { intros t e u Hne. split.
    - intros d Hd. inversion Hd; subst. simpl. discriminate.
    - intros [d [Hd Ht]]. inversion Hd; subst. simpl in Ht. congruence. }
  assert (Hm : well_formed (movie_item "Toy Story" "http://tivo/4")
               /\ ~ has_title "Seinfeld" (movie_item "Toy Story" "http://tivo/4")).
  { split.
    - intros d Hd. inversion Hd; subst. simpl. discriminate.
    - intros [d [Hd Ht]]. inversion Hd; subst. discriminate Ht. }
  assert (Hf : well_formed folder_item /\ ~ has_title "Seinfeld" folder_item).
  { split.
    - intros d Hd. discriminate Hd.
    - intros [d [Hd _]]. discriminate Hd. }
  apply (no_match_is_fatal simpsons_world 10
           (example_params "Seinfeld" None (Some "key") false None) empty_disk
           [mk_Page 2 [folder_item;
                       episode_item "The Simpsons" "Homer's Odyssey" "http://tivo/3"];
            mk_Page 2 [movie_item "Toy Story" "http://tivo/4";
                       episode_item "The Simpsons" "Bart the General" "http://tivo/5"];
            mk_Page 1 [episode_item "The Simpsons" "Moaning Lisa" "http://tivo/6"]]
           [0; 2; 4; 5]).
  - reflexivity.
  - apply (pages_more _ 0 (ok_response (mk_Page 2 _))); try reflexivity;
      [discriminate |].
    apply (pages_more _ 2 (ok_response (mk_Page 2 _))); try reflexivity;
      [discriminate |].
    apply (pages_more _ 4 (ok_response (mk_Page 1 _))); try reflexivity;
      [discriminate |].
    apply (pages_end _ 5 (ok_response (mk_Page 0 []))); reflexivity.
  - repeat (apply Forall_cons || apply Forall_nil); auto; apply He; discriminate.
  - simpl. lia.
Defined.

(** ** What a transfer writes, and under which name *)

Lemma append_nil_r (s : string) : s ++ EmptyString = s.
Proof. induction s as [| a s IH]; simpl; [| rewrite IH]; reflexivity. Qed.

Lemma append_assoc (s1 s2 s3 : string) : (s1 ++ s2) ++ s3 = s1 ++ (s2 ++ s3).
Proof. induction s1 as [| a s1 IH]; simpl; [| rewrite IH]; reflexivity. Qed.

Lemma written_chunks_concat (chunks : list string) :
  written_chunks chunks = String.concat EmptyString chunks.
Proof.
  induction chunks as [| chunk chunks IH]; [reflexivity |].
  simpl written_chunks. rewrite IH.
  destruct chunks as [| c2 chunks].
  - simpl. destruct chunk; simpl; [| rewrite append_nil_r]; reflexivity.
  - change (String.concat EmptyString (chunk :: c2 :: chunks))
      with (chunk ++ EmptyString ++ String.concat EmptyString (c2 :: chunks)).
    change (EmptyString ++ String.concat EmptyString (c2 :: chunks))
      with (String.concat EmptyString (c2 :: chunks)).
    destruct chunk; reflexivity.
Qed.

Section Written.

Context {FS : Type} {fsops : FileSystem FS}.
Variable w : World.

(** A recording that is not skipped and that the TiVo serves is written to
    the destination directory under its computed name when that file can
    be opened, and the file then holds the chunks of the response one
    after the other: leaving out the empty chunks loses nothing.  When the
    file cannot be opened, as for a name with a slash in it or a
    destination directory that is not there, the call raises [IOError]
    after the request, and nothing is written. *)
Theorem download_writes_every_chunk (mak : string) (r : RecordingInfo)
    (dest_dir : string) (skip_path : option string) (fs : FS)
    (rv : response (list string)) :
  skip_check fs skip_path (file_name_of r) = false ->
  exists_ fs (OsPath.join dest_dir (file_name_of r)) = false ->
  tivo_download w mak (link r) = Responded rv -> ok rv = true ->
  download_tivo_recording w mak r dest_dir skip_path fs
  = if can_open fs (OsPath.join dest_dir (file_name_of r))
    then (Ret true,
          write_file fs (OsPath.join dest_dir (file_name_of r))
            (String.concat EmptyString (body rv)),
          [EvTivoDownload (link r);
           EvFileWritten (OsPath.join dest_dir (file_name_of r))])
    else (Stop (Raised IOError), fs, [EvTivoDownload (link r)]).
Proof.
  intros Hs He Hd Hok. rewrite <- written_chunks_concat.
  rewrite download_tivo_recording_eq. cbv zeta.
  rewrite Hs, He, Hd, Hok. reflexivity.
Qed.

(** When the catalog resolves the episode of a recording to a season and
    an episode number other than zero, the enrichment step attaches both,
    changes nothing else, and the file name carries them. *)
Theorem enriched_file_name (fuel : nat) (params : Params) (r : RecordingInfo)
    (ep api_key user_key username : string) (fs : FS) (s e : Z) fs' t :
  episode r = Some ep -> ep <> EmptyString ->
  p_tvdb_api_key params = Some api_key -> api_key <> EmptyString ->
  p_tvdb_user_key params = Some user_key -> user_key <> EmptyString ->
  p_tvdb_username params = Some username -> username <> EmptyString ->
  get_season_episode_num w fuel api_key user_key username (title r) ep
    (negb (p_tvdb_ignore_failure params)) fs = (Ret (Some s, Some e), fs', t) ->
  s <> 0 -> e <> 0 ->
  enrich w fuel params r fs = (Ret (update_numbers r (Some s) (Some e)), fs', t)
  /\ file_name_of (update_numbers r (Some s) (Some e))
     = title r ++ " - S" ++ Py.format_02d s ++ "E" ++ Py.format_02d e
         ++ " - " ++ ep ++ ".TiVo".
Proof.
  intros Hep Hne Hk1 Hn1 Hk2 Hn2 Hk3 Hn3 Hget Hs He.
  split.
  - unfold enrich. rewrite Hep, Hk1, Hk2, Hk3.
    apply truthy_str_true in Hne, Hn1, Hn2, Hn3.
    rewrite Hne, Hn1, Hn2, Hn3. simpl.
    rewrite (bind_Ret _ _ _ _ _ _ Hget). cbv beta.
    apply Z.eqb_neq in Hs, He. simpl. rewrite Hs, He. simpl.
    unfold ret, result_of, fs_of, trace_of. simpl.
    rewrite app_nil_r. reflexivity.
  - apply (file_name_of_numbers (update_numbers r (Some s) (Some e)) s e ep);
      auto.
Qed.

End Written.

Lemma download_writes_every_chunk_witness :
  download_tivo_recording simpsons_world "0123456789" bart_the_general "/dest"
    (Some "/videos") empty_disk
  = (Ret true,
     write_file empty_disk "/dest/The Simpsons - Bart the General.TiVo" "mpegdata",
     [EvTivoDownload "http://tivo/5&Format=video/x-tivo-mpeg";
      EvFileWritten "/dest/The Simpsons - Bart the General.TiVo"])
  /\ download_tivo_recording simpsons_world "0123456789" face_off "/dest"
       (Some "/videos") empty_disk
     = (Stop (Raised IOError), empty_disk,
        [EvTivoDownload "http://tivo/7&Format=video/x-tivo-mpeg"]).
Proof.
  split.
  - exact (download_writes_every_chunk simpsons_world "0123456789" bart_the_general
             "/dest" (Some "/videos") empty_disk
             (ok_response ["mpeg"; EmptyString; "data"])
             eq_refl eq_refl eq_refl eq_refl).
  - exact (download_writes_every_chunk simpsons_world "0123456789" face_off
             "/dest" (Some "/videos") empty_disk
             (ok_response ["mpeg"; EmptyString; "data"])
             eq_refl eq_refl eq_refl eq_refl).
Defined.

Lemma enriched_file_name_witness :
  enrich simpsons_world 10
    (example_params "The Simpsons" None (Some "key") false None)
    bart_the_general empty_disk
  = (Ret (update_numbers bart_the_general (Some 1) (Some 5)), empty_disk,
     [EvTvdbLogin; EvTvdbSeries "The Simpsons"; EvTvdbEpisodes 71663 1;
      EvTvdbEpisodes 71663 2])
  /\ file_name_of (update_numbers bart_the_general (Some 1) (Some 5))
     = "The Simpsons - S01E05 - Bart the General.TiVo".
Proof.
  apply (enriched_file_name simpsons_world 10
           (example_params "The Simpsons" None (Some "key") false None)
           bart_the_general "Bart the General" "key" "key" "key" empty_disk 1 5);
    try reflexivity; discriminate.
Defined.

(** * strip_tivo_protection *)

#[global] Existing Instance Strip.machine_fs.

Section Stripped.

Context {S : Type} {machine : Strip.Machine S}.

Lemma destination_path_not_empty (source : string) (destination : option string) :
  Py.truthy_str (Strip.destination_path_of source destination) = true.
Proof.
  assert (Hd : Py.truthy_str (Strip.rsplit_dot_head source ++ ".mpg") = true).
  { destruct (Strip.rsplit_dot_head source); reflexivity. }
  unfold Strip.destination_path_of. destruct destination as [d |]; [| exact Hd].
  destruct (Py.truthy_str d) eqn:E; [exact E | exact Hd].
Qed.

(** The two ways a call of [tivo_to_mpg] goes: the destination exists and
    nothing is done, or the decoder is run once. *)
Lemma tivo_to_mpg_cases (mak source : string) (destination : option string)
    (jar : string) (st : Strip.state S) r st' t :
  Strip.tivo_to_mpg mak source destination jar st = (r, st', t) ->
  let dp := Strip.destination_path_of source destination in
  let command := ["java"; "-jar"; jar; "-i"; source; "-o"; dp; "-m"; mak] in
  t = []
  /\ ((exists_ (fst st) dp = true /\ r = Ret None /\ st' = st)
      \/ (exists_ (fst st) dp = false
          /\ exists rc err s',
              Strip.popen (fst st) command = ((rc, err), s')
              /\ st' = (s', (snd st ++ [Strip.Decoded command rc])%list)
              /\ ((rc = 0 /\ r = Ret (Some dp))
                  \/ (rc <> 0 /\ exists msg, r = Stop (FailJson msg))))).
Proof.
  intros H dp command. unfold Strip.tivo_to_mpg in H.
  fold dp in H. fold command in H.
  unfold bind, Strip.see, Strip.run, ret, fail_json, halt in H.
  destruct (exists_ (fst st) dp) eqn:He.
  - inversion H; subst. split; [reflexivity | left; auto].
  - destruct (Strip.popen (fst st) command) as [[rc err] s'] eqn:Hp.
    simpl in H. destruct (Z.eqb_spec rc 0) as [Hz | Hnz]; simpl in H;
      inversion H; subst r st' t;
      (split; [reflexivity | right; split; [reflexivity |]]);
      exists rc, err, s'; (split; [reflexivity | split; [reflexivity |]]).
    + left. auto.
    + right. split; [exact Hnz | eauto].
Qed.

Lemma well_ordered_step (replace : bool) (command : list string) (source : string)
    (l : list Strip.action) :
  nth 4 command EmptyString = source ->
  well_ordered replace
    (Strip.Decoded command 0
       :: ((if replace then [Strip.Removed source] else []) ++ l)%list)
  = well_ordered replace l.
Proof.
  intros Hn. simpl. destruct replace; simpl; [| reflexivity].
  rewrite Hn, String.eqb_refl. reflexivity.
Qed.

(** What the loop over the videos leaves behind. *)
Lemma strip_all_log (mak : string) (destination : option string) (jar : string)
    (replace : bool) (videos : list string) :
  forall count (st : Strip.state S) r st' t,
    Strip.strip_all mak destination jar replace videos count st = (r, st', t) ->
    exists new,
      snd st' = (snd st ++ new)%list
      /\ well_ordered replace new = true
      /\ never_exits r
      /\ (forall n, r = Ret n ->
                    n = count + Z.of_nat (decodes new)
                    /\ Forall (fun a => match a with
                                        | Strip.Decoded _ rc => rc = 0
                                        | Strip.Removed _ => True
                                        end) new).
Proof.
  induction videos as [| video videos IH]; intros count st r st' t H; simpl in H.
  - inversion H; subst. exists []. rewrite app_nil_r.
    split; [reflexivity | split; [reflexivity | split; [exact I |]]].
    intros n Hn. inversion Hn. split; [simpl; lia | constructor].
  - step_bind H as stripped st1 t1 t2 E; apply tivo_to_mpg_cases in E;
      destruct E as [_ E].
    + (* the decoder failed *)
      destruct E as [[_ [Hx _]] | [_ [rc [err [s' [Hp [-> [[_ Hx] | [Hnz [msg Hx]]]]]]]]]];
        try discriminate Hx.
      inversion Hx; subst s. subst r. exists [Strip.Decoded
                         ["java"; "-jar"; jar; "-i"; video; "-o";
                          Strip.destination_path_of video destination; "-m"; mak] rc].
      simpl. apply Z.eqb_neq in Hnz. rewrite Hnz.
      split; [reflexivity | split; [reflexivity | split; [exact I |]]].
      intros n Hn. discriminate Hn.
    + destruct E as [[_ [Hx ->]] | [_ [rc [err [s' [Hp [-> [[-> Hx] | [_ [msg Hx]]]]]]]]]];
        try discriminate Hx; inversion Hx; subst; simpl in H.
      * (* skipped *) exact (IH _ _ _ _ _ H).
      * (* converted *)
        rewrite destination_path_not_empty in H.
        step_bind H as u st2 t3 t4 E2.
        { destruct replace; discriminate E2. }
        assert (Hst2 : st2 = (if replace then Strip.remove s' video else s',
                               ((snd st ++ [Strip.Decoded
                                   ["java"; "-jar"; jar; "-i"; video; "-o";
                                    Strip.destination_path_of video destination;
                                    "-m"; mak] 0])
                                ++ (if replace then [Strip.Removed video] else []))%list)).
        { destruct replace; inversion E2; subst; simpl;
            [| rewrite app_nil_r]; reflexivity. }
        subst st2. apply IH in H.
        destruct H as [new [Hlog [Hwo [Hx' Hn]]]]. simpl snd in Hlog.
        exists (Strip.Decoded
                  ["java"; "-jar"; jar; "-i"; video; "-o";
                   Strip.destination_path_of video destination; "-m"; mak] 0
                  :: ((if replace then [Strip.Removed video] else []) ++ new))%list.
        split; [| split; [| split]].
        -- rewrite Hlog. rewrite <- !app_assoc. reflexivity.
        -- rewrite well_ordered_step by reflexivity. exact Hwo.
        -- exact Hx'.
        -- intros n Hr. destruct (Hn n Hr) as [Hcount Hall]. split.
           ++ rewrite Hcount. simpl decodes.
              assert (Hd : decodes ((if replace then [Strip.Removed video] else [])
                                      ++ new) = decodes new)
                by (destruct replace; reflexivity).
              rewrite Hd. lia.
           ++ constructor; [reflexivity |].
              destruct replace; simpl; [constructor; [exact I |] |]; exact Hall.
Qed.

(** A run of [main] either fails one of its checks and does nothing, or is
    the loop over the videos followed by [exit_json]. *)
Lemma strip_main_inv (params : Strip.Params) (st : Strip.state S) r st' t :
  Strip.main params st = (r, st', t) ->
  (st' = st /\ exists msg, r = Stop (FailJson msg))
  \/ (exists videos rr tr,
         Strip.strip_all (Strip.p_mak params) (Strip.p_destination params)
           (Strip.p_tivo_decoder_path params) (Strip.p_replace params) videos 0 st
         = (rr, st', tr)
         /\ match rr with
            | Ret n =>
                r = Stop (ExitJson
                            (if n >? 0
                             then Py.str_of_int n
                                    ++ " recording(s) stripped successfully"
                             else if Z.of_nat (List.length videos) >? 0
                                  then Py.str_of_int (Z.of_nat (List.length videos))
                                         ++ " recordings were skipped"
                                  else "No recordings were found that matched the criteria")
                            (n >? 0))
            | Stop s => r = Stop s
            end).
Proof.
  unfold Strip.main. intros H.
  step_bind H as jar st1 t1 t2 E; [discriminate E |].
  unfold Strip.see in E. inversion E; subst. clear E.
  step_bind H as u1 st2 t3 t4 E.
  { unfold ret, fail_json, halt in E.
    destruct (exists_ (fst st1) (Strip.p_tivo_decoder_path params));
      inversion E; subst. left. eauto. }
  assert (Hst2 : st2 = st1).
  { unfold ret, fail_json, halt in E.
    destruct (exists_ (fst st1) (Strip.p_tivo_decoder_path params));
      inversion E; reflexivity. }
  subst st2. clear E.
  step_bind H as src st3 t5 t6 E; [discriminate E |].
  unfold Strip.see in E. inversion E; subst. clear E.
  step_bind H as u2 st4 t7 t8 E.
  { unfold ret, fail_json, halt in E.
    destruct (exists_ (fst st3) (Strip.p_source params));
      inversion E; subst. left. eauto. }
  assert (Hst4 : st4 = st3).
  { unfold ret, fail_json, halt in E.
    destruct (exists_ (fst st3) (Strip.p_source params)); inversion E; reflexivity. }
  subst st4. clear E.
  step_bind H as source_is_dir st5 t9 t10 E; [discriminate E |].
  unfold Strip.see in E. inversion E; subst. clear E.
  step_bind H as u3 st6 t11 t12 E.
  { left. destruct (Strip.p_destination params) as [d |]; [| discriminate E].
    destruct (Py.truthy_str d); [| discriminate E].
    unfold bind, Strip.see, ret, fail_json, halt in E. simpl in E.
    destruct (exists_ (fst st5) d
              && negb (Bool.eqb (isdir (fst st5) d)
                         (isdir (fst st5) (Strip.p_source params))));
      inversion E; subst. eauto. }
  assert (Hst6 : st6 = st5).
  { destruct (Strip.p_destination params) as [d |];
      [| inversion E; reflexivity].
    destruct (Py.truthy_str d); [| inversion E; reflexivity].
    unfold bind, Strip.see, ret, fail_json, halt in E. simpl in E.
    destruct (exists_ (fst st5) d
              && negb (Bool.eqb (isdir (fst st5) d)
                         (isdir (fst st5) (Strip.p_source params))));
      inversion E; reflexivity. }
  subst st6. clear E.
  step_bind H as videos st7 t13 t14 E.
  { destruct (isdir (fst st5) (Strip.p_source params)); discriminate E. }
  assert (Hst7 : st7 = st5).
  { unfold Strip.see in E.
    destruct (isdir (fst st5) (Strip.p_source params)); inversion E; reflexivity. }
  subst st7. clear E.
  right. exists videos.
  step_bind H as n st8 t15 t16 E.
  - exists (Stop s). eexists. split; [exact E | exact Hr].
  - assert (st' = st8).
    { unfold exit_json, halt in H. destruct (n >? 0); inversion H; reflexivity. }
    subst st8. exists (Ret n). eexists. split; [exact E |].
    unfold exit_json, halt in H. destruct (n >? 0); inversion H; reflexivity.
Qed.


(** When a run ends with [exit_json], every run of the decoder succeeded,
    [changed] is true exactly when the decoder was run at least once, and
    the message then gives the number of its runs. *)
Theorem strip_changed_iff_decoded (params : Strip.Params) (st : Strip.state S)
    msg changed st' t :
  Strip.main params st = (Stop (ExitJson msg changed), st', t) ->
  exists new,
    snd st' = (snd st ++ new)%list
    /\ (changed = true <-> (0 < decodes new)%nat)
    /\ Forall (fun a => match a with
                        | Strip.Decoded _ rc => rc = 0
                        | Strip.Removed _ => True
                        end) new
    /\ (changed = true ->
        msg = Py.str_of_int (Z.of_nat (decodes new))
                ++ " recording(s) stripped successfully").
Proof.
  intros H. apply strip_main_inv in H.
  destruct H as [[_ [m Hm]] | [videos [rr [tr [Hrun Hr]]]]]; [discriminate Hm |].
  apply strip_all_log in Hrun. destruct Hrun as [new [Hlog [_ [Hx Hn]]]].
  exists new. split; [exact Hlog |].
  destruct rr as [n | s].
  - destruct (Hn n eq_refl) as [Hcount Hall]. inversion Hr; subst. clear Hr.
    simpl. split; [| split; [exact Hall |]].
    + rewrite Z.gtb_ltb, Z.ltb_lt. lia.
    + intros Hpos. rewrite Hpos. reflexivity.
  - inversion Hr; subst. contradiction.
Qed.

End Stripped.


Lemma strip_changed_iff_decoded_witness :
  exists new,
    [Strip.Decoded
       ["java"; "-jar"; "/opt/tivo/TivoDecoder.jar"; "-i"; "/videos/Toy Story.TiVo";
        "-o"; "/videos/Toy Story.mpg"; "-m"; "0123456789"] 0;
     Strip.Decoded
       ["java"; "-jar"; "/opt/tivo/TivoDecoder.jar"; "-i";
        "/videos/The Simpsons - S01E05 - Bart the General.tivo"; "-o";
        "/videos/The Simpsons - S01E05 - Bart the General.mpg"; "-m"; "0123456789"] 0]
    = ([] ++ new)%list
    /\ (true = true <-> (0 < decodes new)%nat)
    /\ Forall (fun a => match a with
                        | Strip.Decoded _ rc => rc = 0
                        | Strip.Removed _ => True
                        end) new
    /\ (true = true ->
        "2 recording(s) stripped successfully"
        = Py.str_of_int (Z.of_nat (decodes new))
            ++ " recording(s) stripped successfully").
Proof.
  apply (strip_changed_iff_decoded (strip_videos false None) (videos_box, [])
           "2 recording(s) stripped successfully" true
           (Paths.mk ["/videos"]
              ["/opt/tivo/TivoDecoder.jar"; "/videos/Toy Story.TiVo";
               "/videos/notes.txt";
               "/videos/The Simpsons - S01E05 - Bart the General.tivo";
               "/videos/Toy Story.mpg";
               "/videos/The Simpsons - S01E05 - Bart the General.mpg"],
            [Strip.Decoded
               ["java"; "-jar"; "/opt/tivo/TivoDecoder.jar"; "-i";
                "/videos/Toy Story.TiVo"; "-o"; "/videos/Toy Story.mpg"; "-m";
                "0123456789"] 0;
             Strip.Decoded
               ["java"; "-jar"; "/opt/tivo/TivoDecoder.jar"; "-i";
                "/videos/The Simpsons - S01E05 - Bart the General.tivo"; "-o";
                "/videos/The Simpsons - S01E05 - Bart the General.mpg"; "-m";
                "0123456789"] 0])
           []).
  vm_compute. reflexivity.
Defined.

Section Destination.

Context {S : Type} {machine : Strip.Machine S}.

Lemma strip_all_skips (mak : string) (destination : option string) (jar : string)
    (replace : bool) (videos : list string) (st : Strip.state S) :
  (forall video,
      In video videos ->
      exists_ (fst st) (Strip.destination_path_of video destination) = true) ->
  forall count,
    Strip.strip_all mak destination jar replace videos count st = (Ret count, st, []).
Proof.
  induction videos as [| video videos IH]; intros Hall count; [reflexivity |].
  simpl. unfold Strip.tivo_to_mpg, bind, Strip.see, ret.
  rewrite (Hall video (or_introl eq_refl)). simpl.
  rewrite IH by (intros v Hv; apply Hall; right; exact Hv). reflexivity.
Qed.

Lemma bind_Ret_nil {FS A B : Type} (m : M FS A) (k : A -> M FS B) fs a fs1 :
  m fs = (Ret a, fs1, []) -> bind m k fs = k a fs1.
Proof.
  intros H. unfold bind. rewrite H. destruct (k a fs1) as [[r fs2] t2]. reflexivity.
Qed.

(** When a destination is given and exists already, a run that passes the
    checks converts nothing, removes nothing and reports [changed=False];
    this includes a directory of recordings as the source with an existing
    directory as the destination. *)
Theorem existing_destination_strips_nothing (params : Strip.Params)
    (st : Strip.state S) (d : string) :
  Strip.p_destination params = Some d -> d <> EmptyString ->
  exists_ (fst st) (Strip.p_tivo_decoder_path params) = true ->
  exists_ (fst st) (Strip.p_source params) = true ->
  exists_ (fst st) d = true ->
  isdir (fst st) d = isdir (fst st) (Strip.p_source params) ->
  exists msg, Strip.main params st = (Stop (ExitJson msg false), st, []).
Proof.
  intros Hd Hne Hjar Hsrc Hex Hty. apply truthy_str_true in Hne.
  unfold Strip.main. rewrite Hd, Hne.
  erewrite bind_Ret_nil by reflexivity. cbv beta. rewrite Hjar.
  erewrite bind_Ret_nil by reflexivity. cbv beta.
  erewrite bind_Ret_nil by reflexivity. cbv beta. rewrite Hsrc.
  erewrite bind_Ret_nil by reflexivity. cbv beta.
  erewrite bind_Ret_nil by reflexivity. cbv beta.
  erewrite (bind_Ret_nil (dest_exists <- _ ;; _)).
  2:{ erewrite bind_Ret_nil by reflexivity. cbv beta.
      erewrite bind_Ret_nil by reflexivity. cbv beta.
      rewrite Hex, Hty, Bool.eqb_reflx. reflexivity. }
  cbv beta.
  assert (Hvideos : exists videos,
             (if isdir (fst st) (Strip.p_source params)
              then Strip.see (fun s : S =>
                                Strip.tivo_files s (Strip.p_source params)
                                  (listdir s (Strip.p_source params)))
              else Strip.see (fun s : S => [Strip.abspath s (Strip.p_source params)]))
               st
             = (Ret videos, st, [])).
  { destruct (isdir (fst st) (Strip.p_source params)); eexists; reflexivity. }
  destruct Hvideos as [videos Hvideos].
  rewrite (bind_Ret_nil _ _ _ _ _ Hvideos). cbv beta.
  rewrite (bind_Ret_nil _ _ _ _ _
             (strip_all_skips _ (Some d) _ _ videos st
                ltac:(intros v _; unfold Strip.destination_path_of; rewrite Hne;
                      exact Hex) 0)).
  cbv beta. simpl. eexists. reflexivity.
Qed.

End Destination.

Lemma existing_destination_strips_nothing_witness :
  exists msg,
    Strip.main (strip_videos true (Some "/videos")) (videos_box, [])
    = (Stop (ExitJson msg false), (videos_box, []), []).
Proof.
  apply (existing_destination_strips_nothing (strip_videos true (Some "/videos"))
           (videos_box, []) "/videos"); try reflexivity.
  discriminate.
Defined.

(** ** Names of files, from one module to the other *)

Lemma length_append (s1 s2 : string) :
  String.length (s1 ++ s2) = (String.length s1 + String.length s2)%nat.
Proof. induction s1 as [| a s1 IH]; simpl; [| rewrite IH]; reflexivity. Qed.

Lemma has_char_app (c : ascii) (s1 s2 : string) :
  has_char c (s1 ++ s2) = has_char c s1 || has_char c s2.
Proof.
  induction s1 as [| a s1 IH]; simpl; [reflexivity |].
  rewrite IH, orb_assoc. reflexivity.
Qed.

Lemma rfind_from_app (c : ascii) (p1 p2 : string) :
  forall i found,
    OsPath.rfind_from c (p1 ++ p2) i found
    = OsPath.rfind_from c p2 (i + Z.of_nat (String.length p1))
        (OsPath.rfind_from c p1 i found).
Proof.
  induction p1 as [| a p1 IH]; intros i found; simpl String.length.
  - simpl. rewrite Z.add_0_r. reflexivity.
  - simpl append. simpl OsPath.rfind_from. rewrite IH. f_equal. lia.
Qed.

Lemma rfind_from_absent (c : ascii) (p : string) :
  has_char c p = false ->
  forall i found, OsPath.rfind_from c p i found = found.
Proof.
  induction p as [| a p IH]; intros H i found; [reflexivity |].
  simpl in H. apply orb_false_iff in H. destruct H as [Ha Hp].
  simpl. rewrite Ha. apply IH. exact Hp.
Qed.

(** The last [c] of [stem ++ c ++ ext], when [ext] has none, is the one
    between them. *)
Lemma rfind_between (c : ascii) (stem ext : string) :
  has_char c ext = false ->
  OsPath.rfind c (stem ++ String c ext) = Z.of_nat (String.length stem).
Proof.
  intros H. unfold OsPath.rfind. rewrite rfind_from_app. simpl.
  rewrite Ascii.eqb_refl. rewrite rfind_from_absent by exact H. reflexivity.
Qed.

Lemma substring_prefix (s1 s2 : string) :
  substring 0 (String.length s1) (s1 ++ s2) = s1.
Proof.
  induction s1 as [| a s1 IH]; simpl.
  - destruct s2; reflexivity.
  - rewrite IH. reflexivity.
Qed.

Lemma substring_whole (s : string) : substring 0 (String.length s) s = s.
Proof. induction s as [| a s IH]; simpl; [| rewrite IH]; reflexivity. Qed.

Lemma substring_suffix (s1 s2 : string) :
  substring (String.length s1) (String.length s2) (s1 ++ s2) = s2.
Proof.
  induction s1 as [| a s1 IH]; simpl; [apply substring_whole | exact IH].
Qed.

Lemma slice_prefix (s1 s2 : string) :
  OsPath.slice (s1 ++ s2) 0 (Z.of_nat (String.length s1)) = s1.
Proof.
  unfold OsPath.slice. rewrite Z.sub_0_r, Nat2Z.id. apply substring_prefix.
Qed.

Lemma endswith_app (s suffix : string) : Strip.endswith (s ++ suffix) suffix = true.
Proof.
  unfold Strip.endswith. rewrite length_append.
  destruct (Nat.ltb_spec (String.length s + String.length suffix)
              (String.length suffix)) as [Hlt | _]; [lia |].
  replace (String.length s + String.length suffix - String.length suffix)%nat
    with (String.length s) by lia.
  rewrite substring_suffix. apply String.eqb_refl.
Qed.

Lemma lower_app (s1 s2 : string) : Py.lower (s1 ++ s2) = Py.lower s1 ++ Py.lower s2.
Proof. induction s1 as [| a s1 IH]; simpl; [| rewrite IH]; reflexivity. Qed.

(** The text before the last dot. *)
Lemma rsplit_dot_head_ext (stem ext : string) :
  has_char "." ext = false ->
  Strip.rsplit_dot_head (stem ++ "." ++ ext) = stem.
Proof.
  intros H. unfold Strip.rsplit_dot_head.
  change (stem ++ "." ++ ext) with (stem ++ String "." ext).
  rewrite rfind_between by exact H.
  destruct (Z.ltb_spec (Z.of_nat (String.length stem)) 0) as [Hlt | _]; [lia |].
  apply slice_prefix.
Qed.

Lemma rsplit_dot_head_no_dot (s : string) :
  has_char "." s = false -> Strip.rsplit_dot_head s = s.
Proof.
  intros H. unfold Strip.rsplit_dot_head, OsPath.rfind.
  rewrite rfind_from_absent by exact H. reflexivity.
Qed.

(** [os.path.splitext] of a plain file name: no slash in it, one dot
    before an extension without dot, and a stem that is not made of dots
    only. *)
Lemma splitext_name (base ext : string) :
  has_char "/" base = false -> has_char "/" ext = false ->
  has_char "." ext = false -> OsPath.all_dots base = false ->
  OsPath.splitext (base ++ "." ++ ext) = (base, "." ++ ext).
Proof.
  intros Hsb Hse Hde Hdots. unfold OsPath.splitext.
  assert (Hsep : OsPath.rfind "/" (base ++ "." ++ ext) = -1).
  { unfold OsPath.rfind. apply rfind_from_absent.
    rewrite has_char_app, Hsb. simpl. exact Hse. }
  rewrite Hsep.
  change (base ++ "." ++ ext) with (base ++ String "." ext).
  rewrite rfind_between by exact Hde.
  change (-1 + 1) with 0. rewrite slice_prefix, Hdots.
  destruct (Z.gtb_spec (Z.of_nat (String.length base)) (-1)) as [_ | Hle]; [| lia].
  simpl andb. cbv iota. f_equal.
  unfold OsPath.slice. rewrite length_append.
  rewrite Nat2Z.id.
  replace (Z.to_nat (Z.of_nat (String.length base + String.length (String "." ext))
                     - Z.of_nat (String.length base)))
    with (String.length (String "." ext)) by lia.
  apply substring_suffix.
Qed.

Lemma file_name_of_ends (r : RecordingInfo) :
  exists base, file_name_of r = base ++ ".TiVo".
Proof.
  unfold file_name_of.
  destruct (Py.truthy_oint (season_num r) && Py.truthy_oint (episode_num r)).
  - destruct (season_num r) as [s |]; [| exists (title r); reflexivity].
    destruct (episode_num r) as [e |]; [| exists (title r); reflexivity].
    exists (title r ++ " - S" ++ Py.format_02d s ++ "E" ++ Py.format_02d e
              ++ " - " ++ Py.format_ostr (episode r)).
    rewrite !append_assoc. reflexivity.
  - destruct (Py.truthy_ostr (episode r)); [| exists (title r); reflexivity].
    exists (title r ++ " - " ++ Py.format_ostr (episode r)).
    rewrite !append_assoc. reflexivity.
Qed.

Lemma startswith_sep_plain (b x : string) :
  has_char "/" b = false -> OsPath.startswith_sep x = false ->
  OsPath.startswith_sep (b ++ x) = false.
Proof.
  intros Hb Hx. destruct b as [| a b]; [exact Hx |].
  simpl in Hb. apply orb_false_iff in Hb. destruct Hb as [Ha _].
  simpl. destruct a as [b0 b1 b2 b3 b4 b5 b6 b7].
  destruct b0, b1, b2, b3, b4, b5, b6, b7; try reflexivity. discriminate Ha.
Qed.

Lemma join_plain (a b x : string) :
  has_char "/" b = false -> OsPath.startswith_sep x = false ->
  OsPath.join a (b ++ x) = OsPath.join a b ++ x.
Proof.
  intros Hb Hx. unfold OsPath.join.
  rewrite (startswith_sep_plain b x Hb Hx).
  assert (Hs : OsPath.startswith_sep b = false).
  { rewrite <- (append_nil_r b). apply startswith_sep_plain; auto. }
  rewrite Hs. destruct ((a =? EmptyString)%string || OsPath.endswith_sep a).
  - rewrite append_assoc. reflexivity.
  - rewrite !append_assoc. reflexivity.
Qed.

(** From one module to the other: every file [fetch_tivo_recordings]
    names has the ending [strip_tivo_protection] looks for in a directory,
    whatever the case of its letters; converted without a destination, a
    recording with a plain name gets the same name with the extension
    [.mpg] in the same directory; and that name, without its extension,
    is the one [download_tivo_recording] compares in the skip-check
    directory. *)
Theorem fetched_names_are_stripped_names (r : RecordingInfo) (dir base : string) :
  file_name_of r = base ++ ".TiVo" ->
  has_char "/" base = false -> OsPath.all_dots base = false ->
  Strip.endswith (Py.lower (file_name_of r)) ".tivo" = true
  /\ Strip.destination_path_of (OsPath.join dir (file_name_of r)) None
     = OsPath.join dir (base ++ ".mpg")
  /\ fst (OsPath.splitext (base ++ ".mpg")) = fst (OsPath.splitext (file_name_of r)).
Proof.
  intros Hname Hslash Hdots. rewrite Hname. split; [| split].
  - rewrite lower_app. apply endswith_app.
  - unfold Strip.destination_path_of.
    rewrite (join_plain dir base ".TiVo" Hslash eq_refl).
    rewrite (join_plain dir base ".mpg" Hslash eq_refl).
    change (OsPath.join dir base ++ ".TiVo")
      with (OsPath.join dir base ++ "." ++ "TiVo").
    rewrite rsplit_dot_head_ext by reflexivity. reflexivity.
  - change (base ++ ".mpg") with (base ++ "." ++ "mpg").
    change (base ++ ".TiVo") with (base ++ "." ++ "TiVo").
    rewrite !splitext_name by (assumption || reflexivity). reflexivity.
Qed.

Lemma fetched_names_are_stripped_names_witness :
  Strip.endswith (Py.lower (file_name_of bart_the_general)) ".tivo" = true
  /\ Strip.destination_path_of (OsPath.join "/dest" (file_name_of bart_the_general))
       None
     = OsPath.join "/dest" ("The Simpsons - Bart the General" ++ ".mpg")
  /\ fst (OsPath.splitext ("The Simpsons - Bart the General" ++ ".mpg"))
     = fst (OsPath.splitext (file_name_of bart_the_general)).
Proof.
  apply (fetched_names_are_stripped_names bart_the_general "/dest"
           "The Simpsons - Bart the General"); reflexivity.
Defined.

Section SameName.

Context {FS : Type} {fsops : FileSystem FS}.
Variable w : World.

(** A recording with a plain name is skipped when the skip-check directory
    holds a regular file of that name with any extension, such as the
    [.mpg] that [strip_tivo_protection] makes of it: nothing is requested
    from the TiVo and nothing is written. *)
Theorem same_name_is_skipped (mak : string) (r : RecordingInfo)
    (dest_dir sp : string) (fs : FS) (base ext : string) :
  file_name_of r = base ++ ".TiVo" ->
  has_char "/" base = false -> OsPath.all_dots base = false ->
  has_char "/" ext = false -> has_char "." ext = false ->
  sp <> EmptyString -> isdir fs sp = true ->
  In (base ++ "." ++ ext) (listdir fs sp) ->
  isfile fs (OsPath.join sp (base ++ "." ++ ext)) = true ->
  download_tivo_recording w mak r dest_dir (Some sp) fs = (Ret false, fs, []).
Proof.
  intros Hname Hsb Hdots Hse Hde Hsp Hdir Hin Hfile.
  apply download_handled. left. apply skip_check_true.
  exists sp, (base ++ "." ++ ext). repeat split; auto.
  rewrite Hname. change (base ++ ".TiVo") with (base ++ "." ++ "TiVo").
  rewrite !splitext_name by (assumption || reflexivity). reflexivity.
Qed.

End SameName.

Lemma same_name_is_skipped_witness :
  download_tivo_recording simpsons_world "0123456789" bart_the_general "/dest"
    (Some "/videos") disk_with_converted_bart
  = (Ret false, disk_with_converted_bart, []).
Proof.
  apply (same_name_is_skipped simpsons_world "0123456789" bart_the_general "/dest"
           "/videos" disk_with_converted_bart "The Simpsons - Bart the General" "mpg");
    try reflexivity.
  - discriminate.
  - left. reflexivity.
Defined.

Section DefaultDestination.

Context {S : Type} {machine : Strip.Machine S}.

(** Without a destination, [tivo_to_mpg] converts [stem.ext] to
    [stem.mpg], where [ext] is what follows the last dot of the path: it
    does nothing when [stem.mpg] exists, and otherwise runs the decoder
    once, from the source to [stem.mpg], and returns that path when the
    decoder ends with code 0. *)
Theorem tivo_to_mpg_default_destination (mak stem ext jar : string)
    (st : Strip.state S) :
  has_char "." ext = false ->
  let source := stem ++ "." ++ ext in
  let command :=
    ["java"; "-jar"; jar; "-i"; source; "-o"; stem ++ ".mpg"; "-m"; mak] in
  (exists_ (fst st) (stem ++ ".mpg") = true ->
   Strip.tivo_to_mpg mak source None jar st = (Ret None, st, []))
  /\ (forall err s',
         exists_ (fst st) (stem ++ ".mpg") = false ->
         Strip.popen (fst st) command = ((0, err), s') ->
         Strip.tivo_to_mpg mak source None jar st
         = (Ret (Some (stem ++ ".mpg")),
            (s', (snd st ++ [Strip.Decoded command 0])%list), [])).
Proof.
  intros Hext source command.
  assert (Hdp : Strip.destination_path_of source None = stem ++ ".mpg").
  { unfold Strip.destination_path_of, source.
    rewrite rsplit_dot_head_ext by exact Hext. reflexivity. }
  unfold Strip.tivo_to_mpg. rewrite Hdp. fold command. split.
  - intros Hex. unfold bind, Strip.see, ret. rewrite Hex. reflexivity.
  - intros err s' Hex Hp. unfold bind, Strip.see, Strip.run, ret.
    rewrite Hex, Hp. reflexivity.
Qed.

End DefaultDestination.

Lemma tivo_to_mpg_default_destination_witness :
  Strip.tivo_to_mpg "0123456789" "/videos/Toy Story.TiVo" None
    "/opt/tivo/TivoDecoder.jar" (videos_box, [])
  = (Ret (Some "/videos/Toy Story.mpg"),
     (Paths.mk ["/videos"]
        ["/opt/tivo/TivoDecoder.jar"; "/videos/Toy Story.TiVo"; "/videos/notes.txt";
         "/videos/The Simpsons - S01E05 - Bart the General.tivo";
         "/videos/Toy Story.mpg"],
      [Strip.Decoded
         ["java"; "-jar"; "/opt/tivo/TivoDecoder.jar"; "-i"; "/videos/Toy Story.TiVo";
          "-o"; "/videos/Toy Story.mpg"; "-m"; "0123456789"] 0]),
     []).
Proof.
  apply (proj2 (tivo_to_mpg_default_destination "0123456789" "/videos/Toy Story"
                  "TiVo" "/opt/tivo/TivoDecoder.jar" (videos_box, []) eq_refl)
           EmptyString
           (Paths.mk ["/videos"]
              ["/opt/tivo/TivoDecoder.jar"; "/videos/Toy Story.TiVo";
               "/videos/notes.txt";
               "/videos/The Simpsons - S01E05 - Bart the General.tivo";
               "/videos/Toy Story.mpg"])); reflexivity.
Defined.

(** ** How a run of strip_tivo_protection fails *)

Section StripFailures.

Context {S : Type} {machine : Strip.Machine S}.

Lemma tivo_to_mpg_failure (mak source : string) (destination : option string)
    (jar : string) (st : Strip.state S) s st' t :
  Strip.tivo_to_mpg mak source destination jar st = (Stop s, st', t) ->
  exists cmd rc err,
    Strip.popen (fst st) cmd = ((rc, err), fst st')
    /\ snd st' = (snd st ++ [Strip.Decoded cmd rc])%list
    /\ rc <> 0
    /\ s = FailJson
             ("The TivoDecoder command failed. The following was called " ++ dq
                ++ String.concat " " cmd ++ dq ++ " and the error was " ++ dq
                ++ err ++ dq).
Proof.
  unfold Strip.tivo_to_mpg. intros H.
  unfold bind, Strip.see, Strip.run, ret, fail_json, halt in H.
  destruct (exists_ (fst st) (Strip.destination_path_of source destination));
    [discriminate H |].
  destruct (Strip.popen (fst st)
              ["java"; "-jar"; jar; "-i"; source; "-o";
               Strip.destination_path_of source destination; "-m"; mak])
    as [[rc err] s'] eqn:Hp.
  simpl in H. destruct (Z.eqb_spec rc 0) as [Hz | Hnz]; simpl in H;
    [discriminate H |].
  inversion H; subst s st' t.
  exists ["java"; "-jar"; jar; "-i"; source; "-o";
          Strip.destination_path_of source destination; "-m"; mak], rc, err.
  simpl. rewrite Hp. auto.
Qed.

Lemma strip_all_failure (mak : string) (destination : option string) (jar : string)
    (replace : bool) (videos : list string) :
  forall count (st : Strip.state S) s st' t,
    Strip.strip_all mak destination jar replace videos count st = (Stop s, st', t) ->
    exists before cmd rc err s0,
      Strip.popen s0 cmd = ((rc, err), fst st')
      /\ snd st' = (snd st ++ before ++ [Strip.Decoded cmd rc])%list
      /\ rc <> 0
      /\ s = FailJson
               ("The TivoDecoder command failed. The following was called " ++ dq
                  ++ String.concat " " cmd ++ dq ++ " and the error was " ++ dq
                  ++ err ++ dq).
Proof.
  induction videos as [| video videos IH]; intros count st s st' t H; simpl in H.
  - discriminate H.
  - step_bind H as stripped st1 t1 t2 E.
    + inversion Hr; subst s0. apply tivo_to_mpg_failure in E.
      destruct E as [cmd [rc [err [Hp [Hlog [Hnz Hs]]]]]].
      exists [], cmd, rc, err, (fst st). auto.
    + pose proof (tivo_to_mpg_cases _ _ _ _ _ _ _ _ E) as [_ Hc].
      assert (Hpre : exists mid, snd st1 = (snd st ++ mid)%list).
      { destruct Hc as [[_ [_ ->]] | [_ [rc [err [s' [_ [-> _]]]]]]].
        - exists []. rewrite app_nil_r. reflexivity.
        - eexists. reflexivity. }
      destruct Hpre as [mid Hmid].
      destruct (Py.truthy_ostr stripped).
      * step_bind H as u st2 t3 t4 E2.
        { destruct replace; discriminate E2. }
        assert (Hpre2 : exists mid2, snd st2 = (snd st1 ++ mid2)%list).
        { destruct replace; inversion E2; subst; simpl.
          - eexists. reflexivity.
          - exists []. rewrite app_nil_r. reflexivity. }
        destruct Hpre2 as [mid2 Hmid2].
        apply IH in H.
        destruct H as [before [cmd [rc [err [s0 [Hp [Hlog [Hnz Hs]]]]]]]].
        exists (mid ++ mid2 ++ before)%list, cmd, rc, err, s0.
        split; [exact Hp | split; [| auto]].
        rewrite Hlog, Hmid2, Hmid. rewrite <- !app_assoc. reflexivity.
      * apply IH in H.
        destruct H as [before [cmd [rc [err [s0 [Hp [Hlog [Hnz Hs]]]]]]]].
        exists (mid ++ before)%list, cmd, rc, err, s0.
        split; [exact Hp | split; [| auto]].
        rewrite Hlog, Hmid. rewrite <- !app_assoc. reflexivity.
Qed.

(** A run of [strip_tivo_protection] fails in one of four ways.  When
    the decoder is not where it should be, when the source does not exist
    or when the source and an existing destination are not both files or
    both directories, it fails before doing anything.  Otherwise its last
    action is a run of the decoder that ended with a code other than 0,
    and the message quotes the command and what the decoder wrote to its
    error output. *)
Theorem strip_failure_modes (params : Strip.Params) (st : Strip.state S)
    msg st' t :
  Strip.main params st = (Stop (FailJson msg), st', t) ->
  (st' = st
   /\ ((exists_ (fst st) (Strip.p_tivo_decoder_path params) = false
        /\ msg = "TivoDecoder.jar was not found at " ++ dq
                   ++ Strip.p_tivo_decoder_path params ++ dq)
       \/ (exists_ (fst st) (Strip.p_source params) = false
           /\ msg = "The source does not exist")
       \/ ((exists d, Strip.p_destination params = Some d
                      /\ exists_ (fst st) d = true
                      /\ isdir (fst st) d <> isdir (fst st) (Strip.p_source params))
           /\ msg = "The source and destination need to be the same type")))
  \/ (exists before cmd rc err s0,
         Strip.popen s0 cmd = ((rc, err), fst st')
         /\ snd st' = (snd st ++ before ++ [Strip.Decoded cmd rc])%list
         /\ rc <> 0
         /\ msg = "The TivoDecoder command failed. The following was called " ++ dq
                    ++ String.concat " " cmd ++ dq ++ " and the error was " ++ dq
                    ++ err ++ dq).
Proof.
  unfold Strip.main. intros H.
  step_bind H as jar st1 t1 t2 E; [discriminate E |].
  unfold Strip.see in E. inversion E; subst. clear E.
  step_bind H as u1 st2 t3 t4 E.
  { unfold ret, fail_json, halt in E.
    destruct (exists_ (fst st1) (Strip.p_tivo_decoder_path params)) eqn:Hj;
      inversion E; subst. inversion Hr; subst. left. auto. }
  assert (Hst2 : st2 = st1).
  { unfold ret, fail_json, halt in E.
    destruct (exists_ (fst st1) (Strip.p_tivo_decoder_path params));
      inversion E; reflexivity. }
  subst st2. clear E.
  step_bind H as src st3 t5 t6 E; [discriminate E |].
  unfold Strip.see in E. inversion E; subst. clear E.
  step_bind H as u2 st4 t7 t8 E.
  { unfold ret, fail_json, halt in E.
    destruct (exists_ (fst st3) (Strip.p_source params)) eqn:Hsrc;
      inversion E; subst. inversion Hr; subst. left. auto. }
  assert (Hst4 : st4 = st3).
  { unfold ret, fail_json, halt in E.
    destruct (exists_ (fst st3) (Strip.p_source params)); inversion E; reflexivity. }
  subst st4. clear E.
  step_bind H as source_is_dir st5 t9 t10 E; [discriminate E |].
  unfold Strip.see in E. inversion E; subst. clear E.
  step_bind H as u3 st6 t11 t12 E.
  { left. destruct (Strip.p_destination params) as [d |]; [| discriminate E].
    destruct (Py.truthy_str d); [| discriminate E].
    unfold bind, Strip.see, ret, fail_json, halt in E. simpl in E.
    destruct (exists_ (fst st5) d) eqn:Hd; simpl in E.
    - destruct (Bool.eqb (isdir (fst st5) d)
                  (isdir (fst st5) (Strip.p_source params))) eqn:Hb;
        simpl in E; inversion E; subst. inversion Hr; subst.
      split; [reflexivity |]. right. right. split; [| reflexivity].
      exists d. split; [reflexivity | split; [exact Hd |]].
      intros Heq. apply Bool.eqb_false_iff in Hb. contradiction.
    - inversion E. }
  assert (Hst6 : st6 = st5).
  { destruct (Strip.p_destination params) as [d |];
      [| inversion E; reflexivity].
    destruct (Py.truthy_str d); [| inversion E; reflexivity].
    unfold bind, Strip.see, ret, fail_json, halt in E. simpl in E.
    destruct (exists_ (fst st5) d
              && negb (Bool.eqb (isdir (fst st5) d)
                         (isdir (fst st5) (Strip.p_source params))));
      inversion E; reflexivity. }
  subst st6. clear E.
  step_bind H as videos st7 t13 t14 E.
  { destruct (isdir (fst st5) (Strip.p_source params)); discriminate E. }
  assert (Hst7 : st7 = st5).
  { unfold Strip.see in E.
    destruct (isdir (fst st5) (Strip.p_source params)); inversion E; reflexivity. }
  subst st7. clear E.
  step_bind H as n st8 t15 t16 E.
  - inversion Hr; subst s. right. apply strip_all_failure in E.
    destruct E as [before [cmd [rc [err [s0 [Hp [Hlog [Hnz Hs]]]]]]]].
    exists before, cmd, rc, err, s0. inversion Hs. auto.
  - unfold exit_json, halt in H. destruct (n >? 0); discriminate H.
Qed.

End StripFailures.

Lemma strip_failure_modes_witness :
  exists before cmd rc err s0,
    @Strip.popen Paths.t wrong_key_box s0 cmd = ((rc, err), videos_box)
    /\ [Strip.Decoded
          ["java"; "-jar"; "/opt/tivo/TivoDecoder.jar"; "-i"; "/videos/Toy Story.TiVo";
           "-o"; "/videos/Toy Story.mpg"; "-m"; "0123456789"] 1]
       = ([] ++ before ++ [Strip.Decoded cmd rc])%list
    /\ rc <> 0
    /\ "The TivoDecoder command failed. The following was called " ++ dq
         ++ "java -jar /opt/tivo/TivoDecoder.jar -i /videos/Toy Story.TiVo"
         ++ " -o /videos/Toy Story.mpg -m 0123456789" ++ dq
         ++ " and the error was " ++ dq ++ "Invalid MAK" ++ dq
       = "The TivoDecoder command failed. The following was called " ++ dq
           ++ String.concat " " cmd ++ dq ++ " and the error was " ++ dq
           ++ err ++ dq.
Proof.
  destruct (@strip_failure_modes Paths.t wrong_key_box (strip_videos false None)
              (videos_box, [])
              ("The TivoDecoder command failed. The following was called " ++ dq
                 ++ "java -jar /opt/tivo/TivoDecoder.jar -i /videos/Toy Story.TiVo"
                 ++ " -o /videos/Toy Story.mpg -m 0123456789" ++ dq
                 ++ " and the error was " ++ dq ++ "Invalid MAK" ++ dq)
              (videos_box,
               [Strip.Decoded
                  ["java"; "-jar"; "/opt/tivo/TivoDecoder.jar"; "-i";
                   "/videos/Toy Story.TiVo"; "-o"; "/videos/Toy Story.mpg"; "-m";
                   "0123456789"] 1])
              [] eq_refl) as [[Hsame _] | Hlast].
  - discriminate Hsame.
  - exact Hlast.
Defined.

(** ** A download that fails *)

Section FailedDownload.

Context {FS : Type} {fsops : FileSystem FS}.
Variable w : World.

(** When the TiVo cannot be reached for a download, or answers it with an
    error status, the run fails and no file is created or written.  For a
    recording with an episode name the message puts the title where it
    announces the episode and the episode name where it announces the
    series, with no space before its last word. *)
Theorem failed_download_writes_nothing (mak : string) (r : RecordingInfo)
    (dest_dir : string) (skip_path : option string) (fs : FS) (ep : string) :
  skip_check fs skip_path (file_name_of r) = false ->
  exists_ fs (OsPath.join dest_dir (file_name_of r)) = false ->
  episode r = Some ep -> ep <> EmptyString ->
  (tivo_download w mak (link r) = ConnectionError
   \/ exists rv, tivo_download w mak (link r) = Responded rv /\ ok rv = false) ->
  download_tivo_recording w mak r dest_dir skip_path fs
  = (Stop (FailJson ("Downloading the episode " ++ dq ++ title r ++ dq
                       ++ " from the series " ++ dq ++ ep ++ dq ++ "failed.")),
     fs, [EvTivoDownload (link r)]).
Proof.
  intros Hs He Hep Hne Hd.
  assert (Ht : Py.truthy_ostr (episode r) = true).
  { rewrite Hep. simpl. apply truthy_str_true. exact Hne. }
  unfold download_tivo_recording.
  rewrite (bind_Ret _ _ _ _ _ _ (skip_stage fs skip_path (file_name_of r))).
  cbv beta. unfold result_of, fs_of, trace_of. rewrite Hs, Ht.
  unfold bind, look, ret, requests_wrapper, emit, fail_json, halt.
  rewrite He. destruct Hd as [Hd | [rv [Hd Hok]]]; rewrite Hd.
  - rewrite Hep. reflexivity.
  - rewrite Hok, Hep. reflexivity.
Qed.

End FailedDownload.

Lemma failed_download_writes_nothing_witness :
  download_tivo_recording unplugged_world "0123456789" bart_the_general "/dest"
    (Some "/videos") empty_disk
  = (Stop (FailJson ("Downloading the episode " ++ dq ++ "The Simpsons" ++ dq
                       ++ " from the series " ++ dq ++ "Bart the General" ++ dq
                       ++ "failed.")),
     empty_disk, [EvTivoDownload "http://tivo/5&Format=video/x-tivo-mpeg"]).
Proof.
  apply (failed_download_writes_nothing unplugged_world "0123456789"
           bart_the_general "/dest" (Some "/videos") empty_disk "Bart the General");
    try reflexivity.
  - discriminate.
  - left. reflexivity.
Defined.
